(** * paddleocr_cli: the OCR client and the configuration resolver

    A shallow embedding of the two Go packages of the repository,
    [internal/config] (config.go) and the [ocr] client, and the properties
    of them that the specification states.

    Go strings are byte strings and are modelled by [string] (a list of
    8-bit characters).  The operating system and the network are an
    explicit [World].  The parts of the Go libraries that are functions of
    their arguments and short enough are written out ([strings],
    [path/filepath], [encoding/base64]); the YAML and JSON codecs, the
    Unicode tables and the URL parser are parameters, the classes
    [config.Yaml] and [ocr.Lib], over which the definitions and theorems
    are generic. *)

From Stdlib Require Import ZArith Ascii String List Lia Bool.
From Stdlib Require Import Numbers.DecimalString.
From stdpp Require Import base option list strings gmap.

Local Open Scope string_scope.
Local Open Scope Z_scope.

(** ** Go values: errors and results *)

(** A Go [error] value: its text ([err.Error()]) and whether
    [os.IsNotExist] recognises it. *)
Record error := mkError { err_not_exist : bool; err_text : string }.

(** The pair [(value, error)] a Go function returns: either a value and a
    nil error, or a non-nil error. *)
Inductive result (A : Type) : Type :=
| Ok (a : A)
| Err (e : error).
Arguments Ok {A} a.
Arguments Err {A} e.

(** [os.IsNotExist(err)]; the argument may be the nil error. *)
Definition os_IsNotExist (err : option error) : bool :=
  match err with
  | Some e => err_not_exist e
  | None => false
  end.

(** [os.ErrNotExist]. *)
Definition os_ErrNotExist : error := mkError true "file does not exist".

Definition ENOENT : error := mkError true "no such file or directory".
Definition EISDIR : error := mkError false "is a directory".
Definition ENOTDIR : error := mkError false "not a directory".
Definition EACCES : error := mkError false "permission denied".

(** [&fs.PathError{Op: op, Path: path, Err: err}], the error of a file
    operation: its text is [op path: err], and [os.IsNotExist] looks at
    the error inside. *)
Definition PathError (op path : string) (err : error) : error :=
  mkError (err_not_exist err) (op +:+ " " +:+ path +:+ ": " +:+ err_text err).

(** The error half of a result, nil when there is none. *)
Definition error_of {A} (r : result A) : option error :=
  match r with
  | Ok _ => None
  | Err e => Some e
  end.

(** ** Package strings *)

Definition is_upper (c : ascii) : bool :=
  let n := N_of_ascii c in ((65 <=? n) && (n <=? 90))%N.

Definition is_ascii (c : ascii) : bool := (N_of_ascii c <? 128)%N.

(** [c += 'a' - 'A'] on an upper-case ASCII letter. *)
Definition lower_byte (c : ascii) : ascii :=
  if is_upper c then ascii_of_N (N_of_ascii c + 32) else c.

Fixpoint string_forall (p : ascii -> bool) (s : string) : bool :=
  match s with
  | EmptyString => true
  | String c s' => p c && string_forall p s'
  end.

Fixpoint string_exists (p : ascii -> bool) (s : string) : bool :=
  match s with
  | EmptyString => false
  | String c s' => p c || string_exists p s'
  end.

Fixpoint string_map (f : ascii -> ascii) (s : string) : string :=
  match s with
  | EmptyString => EmptyString
  | String c s' => String (f c) (string_map f s')
  end.

(** [strings.Join(elems, sep)]. *)
Fixpoint strings_Join_tail (elems : list string) (sep : string) : string :=
  match elems with
  | [] => ""
  | s :: rest => sep +:+ s +:+ strings_Join_tail rest sep
  end.

Definition strings_Join (elems : list string) (sep : string) : string :=
  match elems with
  | [] => ""
  | [s] => s
  | s :: rest => s +:+ strings_Join_tail rest sep
  end.

(** [strings.TrimRight(s, cutset)] for a one-byte cutset. *)
Fixpoint strings_TrimRight (s : string) (cut : ascii) : string :=
  match s with
  | EmptyString => EmptyString
  | String c s' =>
      match strings_TrimRight s' cut with
      | EmptyString => if decide (c = cut) then EmptyString else String c EmptyString
      | t => String c t
      end
  end.

(** The line feed, Go's ["\n"]. *)
Definition LF : string := String (ascii_of_nat 10) "".

(** [strconv.Itoa], the text [fmt.Sprintf] writes for [%d]. *)
Definition strconv_Itoa (n : Z) : string :=
  NilZero.string_of_int (Z.to_int n).

(** [strings.ToLower].  Go lowers an all-ASCII string byte by byte (and
    returns it unchanged when it has no upper-case letter); any other
    string goes through [strings.Map(unicode.ToLower, s)], which is left
    to [GoLib]. *)
Definition strings_ToLower_with (unicode_map : string -> string) (s : string) : string :=
  if string_forall is_ascii s then
    if string_exists is_upper s then string_map lower_byte s else s
  else unicode_map s.

(** ** Package path/filepath (Unix: the separator is [/], no volume names) *)

Definition Separator : ascii := "/"%char.
Definition dot : ascii := "."%char.

Definition is_sep (c : ascii) : bool := bool_decide (c = Separator).

(** The path elements between separators, empty ones included. *)
Fixpoint split_path (p : list ascii) : list (list ascii) :=
  match p with
  | [] => [[]]
  | c :: r =>
      if is_sep c then [] :: split_path r
      else match split_path r with
           | h :: t => (c :: h) :: t
           | [] => [[c]]
           end
  end.

Fixpoint join_path (elems : list (list ascii)) : list ascii :=
  match elems with
  | [] => []
  | [e] => e
  | e :: rest => e ++ Separator :: join_path rest
  end.

Definition is_dotdot (e : list ascii) : bool := bool_decide (e = [dot; dot]).

(** One element of the path read by [Clean]; [out] is the output so far,
    last element first.  An empty element and [.] are dropped; [..]
    removes the last real element of the output, is kept when the path is
    not rooted and there is nothing to remove, and is dropped at the root. *)
Definition clean_step (rooted : bool) (out : list (list ascii)) (e : list ascii)
  : list (list ascii) :=
  if bool_decide (e = []) || bool_decide (e = [dot]) then out
  else if is_dotdot e then
    match out with
    | top :: rest =>
        if is_dotdot top then (if rooted then out else e :: out) else rest
    | [] => if rooted then out else [e]
    end
  else e :: out.

Definition clean_bytes (p : list ascii) : list ascii :=
  match p with
  | [] => [dot]
  | c :: _ =>
      let rooted := is_sep c in
      let out := rev (fold_left (clean_step rooted) (split_path p) []) in
      match (if rooted then Separator :: join_path out else join_path out) with
      | [] => [dot]
      | r => r
      end
  end.

(** [filepath.Clean]. *)
Definition filepath_Clean (path : string) : string :=
  string_of_list_ascii (clean_bytes (list_ascii_of_string path)).

(** [filepath.Join]: the elements from the first non-empty one on are
    joined with the separator and cleaned; no such element gives [""]. *)
Fixpoint filepath_Join (elem : list string) : string :=
  match elem with
  | [] => ""
  | e :: rest =>
      if decide (e = "") then filepath_Join rest
      else filepath_Clean (strings_Join elem (String Separator ""))
  end.

(** The bytes of a path up to and including its last separator. *)
Fixpoint dir_part (p : list ascii) : list ascii :=
  match p with
  | [] => []
  | c :: r =>
      if existsb is_sep p then c :: dir_part r else []
  end.

(** [filepath.Dir]. *)
Definition filepath_Dir (path : string) : string :=
  string_of_list_ascii (clean_bytes (dir_part (list_ascii_of_string path))).

(** The loop of [filepath.Ext]: it reads the path from its end, [suffix]
    being what was read, and stops at the first separator or dot. *)
Fixpoint Ext_loop (rev_path : list ascii) (suffix : string) : string :=
  match rev_path with
  | [] => ""
  | c :: rest =>
      if is_sep c then ""
      else if bool_decide (c = dot) then String c suffix
      else Ext_loop rest (String c suffix)
  end.

(** [filepath.Ext]. *)
Definition filepath_Ext (path : string) : string :=
  Ext_loop (rev (list_ascii_of_string path)) "".

(** [filepath.IsAbs]. *)
Definition filepath_IsAbs (path : string) : bool :=
  match path with
  | String c _ => is_sep c
  | EmptyString => false
  end.


(** ** Package encoding/base64 *)

Definition base64_alphabet : list ascii :=
  list_ascii_of_string "ABCDEFGHIJKLMNOPQRSTUVWXYZabcdefghijklmnopqrstuvwxyz0123456789+/".

Definition base64_digit (n : N) : ascii :=
  nth (N.to_nat n) base64_alphabet "="%char.

(** Three bytes become four digits; a last group of one or two bytes is
    padded with [=]. *)
Fixpoint base64_groups (bytes : list N) : list ascii :=
  match bytes with
  | a :: b :: c :: rest =>
      base64_digit (a / 4) :: base64_digit ((a mod 4) * 16 + b / 16)
      :: base64_digit ((b mod 16) * 4 + c / 64) :: base64_digit (c mod 64)
      :: base64_groups rest
  | [a; b] =>
      [base64_digit (a / 4); base64_digit ((a mod 4) * 16 + b / 16);
       base64_digit ((b mod 16) * 4); "="%char]
  | [a] => [base64_digit (a / 4); base64_digit ((a mod 4) * 16); "="%char; "="%char]
  | [] => []
  end%N.

(** [base64.StdEncoding.EncodeToString]. *)
Definition base64_EncodeToString (data : string) : string :=
  string_of_list_ascii (base64_groups (map N_of_ascii (list_ascii_of_string data))).

(** ** Package net/http *)

(** [http.Client]: only its timeout (a [time.Duration], nanoseconds). *)
Record http_Client := mkClient { http_Timeout : Z }.

(** [http.Request] as the client builds it. *)
Record http_Request := mkRequest {
  req_Method : string;
  req_URL : string;
  req_Header : gmap string string;
  req_Body : string
}.

(** [http.Response]: [resp_Body] is what [io.ReadAll(resp.Body)] gives. *)
Record http_Response := mkResponse {
  resp_StatusCode : Z;
  resp_Status : string;
  resp_Body : result string
}.

Definition http_StatusOK : Z := 200.
Definition time_Second : Z := 1000000000.

(** [req.Header.Set(key, value)]. *)
Definition Header_Set (key value : string) (req : http_Request) : http_Request :=
  mkRequest (req_Method req) (req_URL req) (<[key := value]> (req_Header req)) (req_Body req).

(** ** The world: process environment, file system, network *)

(** What a path names: a regular file with its contents and mode, a
    directory, or something the process is denied access to. *)
Inductive Node :=
| NFile (data : string) (mode : Z)
| NDir
| NDenied.

(** The file system is a tree keyed by the cleaned absolute path; there
    are no links, and the modes of files are recorded, not enforced.
    [w_cwd] and [w_home] are what [os.Getwd] and [os.UserHomeDir] return;
    [w_net] is what the transport and the server answer to a request sent
    with a timeout; [w_disk] is what the device answers to the write of
    some bytes to the file at a key: nothing, or the number of bytes that
    were written and the error that stopped the write (a full device, a
    quota). *)
Record World := mkWorld {
  w_cwd : result string;
  w_home : result string;
  w_fs : gmap string Node;
  w_net : http_Client -> http_Request -> result http_Response;
  w_disk : string -> string -> option (nat * error)
}.

Record FileInfo := mkFileInfo { fi_IsDir : bool }.

Definition os_Getwd (w : World) : result string := w_cwd w.
Definition os_UserHomeDir (w : World) : result string := w_home w.

(** The key of a name: a relative name is taken from the working
    directory.  The empty name has no key, and a relative name has none in
    a process whose working directory cannot be determined. *)
Definition fs_key (w : World) (name : string) : option string :=
  if decide (name = "") then None
  else if filepath_IsAbs name then Some (filepath_Clean name)
  else
    match w_cwd w with
    | Ok cwd => Some (filepath_Join [cwd; name])
    | Err _ => None
    end.

(** What a name leads to. *)
Definition fs_node (w : World) (name : string) : option Node :=
  match fs_key w name with
  | Some key => w_fs w !! key
  | None => None
  end.

Fixpoint prefixes {A} (l : list A) : list (list A) :=
  match l with
  | [] => []
  | x :: r => [x] :: map (cons x) (prefixes r)
  end.

(** A cleaned path and the directories above it, outermost first, from
    the root or from the dot. *)
Definition ancestors (name : string) : list string :=
  let b := list_ascii_of_string (filepath_Clean name) in
  let rooted := match b with
                | c :: _ => is_sep c
                | [] => false
                end in
  let base := if rooted then [Separator] else [] in
  (if rooted then "/" else ".")
  :: map (fun els => string_of_list_ascii (base ++ join_path els)%list)
       (prefixes (List.filter (fun e => negb (bool_decide (e = []))) (split_path b))).

(** The walk down the keys [dirs] that ends where nothing is: it stops
    with [ENOTDIR] at a regular file, with [EACCES] at what is denied, and
    with [ENOENT] where nothing is. *)
Fixpoint walk_errno (fs : gmap string Node) (dirs : list string) : error :=
  match dirs with
  | [] => ENOENT
  | d :: rest =>
      match fs !! d with
      | Some NDir => walk_errno fs rest
      | Some (NFile _ _) => ENOTDIR
      | Some NDenied => EACCES
      | None => ENOENT
      end
  end.

(** The error number for a name that leads to nothing. *)
Definition fs_errno (w : World) (name : string) : error :=
  match fs_key w name with
  | Some key => walk_errno (w_fs w) (ancestors key)
  | None => ENOENT
  end.

(** [os.Stat(name)]. *)
Definition os_Stat (w : World) (name : string) : result FileInfo :=
  match fs_node w name with
  | Some (NFile _ _) => Ok (mkFileInfo false)
  | Some NDir => Ok (mkFileInfo true)
  | Some NDenied => Err (PathError "stat" name EACCES)
  | None => Err (PathError "stat" name (fs_errno w name))
  end.

(** [os.ReadFile(name)]: a directory can be opened, and not read. *)
Definition os_ReadFile (w : World) (name : string) : result string :=
  match fs_node w name with
  | Some (NFile data _) => Ok data
  | Some NDir => Err (PathError "read" name EISDIR)
  | Some NDenied => Err (PathError "open" name EACCES)
  | None => Err (PathError "open" name (fs_errno w name))
  end.

(** Commands that change the world: the new world and the value or error. *)
Definition IO (A : Type) : Type := World -> result A * World.

Definition io_ret {A} (a : A) : IO A := fun w => (Ok a, w).

Definition io_bind {A B} (c : IO A) (k : A -> IO B) : IO B :=
  fun w =>
    match c w with
    | (Ok a, w') => k a w'
    | (Err e, w') => (Err e, w')
    end.

(** A world-independent result, and a read of the world, as commands. *)
Definition io_lift {A} (r : result A) : IO A := fun w => (r, w).
Definition io_read {A} (f : World -> result A) : IO A := fun w => (f w, w).

Definition set_fs (fs : gmap string Node) (w : World) : World :=
  mkWorld (w_cwd w) (w_home w) fs (w_net w) (w_disk w).

(** The loop of [os.MkdirAll] over the directories [dirs], outermost
    first: what is missing is made, what is there has to be a directory. *)
Fixpoint mkdir_each (w : World) (dirs : list string) (fs : gmap string Node)
  : result unit * gmap string Node :=
  match dirs with
  | [] => (Ok tt, fs)
  | d :: rest =>
      match fs_key w d with
      | None => (Err (PathError "mkdir" d ENOENT), fs)
      | Some key =>
          match fs !! key with
          | None => mkdir_each w rest (<[key := NDir]> fs)
          | Some NDir => mkdir_each w rest fs
          | Some (NFile _ _) => (Err (PathError "mkdir" d ENOTDIR), fs)
          | Some NDenied => (Err (PathError "mkdir" d EACCES), fs)
          end
      end
  end.

(** [os.MkdirAll(path, perm)]: the directory and its missing parents. *)
Definition os_MkdirAll (path : string) (perm : Z) : IO unit :=
  fun w =>
    if decide (path = "") then (Err (PathError "mkdir" path ENOENT), w)
    else let (r, fs) := mkdir_each w (ancestors path) (w_fs w) in (r, set_fs fs w).

(** The first bytes of [data], those a write that stops early leaves. *)
Definition written (n : nat) (data : string) : string := String.substring 0 n data.

(** [OpenFile(name, O_WRONLY|O_CREATE|O_TRUNC, perm)] at a key: the mode
    of the file that is open, an existing one or one made with [perm] in
    an existing directory. *)
Definition open_for_writing (fs : gmap string Node) (key : string) (perm : Z) : result Z :=
  match fs !! key with
  | Some (NFile _ mode) => Ok mode
  | Some NDir => Err EISDIR
  | Some NDenied => Err EACCES
  | None =>
      match fs !! filepath_Dir key with
      | Some NDir => Ok perm
      | _ => Err (walk_errno fs (ancestors (filepath_Dir key)))
      end
  end.

(** [os.WriteFile(name, data, perm)]: the file is opened, created with
    [perm] or truncated, keeping its mode, and then written.  When the
    file cannot be opened nothing changes; when the write fails the file
    is left with the bytes that were written. *)
Definition os_WriteFile (name data : string) (perm : Z) : IO unit :=
  fun w =>
    match fs_key w name with
    | None => (Err (PathError "open" name ENOENT), w)
    | Some key =>
        match open_for_writing (w_fs w) key perm with
        | Err err => (Err (PathError "open" name err), w)
        | Ok mode =>
            match w_disk w key data with
            | None => (Ok tt, set_fs (<[key := NFile data mode]> (w_fs w)) w)
            | Some (n, err) =>
                (Err (PathError "write" name err),
                 set_fs (<[key := NFile (written n data) mode]> (w_fs w)) w)
            end
        end
    end.

(** ** Package config (internal/config/config.go) *)

Module config.

Definition ConfigFilename : string := ".paddleocr_cli.yaml".
Definition UserConfigDir : string := ".config/paddleocr_cli".
Definition UserConfigFile : string := "config.yaml".

Record PaddleOCRConfig := mkPaddleOCRConfig {
  ServerURL : string;
  AccessToken : string
}.

Record Config := mkConfig { PaddleOCR : PaddleOCRConfig }.

(** [gopkg.in/yaml.v3] on a [Config]: [yaml.Marshal(config)], and
    [yaml.Unmarshal(data, config)] as the value [config] has afterwards. *)
Class Yaml := {
  yaml_Marshal : Config -> result string;
  yaml_Unmarshal : string -> Config -> result Config
}.

Definition New : Config := mkConfig (mkPaddleOCRConfig "" "").

Definition IsConfigured (c : Config) : bool :=
  negb (bool_decide (ServerURL (PaddleOCR c) = ""))
  && negb (bool_decide (AccessToken (PaddleOCR c) = "")).

(** The [for] loop of [GetProjectRoot].  [None] stands for a loop that
    has not ended after [fuel] rounds; [GetProjectRoot_loop_ends] shows
    that the fuel [GetProjectRoot] gives is always enough. *)
Fixpoint GetProjectRoot_loop (fuel : nat) (w : World) (home current : string)
  : option string :=
  match fuel with
  | O => None
  | S fuel' =>
      let claudeDir := filepath_Join [current; ".claude"] in
      let found := match os_Stat w claudeDir with
                   | Ok info => fi_IsDir info
                   | Err _ => false
                   end in
      if found then Some current
      else
        let parent := filepath_Dir current in
        if bool_decide (parent = current) || bool_decide (current = home)
        then Some ""
        else GetProjectRoot_loop fuel' w home parent
  end.

Definition GetProjectRoot (w : World) : string :=
  match os_Getwd w with
  | Err _ => ""
  | Ok cwd =>
      let home := match os_UserHomeDir w with Ok h => h | Err _ => "" end in
      default "" (GetProjectRoot_loop (S (S (String.length cwd))) w home cwd)
  end.

(** The last loop of [FindConfig]: the first path that [os.Stat] accepts. *)
Fixpoint first_existing (w : World) (searchPaths : list string) : string :=
  match searchPaths with
  | [] => ""
  | path :: rest =>
      match os_Stat w path with
      | Ok _ => path
      | Err _ => first_existing w rest
      end
  end.

(** The three [append]s of [FindConfig]. *)
Definition searchPaths (w : World) : list string :=
  let s1 := match os_Getwd w with
            | Ok cwd => [filepath_Join [cwd; ConfigFilename]]
            | Err _ => []
            end in
  let projectRoot := GetProjectRoot w in
  let s2 := if decide (projectRoot = "") then s1
            else (s1 ++ [filepath_Join [projectRoot; ConfigFilename]])%list in
  match os_UserHomeDir w with
  | Ok home => (s2 ++ [filepath_Join [home; UserConfigDir; UserConfigFile]])%list
  | Err _ => s2
  end.

Definition FindConfig (w : World) : string := first_existing w (searchPaths w).

Section WithYaml.
Context {Y : Yaml}.

(** [Load]: Go's [(nil, err)] is [Err err]. *)
Definition Load (configPath : string) (w : World) : result Config :=
  let configPath := if decide (configPath = "") then FindConfig w else configPath in
  if decide (configPath = "") then Ok New
  else
    match os_ReadFile w configPath with
    | Err err => if os_IsNotExist (Some err) then Ok New else Err err
    | Ok data => yaml_Unmarshal data New
    end.

(** [Save]: [Ok tt] is the nil error. *)
Definition Save (config : Config) (configPath : string) : IO unit :=
  io_bind
    (if decide (configPath = "") then
       io_bind (io_read os_UserHomeDir) (fun home =>
       let configDir := filepath_Join [home; UserConfigDir] in
       io_bind (os_MkdirAll configDir 493) (fun _ =>
       io_ret (filepath_Join [configDir; UserConfigFile])))
     else io_ret configPath)
    (fun configPath =>
       io_bind (os_MkdirAll (filepath_Dir configPath) 493) (fun _ =>
       io_bind (io_lift (yaml_Marshal config)) (fun data =>
       os_WriteFile configPath data 384))).

End WithYaml.

Definition GetSavePath (scope : string) (w : World) : result string :=
  if decide (scope = "local") then
    match os_Getwd w with
    | Err err => Err err
    | Ok cwd => Ok (filepath_Join [cwd; ConfigFilename])
    end
  else if decide (scope = "project") then
    let projectRoot := GetProjectRoot w in
    if decide (projectRoot = "") then Err os_ErrNotExist
    else Ok (filepath_Join [projectRoot; ConfigFilename])
  else
    match os_UserHomeDir w with
    | Err err => Err err
    | Ok home => Ok (filepath_Join [home; UserConfigDir; UserConfigFile])
    end.

(** One entry of [GetConfigLocations], its anonymous struct. *)
Record Location := mkLocation {
  Description : string;
  Path : string;
  Exists : bool
}.

(** [err == nil] after [_, err := os.Stat(path)]. *)
Definition stat_ok (w : World) (path : string) : bool :=
  match os_Stat w path with
  | Ok _ => true
  | Err _ => false
  end.

Definition GetConfigLocations (w : World) : list Location :=
  let l1 := match os_Getwd w with
            | Ok cwd =>
                let path := filepath_Join [cwd; ConfigFilename] in
                [mkLocation "Current directory" path (stat_ok w path)]
            | Err _ => []
            end in
  let projectRoot := GetProjectRoot w in
  let l2 := if decide (projectRoot = "") then
              (l1 ++ [mkLocation "Project root" "(not found)" false])%list
            else
              let path := filepath_Join [projectRoot; ConfigFilename] in
              (l1 ++ [mkLocation "Project root" path (stat_ok w path)])%list in
  match os_UserHomeDir w with
  | Ok home =>
      let path := filepath_Join [home; UserConfigDir; UserConfigFile] in
      (l2 ++ [mkLocation "User config" path (stat_ok w path)])%list
  | Err _ => l2
  end.

End config.

(** ** Package ocr (the PaddleOCR API client) *)

Module ocr.

Definition LayoutParsingEndpoint : string := "/layout-parsing".
Definition HealthEndpoint : string := "/health".

Inductive FileType := FileTypePDF | FileTypeImage.

(** [int(fileType)]. *)
Definition FileType_int (t : FileType) : Z :=
  match t with
  | FileTypePDF => 0
  | FileTypeImage => 1
  end.

(** A Go [map[string]string]; [None] is the nil map. *)
Abbreviation go_map := (option (gmap string string)).

Record OCRResult := mkOCRResult {
  PageIndex : Z;
  Markdown : string;
  Images : go_map
}.

Record DocumentOCRResult := mkDocumentOCRResult {
  Success : bool;
  Pages : list OCRResult;
  ErrorMessage : string;
  LogID : string
}.

(** [config] is a pointer: [None] is nil. *)
Record Client := mkOCRClient {
  config : option config.Config;
  httpClient : http_Client
}.

Record OCROptions := mkOCROptions {
  UseDocOrientationClassify : bool;
  UseDocUnwarping : bool;
  UseChartRecognition : bool;
  Timeout : Z
}.

(** The request payload, a map with these five keys. *)
Record Payload := mkPayload {
  pl_file : string;
  pl_fileType : Z;
  pl_useDocOrientationClassify : bool;
  pl_useDocUnwarping : bool;
  pl_useChartRecognition : bool
}.

(** The anonymous [response] struct of [OCRFile]. *)
Record MarkdownData := mkMarkdownData {
  md_Text : string;
  md_Images : go_map
}.

Record LayoutParsingResult := mkLayoutParsingResult { lp_Markdown : MarkdownData }.

Record ResultData := mkResultData { LayoutParsingResults : list LayoutParsingResult }.

Record APIResponse := mkAPIResponse {
  api_LogID : string;
  api_ErrorCode : Z;
  api_ErrorMsg : string;
  api_Result : ResultData
}.

(** What the client takes from the Go libraries: the non-ASCII case of
    [strings.ToLower], [json.Marshal] of the payload, [json.Unmarshal]
    into a zero [response], and the error, if any, [http.NewRequest]
    finds in a URL. *)
Class Lib := {
  unicode_Map_ToLower : string -> string;
  json_Marshal : Payload -> result string;
  json_Unmarshal : string -> result APIResponse;
  url_Parse_error : string -> option error
}.

(** A call either returns or panics (a nil pointer dereference). *)
Inductive Outcome (A : Type) : Type :=
| Returns (a : A)
| Panics.
Arguments Returns {A} a.
Arguments Panics {A}.

(** What [OCRFile] asks of the world, in the order it asks. *)
Inductive Event :=
| EvStat (name : string)
| EvReadFile (name : string)
| EvDo (client : http_Client) (req : http_Request).

(** A computation that reads the world and records its calls. *)
Definition Eff (A : Type) : Type := World -> A * list Event.

Definition ret {A} (a : A) : Eff A := fun _ => (a, []).

Definition bind {A B} (c : Eff A) (k : A -> Eff B) : Eff B :=
  fun w => let (a, t1) := c w in let (b, t2) := k a w in (b, (t1 ++ t2)%list).

Definition call_Stat (name : string) : Eff (result FileInfo) :=
  fun w => (os_Stat w name, [EvStat name]).

Definition call_ReadFile (name : string) : Eff (result string) :=
  fun w => (os_ReadFile w name, [EvReadFile name]).

(** [client.Do(req)]. *)
Definition call_Do (client : http_Client) (req : http_Request) : Eff (result http_Response) :=
  fun w => (w_net w client req, [EvDo client req]).

(** [FullMarkdown]: the loop that collects [parts]. *)
Definition FullMarkdown_parts (pages : list OCRResult) : list string :=
  fold_left (fun parts page => (parts ++ [Markdown page])%list) pages [].

Definition FullMarkdown (r : DocumentOCRResult) : string :=
  strings_Join (FullMarkdown_parts (Pages r)) (LF +:+ LF +:+ "---" +:+ LF +:+ LF).

Section WithLib.
Context {L : Lib} {Y : config.Yaml}.

Definition strings_ToLower (s : string) : string :=
  strings_ToLower_with unicode_Map_ToLower s.

(** [NewClient]: a nil [cfg] is replaced by what [config.Load("")] returns,
    its error dropped. *)
Definition NewClient (cfg : option config.Config) (w : World) : Client :=
  let cfg := match cfg with
             | Some c => Some c
             | None => match config.Load "" w with
                       | Ok c => Some c
                       | Err _ => None
                       end
             end in
  mkOCRClient cfg (mkClient (120 * time_Second)).

(** [c.IsConfigured()]; it dereferences [c.config]. *)
Definition IsConfigured (c : Client) : Outcome bool :=
  match config c with
  | Some cfg => Returns (config.IsConfigured cfg)
  | None => Panics
  end.

(** [c.ServerURL()]. *)
Definition ServerURL (c : Client) : Outcome string :=
  match config c with
  | Some cfg => Returns (strings_TrimRight (config.ServerURL (config.PaddleOCR cfg)) Separator)
  | None => Panics
  end.

Definition getFileType (filePath : string) : FileType :=
  let ext := strings_ToLower (filepath_Ext filePath) in
  if decide (ext = ".pdf") then FileTypePDF
  else if bool_decide (ext ∈ [".png"; ".jpg"; ".jpeg"; ".bmp"; ".tiff"; ".tif"; ".webp"])
  then FileTypeImage
  else FileTypeImage.

Definition encodeFile (filePath : string) : Eff (result string) :=
  bind (call_ReadFile filePath) (fun r =>
  match r with
  | Err err => ret (Err err)
  | Ok data => ret (Ok (base64_EncodeToString data))
  end).

Definition DefaultOCROptions : OCROptions :=
  mkOCROptions false false false (120 * time_Second).

(** [http.NewRequest(method, url, body)]. *)
Definition http_NewRequest (method url body : string) : result http_Request :=
  match url_Parse_error url with
  | Some err => Err err
  | None => Ok (mkRequest method url ∅ body)
  end.

(** The failed result every error branch of [OCRFile] returns. *)
Definition failure (msg logID : string) : DocumentOCRResult :=
  mkDocumentOCRResult false [] msg logID.

(** The loop of [OCRFile] that builds [pages], from index [i] on. *)
Fixpoint build_pages (i : Z) (results : list LayoutParsingResult) (pages : list OCRResult)
  : list OCRResult :=
  match results with
  | [] => pages
  | layoutResult :: rest =>
      let images := md_Images (lp_Markdown layoutResult) in
      let images := match images with
                    | None => Some ∅
                    | Some m => Some m
                    end in
      build_pages (i + 1) rest
        (pages ++ [mkOCRResult i (md_Text (lp_Markdown layoutResult)) images])%list
  end.

Definition OCRFile (c : Client) (filePath : string) (opts : OCROptions)
  : Eff (Outcome DocumentOCRResult) :=
  bind (call_Stat filePath) (fun st =>
  if os_IsNotExist (error_of st) then
    ret (Returns (failure ("File not found: " +:+ filePath) ""))
  else
  match IsConfigured c with
  | Panics => ret Panics
  | Returns false =>
      ret (Returns (failure
        "PaddleOCR is not configured. Run 'paddleocr-cli configure' first." ""))
  | Returns true =>
  bind (encodeFile filePath) (fun enc =>
  match enc with
  | Err err => ret (Returns (failure ("Failed to read file: " +:+ err_text err) ""))
  | Ok fileData =>
  let payload := mkPayload fileData (FileType_int (getFileType filePath))
                   (UseDocOrientationClassify opts) (UseDocUnwarping opts)
                   (UseChartRecognition opts) in
  match json_Marshal payload with
  | Err err => ret (Returns (failure ("Failed to marshal payload: " +:+ err_text err) ""))
  | Ok payloadBytes =>
  match ServerURL c, config c with
  | Panics, _ | _, None => ret Panics
  | Returns serverURL, Some cfg =>
  let url := serverURL +:+ LayoutParsingEndpoint in
  match http_NewRequest "POST" url payloadBytes with
  | Err err => ret (Returns (failure ("Failed to create request: " +:+ err_text err) ""))
  | Ok req =>
  let req := Header_Set "Authorization"
               ("token " +:+ config.AccessToken (config.PaddleOCR cfg)) req in
  let req := Header_Set "Content-Type" "application/json" req in
  let client := if 0 <? Timeout opts then mkClient (Timeout opts) else httpClient c in
  bind (call_Do client req) (fun sent =>
  match sent with
  | Err err => ret (Returns (failure ("Request failed: " +:+ err_text err) ""))
  | Ok resp =>
  match resp_Body resp with
  | Err err => ret (Returns (failure ("Failed to read response: " +:+ err_text err) ""))
  | Ok body =>
  if negb (bool_decide (resp_StatusCode resp = http_StatusOK)) then
    ret (Returns (failure
      ("HTTP " +:+ strconv_Itoa (resp_StatusCode resp) +:+ ": " +:+ resp_Status resp
       +:+ LF +:+ body) ""))
  else
  match json_Unmarshal body with
  | Err err => ret (Returns (failure ("Invalid JSON response: " +:+ err_text err) ""))
  | Ok response =>
  if negb (bool_decide (api_ErrorCode response = 0)) then
    ret (Returns (failure
      ("API error (" +:+ strconv_Itoa (api_ErrorCode response) +:+ "): "
       +:+ api_ErrorMsg response) (api_LogID response)))
  else
    let pages := build_pages 0 (LayoutParsingResults (api_Result response)) [] in
    ret (Returns (mkDocumentOCRResult true pages "" (api_LogID response)))
  end end end) end end end end) end).

End WithLib.

(** The anonymous [response] struct of [TestConnection]. *)
Record HealthResponse := mkHealthResponse {
  hr_ErrorCode : Z;
  hr_ErrorMsg : string
}.

(** [json.Unmarshal] into a zero [response] of [TestConnection]. *)
Class HealthLib := {
  json_Unmarshal_health : string -> result HealthResponse
}.

Section WithHealthLib.
Context {L : Lib} {H : HealthLib}.

(** [TestConnection]: the pair [(bool, string)] it returns.  A request
    without a body is made with the empty body. *)
Definition TestConnection (c : Client) : Eff (Outcome (bool * string)) :=
  match config c with
  | None => ret Panics
  | Some cfg =>
  if decide (config.AccessToken (config.PaddleOCR cfg) = "") then
    ret (Returns (false, "Access token not configured"))
  else
  match ServerURL c with
  | Panics => ret Panics
  | Returns serverURL =>
  let url := serverURL +:+ HealthEndpoint in
  match http_NewRequest "GET" url "" with
  | Err err => ret (Returns (false, "Failed to create request: " +:+ err_text err))
  | Ok req =>
  let req := Header_Set "Authorization"
               ("token " +:+ config.AccessToken (config.PaddleOCR cfg)) req in
  let client := mkClient (10 * time_Second) in
  bind (call_Do client req) (fun sent =>
  match sent with
  | Err err => ret (Returns (false, "Connection failed: " +:+ err_text err))
  | Ok resp =>
  match resp_Body resp with
  | Err err => ret (Returns (false, "Failed to read response: " +:+ err_text err))
  | Ok body =>
  if negb (bool_decide (resp_StatusCode resp = http_StatusOK)) then
    ret (Returns (false, "HTTP " +:+ strconv_Itoa (resp_StatusCode resp) +:+ ": "
                         +:+ resp_Status resp))
  else
  match json_Unmarshal_health body with
  | Err err => ret (Returns (false, "Invalid JSON response: " +:+ err_text err))
  | Ok response =>
  if bool_decide (hr_ErrorCode response = 0) then
    ret (Returns (true, "Connection successful"))
  else
    ret (Returns (false, "Server error: " +:+ hr_ErrorMsg response))
  end end end) end end end.

End WithHealthLib.

End ocr.

(** ** Package main (the command line) *)

Module main.

(** The package-level flag variables, as cobra fills them in. *)
Record Flags := mkFlags {
  outputFile : string;
  jsonOutput : bool;
  pageNum : Z;
  noSeparator : bool;
  timeout : Z;
  orientation : bool;
  unwarp : bool;
  chart : bool;
  quiet : bool;
  configFile : string;
  token : string;
  serverURL : string;
  showConfig : bool;
  testConn : bool;
  locations : bool;
  scope : string
}.

(** The flags when none is given on the command line. *)
Definition defaultFlags : Flags :=
  mkFlags "" false (-1) false 120 false false false false "" "" "" false false false "user".

(** [json.MarshalIndent(outputData, "", "  ")] of the map with the keys
    [success] (always true), [pages] and [log_id]. *)
Class Lib := {
  json_MarshalIndent : list ocr.OCRResult -> string -> result string
}.

(** A running process: the world, what it has written to the two
    streams, and the calls it has made through the [ocr] package. *)
Record Proc := mkProc {
  p_world : World;
  p_stdout : string;
  p_stderr : string;
  p_calls : list ocr.Event
}.

(** How a command ends: it goes on with a value, the process exits with
    a status ([os.Exit]), or it panics. *)
Inductive Ran (A : Type) : Type :=
| Done (a : A)
| Exit (code : Z)
| Panic.
Arguments Done {A} a.
Arguments Exit {A} code.
Arguments Panic {A}.

Definition Cmd (A : Type) : Type := Proc -> Ran A * Proc.

Definition done {A} (a : A) : Cmd A := fun p => (Done a, p).

(** [os.Exit(code)]. *)
Definition exit {A} (code : Z) : Cmd A := fun p => (Exit code, p).

Definition panic {A} : Cmd A := fun p => (Panic, p).

Definition andThen {A B} (c : Cmd A) (k : A -> Cmd B) : Cmd B :=
  fun p =>
    match c p with
    | (Done a, p') => k a p'
    | (Exit code, p') => (Exit code, p')
    | (Panic, p') => (Panic, p')
    end.

Declare Scope cmd_scope.
Delimit Scope cmd_scope with cmd.
Bind Scope cmd_scope with Cmd.
Notation "x <- c ;; k" := (andThen c (fun x => k))
  (at level 100, c at next level, k at level 200, right associativity) : cmd_scope.
Notation "c ;; k" := (andThen c (fun _ => k))
  (at level 100, k at level 200, right associativity) : cmd_scope.
Local Open Scope cmd_scope.

(** An [if] without [else]. *)
Definition when (b : bool) (c : Cmd unit) : Cmd unit :=
  if b then c else done tt.

(** Writing to [os.Stdout] and to [os.Stderr]. *)
Definition print (s : string) : Cmd unit :=
  fun p => (Done tt, mkProc (p_world p) (p_stdout p +:+ s) (p_stderr p) (p_calls p)).

Definition eprint (s : string) : Cmd unit :=
  fun p => (Done tt, mkProc (p_world p) (p_stdout p) (p_stderr p +:+ s) (p_calls p)).

(** A traced call of the [ocr] package or of [os.Stat]. *)
Definition call {A} (e : ocr.Eff A) : Cmd A :=
  fun p =>
    let (a, t) := e (p_world p) in
    (Done a, mkProc (p_world p) (p_stdout p) (p_stderr p) (p_calls p ++ t)%list).

(** A read of the world by the [config] package. *)
Definition ask {A} (f : World -> A) : Cmd A := fun p => (Done (f (p_world p)), p).

(** A command of the [os] or [config] package that changes the world. *)
Definition perform {A} (c : IO A) : Cmd (result A) :=
  fun p =>
    let (r, w) := c (p_world p) in
    (Done r, mkProc w (p_stdout p) (p_stderr p) (p_calls p)).

Definition returned {A} (o : ocr.Outcome A) : Cmd A :=
  match o with
  | ocr.Returns a => done a
  | ocr.Panics => panic
  end.

(** Two's complement wrap-around of an [int64] product. *)
Definition wrap_int64 (n : Z) : Z :=
  (n + 2 ^ 63) mod 2 ^ 64 - 2 ^ 63.

Fixpoint spaces (n : nat) : string :=
  match n with
  | O => ""
  | S n' => String " " (spaces n')
  end.

(** The verb [%-12s] and its like: left-justified in [width] columns. *)
Definition pad_right (width : nat) (s : string) : string :=
  s +:+ spaces (width - String.length s).

(** [s[len(s)-n:]], for [n] no more than the length. *)
Definition last_bytes (n : nat) (s : string) : string :=
  String.substring (String.length s - n) n s.

Section WithLibs.
Context {Y : config.Yaml} {L : ocr.Lib} {H : ocr.HealthLib} {M : Lib}.

(** The markdown branch of [runOCR]: the text to write, or the exit. *)
Definition markdownOutput (f : Flags) (result : ocr.DocumentOCRResult) : Cmd string :=
  if 0 <=? pageNum f then
    if pageNum f <? Z.of_nat (length (ocr.Pages result)) then
      match ocr.Pages result !! Z.to_nat (pageNum f) with
      | Some page => done (ocr.Markdown page)
      | None => panic
      end
    else
      eprint ("Error: Page " +:+ strconv_Itoa (pageNum f)
              +:+ " not found (document has "
              +:+ strconv_Itoa (Z.of_nat (length (ocr.Pages result)))
              +:+ " pages)" +:+ LF) ;;
      exit 1
  else if noSeparator f then
    done (strings_Join (ocr.FullMarkdown_parts (ocr.Pages result)) (LF +:+ LF))
  else
    done (ocr.FullMarkdown result).

Definition runOCR (f : Flags) (filePath : string) : Cmd unit :=
  st <- call (ocr.call_Stat filePath) ;;
  when (os_IsNotExist (error_of st))
    (eprint ("Error: File not found: " +:+ filePath +:+ LF) ;; exit 1) ;;
  loaded <- ask (config.Load (configFile f)) ;;
  match loaded with
  | Err err => eprint ("Error loading config: " +:+ err_text err +:+ LF) ;; exit 1
  | Ok cfg =>
  client <- ask (ocr.NewClient (Some cfg)) ;;
  configured <- returned (ocr.IsConfigured client) ;;
  when (negb configured)
    (eprint ("Error: PaddleOCR is not configured." +:+ LF) ;;
     eprint ("Run 'paddleocr-cli configure' to set up credentials." +:+ LF) ;;
     exit 1) ;;
  when (negb (quiet f)) (eprint ("Processing: " +:+ filePath +:+ LF)) ;;
  let opts := ocr.mkOCROptions (orientation f) (unwarp f) (chart f)
                (wrap_int64 (timeout f * time_Second)) in
  ran <- call (ocr.OCRFile client filePath opts) ;;
  result <- returned ran ;;
  when (negb (ocr.Success result))
    (eprint ("Error: " +:+ ocr.ErrorMessage result +:+ LF) ;; exit 1) ;;
  when (negb (quiet f))
    (eprint ("OCR completed: " +:+ strconv_Itoa (Z.of_nat (length (ocr.Pages result)))
             +:+ " page(s)" +:+ LF)) ;;
  output <- (if jsonOutput f then
               match json_MarshalIndent (ocr.Pages result) (ocr.LogID result) with
               | Err err =>
                   eprint ("Error: Failed to marshal JSON: " +:+ err_text err +:+ LF) ;;
                   exit 1
               | Ok jsonBytes => done jsonBytes
               end
             else markdownOutput f result) ;;
  if negb (bool_decide (outputFile f = "")) then
    written <- perform (os_WriteFile (outputFile f) output 420) ;;
    match written with
    | Err err => eprint ("Error: Failed to write output: " +:+ err_text err +:+ LF) ;; exit 1
    | Ok _ => when (negb (quiet f)) (eprint ("Output saved to: " +:+ outputFile f +:+ LF))
    end
  else
    print (output +:+ LF)
  end.

(** The loop of [runConfigure] over the locations. *)
Fixpoint printLocations (locs : list config.Location) : Cmd unit :=
  match locs with
  | [] => done tt
  | loc :: rest =>
      let status := if config.Exists loc then "[FOUND]" else "[not found]" in
      print ("  " +:+ pad_right 12 status +:+ " " +:+ config.Description loc +:+ LF) ;;
      print ("             " +:+ config.Path loc +:+ LF +:+ LF) ;;
      printLocations rest
  end.

(** What [--show] prints for the access token. *)
Definition tokenDisplay (accessToken : string) : string :=
  if (8 <? String.length accessToken)%nat then "***" +:+ last_bytes 8 accessToken
  else "(not set)".

(** The two assignments of [runConfigure] that take the flags into [cfg]. *)
Definition updated (f : Flags) (cfg : config.Config) : config.Config :=
  let cfg := if negb (bool_decide (token f = "")) then
               config.mkConfig
                 (config.mkPaddleOCRConfig (config.ServerURL (config.PaddleOCR cfg)) (token f))
             else cfg in
  if negb (bool_decide (serverURL f = "")) then
    config.mkConfig
      (config.mkPaddleOCRConfig (serverURL f) (config.AccessToken (config.PaddleOCR cfg)))
  else cfg.

Definition usage : list string :=
  ["Usage: paddleocr-cli configure --server-url URL --token TOKEN [-s SCOPE]";
   LF +:+ "Options:";
   "  --server-url URL   Set the server URL (required)";
   "  --token TOKEN      Set the access token (required)";
   "  -s, --scope SCOPE  Installation scope (default: user)";
   "                     user    - ~/.config/paddleocr_cli/";
   "                     project - project root (alongside .claude/)";
   "                     local   - current directory";
   "  --show             Show current configuration";
   "  --test             Test connection"].

Fixpoint eprintln_all (lines : list string) : Cmd unit :=
  match lines with
  | [] => done tt
  | l :: rest => eprint (l +:+ LF) ;; eprintln_all rest
  end.

Definition runConfigure (f : Flags) : Cmd unit :=
  if locations f then
    print ("Configuration file search locations:" +:+ LF +:+ LF) ;;
    locs <- ask config.GetConfigLocations ;;
    printLocations locs
  else
  configPath <- ask config.FindConfig ;;
  loaded <- ask (config.Load configPath) ;;
  match loaded with
  | Err err => eprint ("Error loading config: " +:+ err_text err +:+ LF) ;; exit 1
  | Ok cfg =>
  if showConfig f then
    print ("Current configuration:" +:+ LF +:+ LF) ;;
    (if negb (bool_decide (configPath = "")) then
       print ("  Config file: " +:+ configPath +:+ LF)
     else print ("  Config file: (none found)" +:+ LF)) ;;
    print LF ;;
    let serverDisplay := if decide (config.ServerURL (config.PaddleOCR cfg) = "")
                         then "(not set)"
                         else config.ServerURL (config.PaddleOCR cfg) in
    print ("  Server URL:   " +:+ serverDisplay +:+ LF) ;;
    print ("  Access token: "
           +:+ tokenDisplay (config.AccessToken (config.PaddleOCR cfg)) +:+ LF)
  else if testConn f then
    when (negb (config.IsConfigured cfg))
      (eprint ("Error: server_url and access_token must be configured first." +:+ LF) ;;
       eprint ("Run: paddleocr-cli configure --server-url URL --token TOKEN" +:+ LF) ;;
       exit 1) ;;
    print ("Testing connection to PaddleOCR server..." +:+ LF) ;;
    client <- ask (ocr.NewClient (Some cfg)) ;;
    ran <- call (ocr.TestConnection client) ;;
    answer <- returned ran ;;
    let (success, message) := (answer : bool * string) in
    if success then print ("  [OK] " +:+ message +:+ LF)
    else (print ("  [FAILED] " +:+ message +:+ LF) ;; exit 1)
  else
    when (bool_decide (token f = "") && bool_decide (serverURL f = ""))
      (eprintln_all usage ;; exit 1) ;;
    let cfg := updated f cfg in
    saved <- ask (config.GetSavePath (scope f)) ;;
    match saved with
    | Err err =>
        (if decide (scope f = "project") then
           eprint ("Error: No project root found (no .claude/ directory in parent paths)"
                   +:+ LF)
         else eprint ("Error: " +:+ err_text err +:+ LF)) ;;
        exit 1
    | Ok savePath =>
        made <- perform (os_MkdirAll (filepath_Dir savePath) 493) ;;
        match made with
        | Err err =>
            eprint ("Error: Failed to create directory: " +:+ err_text err +:+ LF) ;; exit 1
        | Ok _ =>
            stored <- perform (config.Save cfg savePath) ;;
            match stored with
            | Err err =>
                eprint ("Error: Failed to save config: " +:+ err_text err +:+ LF) ;; exit 1
            | Ok _ => print ("Configuration saved to: " +:+ savePath +:+ LF)
            end
        end
    end
  end.

(** The process from its start to its end: the exit status and what was
    written.  A command that returns ends the process with status 0, a
    panic with status 2. *)
Definition start (w : World) : Proc := mkProc w "" "" [].

Definition status {A} (r : Ran A) : Z :=
  match r with
  | Done _ => 0
  | Exit code => code
  | Panic => 2
  end.

End WithLibs.

End main.

(** ** A sample library and sample worlds

    Stand-ins for the codecs, simple enough to run, on which the
    definitions above are evaluated in the examples below.  They are not
    the Go libraries: the YAML codec handles one-line plain scalars only
    and the JSON decoder knows one response. *)

Module sample.

Import config ocr.

Fixpoint strip_prefix (pre s : string) : option string :=
  match pre, s with
  | EmptyString, _ => Some s
  | String a pre', String b s' => if decide (a = b) then strip_prefix pre' s' else None
  | String _ _, EmptyString => None
  end.

(** The text before the first line feed, and the text after it. *)
Fixpoint take_line (s : string) : string * string :=
  match s with
  | EmptyString => ("", "")
  | String c s' =>
      if decide (c = ascii_of_nat 10) then ("", s')
      else let (l, r) := take_line s' in (String c l, r)
  end.

Definition yaml_error : error := mkError false "yaml: unmarshal errors".

Definition marshal (c : Config) : result string :=
  Ok ("paddleocr:" +:+ LF
      +:+ "    server_url: " +:+ config.ServerURL (PaddleOCR c) +:+ LF
      +:+ "    access_token: " +:+ AccessToken (PaddleOCR c) +:+ LF).

Definition unmarshal (data : string) (into : Config) : result Config :=
  if decide (data = "") then Ok into
  else
    match strip_prefix ("paddleocr:" +:+ LF +:+ "    server_url: ") data with
    | None => Err yaml_error
    | Some r =>
        let (url, r') := take_line r in
        match strip_prefix "    access_token: " r' with
        | None => Err yaml_error
        | Some r'' => let (tok, _) := take_line r'' in Ok (mkConfig (mkPaddleOCRConfig url tok))
        end
    end.

#[local] Instance yaml : Yaml := {| yaml_Marshal := marshal; yaml_Unmarshal := unmarshal |}.

Definition quoted (s : string) : string :=
  String (ascii_of_nat 34) s +:+ String (ascii_of_nat 34) "".

Definition json_bool (b : bool) : string := if b then "true" else "false".

(** The keys in the order [json.Marshal] writes a map: sorted. *)
Definition marshal_payload (p : Payload) : result string :=
  Ok ("{" +:+ quoted "file" +:+ ":" +:+ quoted (pl_file p)
      +:+ "," +:+ quoted "fileType" +:+ ":" +:+ strconv_Itoa (pl_fileType p)
      +:+ "," +:+ quoted "useChartRecognition" +:+ ":" +:+ json_bool (pl_useChartRecognition p)
      +:+ "," +:+ quoted "useDocOrientationClassify" +:+ ":"
      +:+ json_bool (pl_useDocOrientationClassify p)
      +:+ "," +:+ quoted "useDocUnwarping" +:+ ":" +:+ json_bool (pl_useDocUnwarping p)
      +:+ "}").

(** The envelope of the specification's example, one page that reads [hi]. *)
Definition hi_body : string :=
  "{" +:+ quoted "logId" +:+ ":" +:+ quoted "log-1" +:+ "," +:+ quoted "errorCode" +:+ ":0,"
  +:+ quoted "result" +:+ ":{" +:+ quoted "layoutParsingResults" +:+ ":[{"
  +:+ quoted "markdown" +:+ ":{" +:+ quoted "text" +:+ ":" +:+ quoted "hi" +:+ ","
  +:+ quoted "images" +:+ ":{}}}]}}".

Definition hi_envelope : APIResponse :=
  mkAPIResponse "log-1" 0 ""
    (mkResultData [mkLayoutParsingResult (mkMarkdownData "hi" (Some ∅))]).

Definition unmarshal_response (body : string) : result APIResponse :=
  if decide (body = hi_body) then Ok hi_envelope
  else Err (mkError false "invalid character looking for beginning of value").

Definition is_control (c : ascii) : bool :=
  let n := N_of_ascii c in ((n <? 32) || (n =? 127))%N.

#[local] Instance lib : Lib := {|
  unicode_Map_ToLower := fun s => s;
  json_Marshal := marshal_payload;
  json_Unmarshal := unmarshal_response;
  url_Parse_error := fun url =>
    if string_exists is_control url
    then Some (mkError false "net/url: invalid control character in URL")
    else None
|}.

Definition home_error : error := mkError false "$HOME is not defined".
Definition no_route : error := mkError false "dial tcp: connection refused".

Definition offline (client : http_Client) (req : http_Request) : result http_Response :=
  Err no_route.

(** A device that takes every write. *)
Definition sound (key data : string) : option (nat * error) := None.

(** A server that answers 200 with the example envelope. *)
Definition serves_hi (client : http_Client) (req : http_Request) : result http_Response :=
  Ok (mkResponse 200 "200 OK" (Ok hi_body)).




Definition settings : Config :=
  mkConfig (mkPaddleOCRConfig "https://ocr.example.com/" "secret-token").

Definition settings_text : string :=
  "paddleocr:" +:+ LF +:+ "    server_url: https://ocr.example.com/" +:+ LF
  +:+ "    access_token: secret-token" +:+ LF.

(** A home with a project in it: the project root is marked by [.claude],
    the process runs in a subdirectory, and a config file lies in the
    current directory, at the project root and in the user directory. *)
Definition files : gmap string Node :=
  list_to_map [
    ("/", NDir); ("/home", NDir); ("/home/u", NDir);
    ("/home/u/proj", NDir); ("/home/u/proj/.claude", NDir);
    ("/home/u/proj/sub", NDir);
    ("/home/u/proj/sub/.paddleocr_cli.yaml", NFile settings_text 384);
    ("/home/u/proj/.paddleocr_cli.yaml", NFile settings_text 384);
    ("/home/u/.config", NDir); ("/home/u/.config/paddleocr_cli", NDir);
    ("/home/u/.config/paddleocr_cli/config.yaml", NFile settings_text 384);
    ("/home/u/proj/sub/scan.PDF", NFile "%PDF-1.7" 420);
    ("/home/u/proj/sub/locked", NDenied)
  ].

Definition world (net : http_Client -> http_Request -> result http_Response) : World :=
  mkWorld (Ok "/home/u/proj/sub") (Ok "/home/u") files net sound.

(** The same with some of the config files removed. *)
Definition world_without (gone : list string) : World :=
  mkWorld (Ok "/home/u/proj/sub") (Ok "/home/u")
    (foldr (fun name fs => delete name fs) files gone) offline sound.

(** A process whose home directory cannot be determined. *)
Definition homeless : World :=
  mkWorld (Ok "/home/u/proj/sub") (Err home_error) files offline sound.

Definition client : Client := mkOCRClient (Some settings) (mkClient (120 * time_Second)).

Definition unconfigured : Client := mkOCRClient (Some New) (mkClient (120 * time_Second)).

(** The answer of a healthy server to the health check. *)
Definition healthy_body : string :=
  "{" +:+ quoted "errorCode" +:+ ":0," +:+ quoted "errorMsg" +:+ ":" +:+ quoted "" +:+ "}".

Definition unmarshal_health (body : string) : result HealthResponse :=
  if decide (body = healthy_body) then Ok (mkHealthResponse 0 "")
  else if decide (body = hi_body) then Ok (mkHealthResponse 0 "")
  else Err (mkError false "invalid character looking for beginning of value").

#[local] Instance health : HealthLib := {| json_Unmarshal_health := unmarshal_health |}.

(** The page indices and texts of the pages, indented; the images are
    left out. *)
Definition marshal_indent (pages : list OCRResult) (logID : string) : result string :=
  Ok ("{" +:+ LF +:+ "  " +:+ quoted "log_id" +:+ ": " +:+ quoted logID +:+ "," +:+ LF
      +:+ "  " +:+ quoted "pages" +:+ ": ["
      +:+ strings_Join
            (map (fun page => "{" +:+ quoted "page_index" +:+ ": "
                              +:+ strconv_Itoa (PageIndex page) +:+ ", "
                              +:+ quoted "markdown" +:+ ": " +:+ quoted (Markdown page) +:+ "}")
               pages) ", "
      +:+ "]," +:+ LF +:+ "  " +:+ quoted "success" +:+ ": true" +:+ LF +:+ "}").

#[local] Instance cli : main.Lib := {| main.json_MarshalIndent := marshal_indent |}.

(** A server with both endpoints, which answers 404 to anything else. *)
Definition server (client : http_Client) (req : http_Request) : result http_Response :=
  if decide (req_URL req = "https://ocr.example.com/layout-parsing") then
    Ok (mkResponse 200 "200 OK" (Ok hi_body))
  else if decide (req_URL req = "https://ocr.example.com/health") then
    Ok (mkResponse 200 "200 OK" (Ok healthy_body))
  else Ok (mkResponse 404 "404 Not Found" (Ok "not found")).

(** A server that is up but rejects the request in its envelope. *)
Definition rejected_envelope : APIResponse :=
  mkAPIResponse "log-2" 500 "model overloaded" (mkResultData []).

(** What the sample client sends for the sample scan, and for the health
    check. *)
Definition scan_request : http_Request :=
  Header_Set "Content-Type" "application/json"
    (Header_Set "Authorization" "token secret-token"
       (mkRequest "POST" "https://ocr.example.com/layout-parsing" ∅
          ("{" +:+ quoted "file" +:+ ":" +:+ quoted "JVBERi0xLjc="
           +:+ "," +:+ quoted "fileType" +:+ ":0,"
           +:+ quoted "useChartRecognition" +:+ ":false,"
           +:+ quoted "useDocOrientationClassify" +:+ ":false,"
           +:+ quoted "useDocUnwarping" +:+ ":false}"))).

Definition health_request : http_Request :=
  Header_Set "Authorization" "token secret-token"
    (mkRequest "GET" "https://ocr.example.com/health" ∅ "").

(** A decoder that reads the rejection in every body. *)
Definition rejecting : Lib := {|
  unicode_Map_ToLower := fun s => s;
  json_Marshal := marshal_payload;
  json_Unmarshal := fun _ => Ok rejected_envelope;
  url_Parse_error := fun _ => None
|}.

(** The sample home with a directory in the place of the config file of
    the current directory: it is found, and cannot be read. *)
Definition world_unreadable : World :=
  mkWorld (Ok "/home/u/proj/sub") (Ok "/home/u")
    (<["/home/u/proj/sub/.paddleocr_cli.yaml" := NDir]> files) offline sound.

(** The result of the sample scan. *)
Definition hi_result : DocumentOCRResult :=
  mkDocumentOCRResult true [mkOCRResult 0 "hi" (Some ∅)] "" "log-1".

(** A device that is full: it takes no byte of any write. *)
Definition no_space : error := mkError false "no space left on device".

Definition full (key data : string) : option (nat * error) := Some (0%nat, no_space).

Definition world_full : World :=
  mkWorld (Ok "/home/u/proj/sub") (Ok "/home/u") files server full.

End sample.

(** ** Measures and relations used in the statements *)

(** The bytes an output of [Clean] takes: each element and one separator. *)
Definition weight (elems : list (list ascii)) : nat :=
  fold_right (fun e n => (S (length e) + n)%nat) O elems.

(** The same, over the non-empty elements only. *)
Definition weight_ne (elems : list (list ascii)) : nat :=
  weight (List.filter (fun e => negb (bool_decide (e = []))) elems).

(** The rounds [filepath.Dir] can still change a path: none at the two
    fixed points, the root and the dot. *)
Definition dir_rank (path : string) : nat :=
  if bool_decide (path = "/") || bool_decide (path = ".") then O
  else S (String.length path).

(** Whether [os.Stat] accepts a path: the test of [FindConfig]. *)
Definition file_exists (w : World) (path : string) : bool :=
  match os_Stat w path with
  | Ok _ => true
  | Err _ => false
  end.

(** The three tiers of the search, when they can be named: the file in the
    current directory, the file at the project root, the user's file. *)
Definition cwd_config (w : World) : option string :=
  match os_Getwd w with
  | Ok cwd => Some (filepath_Join [cwd; config.ConfigFilename])
  | Err _ => None
  end.

Definition project_config (w : World) : option string :=
  if decide (config.GetProjectRoot w = "") then None
  else Some (filepath_Join [config.GetProjectRoot w; config.ConfigFilename]).

Definition user_config (w : World) : option string :=
  match os_UserHomeDir w with
  | Ok home => Some (filepath_Join [home; config.UserConfigDir; config.UserConfigFile])
  | Err _ => None
  end.

(** A tier is present when it can be named and its file exists. *)
Definition present (w : World) (tier : option string) : bool :=
  match tier with
  | Some path => file_exists w path
  | None => false
  end.

Definition is_lower (c : ascii) : bool :=
  let n := N_of_ascii c in ((97 <=? n) && (n <=? 122))%N.

(** [a] is the byte [b], or the capital of the small letter [b]. *)
Definition same_letter (b a : ascii) : bool :=
  bool_decide (a = b) || (is_lower b && (N_of_ascii a + 32 =? N_of_ascii b)%N).

(** [s] spells [name] in some mix of upper and lower case. *)
Fixpoint any_case_of (name s : string) : bool :=
  match name, s with
  | EmptyString, EmptyString => true
  | String b name', String a s' => same_letter b a && any_case_of name' s'
  | _, _ => false
  end.

(** A name written in ASCII without capitals. *)
Definition plain (name : string) : bool :=
  string_forall (fun c => is_ascii c && negb (is_upper c)) name.

(** The image extensions the specification lists. *)
Definition image_extensions : list string :=
  ["png"; "jpg"; "jpeg"; "bmp"; "tiff"; "tif"; "webp"].

(** The texts joined with a separator between neighbours, in the words of
    the specification of [full_markdown]. *)
Fixpoint joined (sep : string) (texts : list string) : string :=
  match texts with
  | [] => ""
  | [t] => t
  | t :: rest => t +:+ sep +:+ joined sep rest
  end.

(** The page made of the [i]-th layout parsing result, in the words of the
    specification: its position, its text, its images or an empty map. *)
Definition page_of (i : nat) (r : ocr.LayoutParsingResult) : ocr.OCRResult :=
  ocr.mkOCRResult (Z.of_nat i) (ocr.md_Text (ocr.lp_Markdown r))
    (Some (default ∅ (ocr.md_Images (ocr.lp_Markdown r)))).


(** The invariant of a Document Result. *)
Definition well_formed (r : ocr.DocumentOCRResult) : Prop :=
  if ocr.Success r
  then ocr.ErrorMessage r = ""
  else ocr.Pages r = [] /\ ocr.ErrorMessage r <> "".

(** Whether a directory holds the marker of a project root, a directory
    named [.claude]: the test of [GetProjectRoot]. *)
Definition has_marker (w : World) (dir : string) : bool :=
  match os_Stat w (filepath_Join [dir; ".claude"]) with
  | Ok info => fi_IsDir info
  | Err _ => false
  end.

(** The directory [k] levels above [dir], by [filepath.Dir]. *)
Definition ancestor (k : nat) (dir : string) : string :=
  Nat.iter k filepath_Dir dir.

(** The home directory as [GetProjectRoot] has it: empty when unknown. *)
Definition home_of (w : World) : string :=
  match os_UserHomeDir w with
  | Ok h => h
  | Err _ => ""
  end.

(** [n] times the byte [c]. *)
Fixpoint repeated (c : ascii) (n : nat) : string :=
  match n with
  | O => ""
  | S n' => String c (repeated c n')
  end.

(** The last byte of a string, if it has one. *)
Fixpoint last_byte (s : string) : option ascii :=
  match s with
  | EmptyString => None
  | String c EmptyString => Some c
  | String _ s' => last_byte s'
  end.

(** The headers of the OCR request and of the health check. *)
Definition ocr_headers (accessToken : string) : gmap string string :=
  {[ "Authorization" := "token " +:+ accessToken; "Content-Type" := "application/json" ]}.

Definition health_headers (accessToken : string) : gmap string string :=
  {[ "Authorization" := "token " +:+ accessToken ]}.
Example Clean_examples :
  map filepath_Clean [""; "/"; "a//b/./c/.."; "/../a"; "../../x"; "a/../.."; "a/b/"; "./"]
  = ["."; "/"; "a/b"; "/a"; "../../x"; ".."; "a/b"; "."].
Proof. vm_compute. reflexivity. Qed.

Example Dir_examples :
  map filepath_Dir [""; "/"; "a"; "/a"; "/a/b"; "a/b/"; "/home/u/proj"; "."]
  = ["."; "/"; "."; "/"; "/a"; "a/b"; "/home/u"; "."].
Proof. vm_compute. reflexivity. Qed.

Example Join_examples :
  map filepath_Join [["/home/u"; ".config/paddleocr_cli"; "config.yaml"]; [""; "x"]; ["a"; ""; "b"]; []]
  = ["/home/u/.config/paddleocr_cli/config.yaml"; "x"; "a/b"; ""].
Proof. vm_compute. reflexivity. Qed.

Example Ext_examples :
  map filepath_Ext ["a.pdf"; "a.tar.gz"; "dir.d/file"; "noext"; ".bashrc"; "a."; "x/y.PNG"]
  = [".pdf"; ".gz"; ""; ""; ".bashrc"; "."; ".PNG"].
Proof. vm_compute. reflexivity. Qed.

Example base64_examples :
  map base64_EncodeToString [""; "f"; "fo"; "foo"; "foob"; "fooba"; "foobar"; "Man"]
  = [""; "Zg=="; "Zm8="; "Zm9v"; "Zm9vYg=="; "Zm9vYmE="; "Zm9vYmFy"; "TWFu"].
Proof. vm_compute. reflexivity. Qed.

Example sample_yaml_roundtrip :
  sample.unmarshal sample.settings_text config.New = Ok sample.settings
  /\ sample.marshal sample.settings = Ok sample.settings_text.
Proof. split; vm_compute; reflexivity. Qed.

Example GetProjectRoot_example :
  config.GetProjectRoot (sample.world sample.offline) = "/home/u/proj"
  /\ config.FindConfig (sample.world sample.offline) = "/home/u/proj/sub/.paddleocr_cli.yaml".
Proof. split; vm_compute; reflexivity. Qed.

Example ancestors_examples :
  map ancestors ["/home/u/proj"; "a/b/"; "/"; "."]
  = [["/"; "/home"; "/home/u"; "/home/u/proj"]; ["."; "a"; "a/b"]; ["/"]; ["."; "."]].
Proof. vm_compute. reflexivity. Qed.

(** Saving by a relative name: the file is made in the working
    directory. *)
Example Save_relative_example :
  let w := mkWorld (Ok "/work") (Ok "/root") {[ "/" := NDir; "/work" := NDir ]}
             sample.offline sample.sound in
  fst (@config.Save sample.yaml sample.settings "conf/ocr.yaml" w) = Ok tt
  /\ w_fs (snd (@config.Save sample.yaml sample.settings "conf/ocr.yaml" w))
     = {[ "/" := NDir; "/work" := NDir; "/work/conf" := NDir;
          "/work/conf/ocr.yaml" := NFile sample.settings_text 384 ]}.
Proof. split; vm_compute; reflexivity. Qed.

(** The errors of the file operations on the sample home: below a
    regular file, by a relative name, and on what is denied. *)
Example file_errors_examples :
  let w := sample.world sample.offline in
  os_Stat w "scan.PDF" = Ok (mkFileInfo false)
  /\ map (fun err => err_text <$> err)
       [error_of (os_Stat w "/home/u/proj/sub/scan.PDF/x");
        error_of (os_ReadFile w "/home/u/absent");
        error_of (os_ReadFile w "locked");
        error_of (os_ReadFile w "/home/u/proj");
        error_of (fst (os_MkdirAll "scan.PDF/a" 493 w));
        error_of (fst (os_WriteFile "/home/u/proj/sub" "x" 420 w));
        error_of (fst (os_WriteFile "out.md" "x" 420 w))]
     = [Some "stat /home/u/proj/sub/scan.PDF/x: not a directory";
        Some "open /home/u/absent: no such file or directory";
        Some "open locked: permission denied";
        Some "read /home/u/proj: is a directory";
        Some "mkdir scan.PDF: not a directory";
        Some "open /home/u/proj/sub: is a directory";
        None].
Proof. split; vm_compute; reflexivity. Qed.

(** A write that the device stops: the file is made, and left empty. *)
Example WriteFile_full_example :
  let run := os_WriteFile "out.md" "hello" 420 sample.world_full in
  err_text <$> error_of (fst run) = Some "write out.md: no space left on device"
  /\ fs_node (snd run) "/home/u/proj/sub/out.md" = Some (NFile "" 420).
Proof. split; vm_compute; reflexivity. Qed.

Example FullMarkdown_two_pages :
  ocr.FullMarkdown (ocr.mkDocumentOCRResult true
    [ocr.mkOCRResult 0 "A" (Some ∅); ocr.mkOCRResult 1 "B" (Some ∅)] "" "")
  = String "A" (String "010" (String "010" ("---" +:+ String "010" (String "010" "B")))).
Proof. vm_compute. reflexivity. Qed.

(** * Properties *)

(** ** Strings and lists of bytes *)

Lemma length_list_ascii_of_string (s : string) :
  length (list_ascii_of_string s) = String.length s.
Proof. induction s as [|c s IH]; simpl; [reflexivity | now rewrite IH]. Qed.

Lemma length_string_of_list_ascii (l : list ascii) :
  String.length (string_of_list_ascii l) = length l.
Proof. induction l as [|c l IH]; simpl; [reflexivity | now rewrite IH]. Qed.

Lemma string_app_cons (c : ascii) (s t : string) :
  String c s +:+ t = String c (s +:+ t).
Proof. reflexivity. Qed.

Lemma string_app_nil_r (s : string) : s +:+ "" = s.
Proof.
  induction s as [|c s IH]; [reflexivity |].
  rewrite string_app_cons. congruence.
Qed.


(** ** filepath.Dir leads to a fixed point *)

Lemma weight_app (a b : list (list ascii)) :
  weight (a ++ b) = (weight a + weight b)%nat.
Proof. induction a as [|e a IH]; simpl; [reflexivity | rewrite IH; lia]. Qed.

Lemma weight_rev (a : list (list ascii)) : weight (rev a) = weight a.
Proof.
  induction a as [|e a IH]; simpl; [reflexivity |].
  rewrite weight_app, IH. simpl. lia.
Qed.

Lemma length_join_path (elems : list (list ascii)) :
  (length (join_path elems) <= weight elems)%nat
  /\ (elems <> [] -> S (length (join_path elems)) = weight elems).
Proof.
  induction elems as [|e [|e' rest] IH].
  - simpl. split; [lia | congruence].
  - simpl. split; [lia | intros _; lia].
  - destruct IH as [_ IH]. specialize (IH ltac:(congruence)).
    change (join_path (e :: e' :: rest)) with (e ++ Separator :: join_path (e' :: rest))%list.
    rewrite length_app. cbn [length weight fold_right] in *. split; [lia | intros _; lia].
Qed.

Lemma clean_step_weight (rooted : bool) (out : list (list ascii)) (e : list ascii) :
  (weight (clean_step rooted out e) <= weight out + weight_ne [e])%nat.
Proof.
  unfold clean_step, weight_ne, is_dotdot. simpl.
  destruct (bool_decide (e = [])) eqn:E1; simpl; [lia |].
  destruct (bool_decide (e = [dot])) eqn:E2; simpl; [lia |].
  destruct (bool_decide (e = [dot; dot])) eqn:E3; simpl; [| lia].
  destruct out as [|top rest]; simpl.
  - destruct rooted; simpl; lia.
  - destruct (bool_decide (top = [dot; dot])); destruct rooted; simpl; lia.
Qed.

Lemma weight_ne_cons (e : list ascii) (l : list (list ascii)) :
  weight_ne (e :: l) = (weight_ne [e] + weight_ne l)%nat.
Proof.
  unfold weight_ne. simpl. destruct (bool_decide (e = [])); simpl; lia.
Qed.

Lemma fold_clean_weight (rooted : bool) (elems out : list (list ascii)) :
  (weight (fold_left (clean_step rooted) elems out) <= weight out + weight_ne elems)%nat.
Proof.
  revert out. induction elems as [|e elems IH]; intros out; simpl.
  - unfold weight_ne. simpl. lia.
  - specialize (IH (clean_step rooted out e)).
    pose proof (clean_step_weight rooted out e).
    rewrite (weight_ne_cons e elems). lia.
Qed.

Lemma split_path_not_nil (p : list ascii) : split_path p <> [].
Proof.
  destruct p as [|c p]; simpl; [discriminate |].
  destruct (is_sep c); [discriminate |].
  destruct (split_path p); discriminate.
Qed.

Lemma split_path_snoc_sep (q : list ascii) :
  split_path (q ++ [Separator]) = (split_path q ++ [[]])%list.
Proof.
  induction q as [|c q IH]; simpl.
  - reflexivity.
  - destruct (is_sep c); simpl.
    + now rewrite IH.
    + rewrite IH. pose proof (split_path_not_nil q).
      destruct (split_path q); [congruence | reflexivity].
Qed.

Lemma weight_split_path (p : list ascii) : weight (split_path p) = S (length p).
Proof.
  induction p as [|c p IH]; simpl; [reflexivity |].
  destruct (is_sep c); simpl; [lia |].
  destruct (split_path p) as [|h t]; simpl in *; lia.
Qed.

Lemma weight_ne_le (l : list (list ascii)) : (weight_ne l <= weight l)%nat.
Proof.
  induction l as [|e l IH]; [unfold weight_ne; simpl; lia |].
  rewrite weight_ne_cons. unfold weight_ne at 1. simpl.
  destruct (bool_decide (e = [])); simpl; lia.
Qed.

Lemma weight_ne_split (p : list ascii) :
  (weight_ne (split_path p) <= S (length p))%nat.
Proof. rewrite <- weight_split_path. apply weight_ne_le. Qed.

Lemma weight_ne_snoc_empty (l : list (list ascii)) :
  weight_ne (l ++ [[]]) = weight_ne l.
Proof.
  unfold weight_ne. rewrite List.filter_app, weight_app. simpl. lia.
Qed.

(** A path that ends in a separator is cleaned to the root or gets shorter. *)
Lemma clean_bytes_trailing_sep (q : list ascii) :
  clean_bytes (q ++ [Separator]) = [Separator]
  \/ (length (clean_bytes (q ++ [Separator])) < length (q ++ [Separator]))%nat.
Proof.
  unfold clean_bytes.
  destruct (q ++ [Separator])%list as [|c p] eqn:Ep; [destruct q; discriminate |].
  rewrite <- Ep.
  set (rooted := is_sep c).
  pose proof (fold_clean_weight rooted (split_path (q ++ [Separator])) []) as Hw.
  set (out := rev (fold_left (clean_step rooted) (split_path (q ++ [Separator])) [])) in *.
  rewrite <- weight_rev in Hw. fold out in Hw. simpl in Hw.
  rewrite split_path_snoc_sep, weight_ne_snoc_empty in Hw.
  pose proof (length_join_path out) as [Hj1 Hj2].
  rewrite length_app. simpl.
  destruct rooted eqn:Er.
  - (* rooted *)
    destruct out as [|o out'] eqn:Eo.
    + left. reflexivity.
    + right. specialize (Hj2 ltac:(congruence)).
      assert (Hq : (weight_ne (split_path q) <= length q)%nat).
      { destruct q as [|c' q']; [unfold weight_ne; simpl; lia |].
        simpl in Ep. injection Ep as -> Ep'.
        subst rooted. simpl. rewrite Er.
        rewrite weight_ne_cons. unfold weight_ne at 1. simpl.
        pose proof (weight_ne_split q'). lia. }
      cbn [length]. lia.
  - (* not rooted *)
    right.
    assert (Hlen : (2 <= length q + 1)%nat).
    { destruct q as [|c' q']; simpl in *; [| lia].
      injection Ep as <- _. subst rooted. unfold is_sep in Er.
      rewrite bool_decide_eq_false in Er. congruence. }
    destruct (join_path out) as [|j js] eqn:Ej; simpl; [lia |].
    assert (out <> []) as Hne by (intros ->; discriminate).
    specialize (Hj2 Hne). simpl in Hj2.
    pose proof (weight_ne_split q). lia.
Qed.

Lemma dir_part_nil (p : list ascii) :
  dir_part p = [] <-> existsb is_sep p = false.
Proof.
  destruct p as [|c r]; [simpl; tauto |].
  change (dir_part (c :: r)) with (if existsb is_sep (c :: r) then c :: dir_part r else []).
  destruct (existsb is_sep (c :: r)); split; congruence.
Qed.

Lemma dir_part_shape (p : list ascii) :
  dir_part p = [] \/ exists q, dir_part p = (q ++ [Separator])%list.
Proof.
  induction p as [|c r IH]; [left; reflexivity |].
  change (dir_part (c :: r)) with (if existsb is_sep (c :: r) then c :: dir_part r else []).
  destruct (existsb is_sep (c :: r)) eqn:E; [right | left; reflexivity].
  destruct IH as [IH | [q IH]].
  - rewrite IH. apply dir_part_nil in IH. simpl in E. rewrite IH, orb_false_r in E.
    unfold is_sep in E. apply bool_decide_eq_true in E. subst c. exists []. reflexivity.
  - rewrite IH. exists (c :: q). reflexivity.
Qed.

Lemma length_dir_part (p : list ascii) : (length (dir_part p) <= length p)%nat.
Proof.
  induction p as [|c r IH]; [simpl; lia |].
  change (dir_part (c :: r)) with (if existsb is_sep (c :: r) then c :: dir_part r else []).
  destruct (existsb is_sep (c :: r)); simpl; lia.
Qed.

(** [filepath.Dir] leaves a path as it is or takes it nearer a fixed point. *)
Lemma filepath_Dir_rank (path : string) :
  filepath_Dir path = path \/ (dir_rank (filepath_Dir path) < dir_rank path)%nat.
Proof.
  destruct (decide (path = "/")) as [-> | Hroot]; [left; reflexivity |].
  destruct (decide (path = ".")) as [-> | Hdot]; [left; reflexivity |].
  right.
  assert (Hr : dir_rank path = S (String.length path)).
  { unfold dir_rank. rewrite !bool_decide_eq_false_2 by assumption. reflexivity. }
  rewrite Hr. unfold filepath_Dir.
  pose proof (length_dir_part (list_ascii_of_string path)) as Hlen.
  rewrite length_list_ascii_of_string in Hlen.
  destruct (dir_part_shape (list_ascii_of_string path)) as [E | [q E]]; rewrite E in *.
  - simpl. unfold dir_rank. simpl. lia.
  - destruct (clean_bytes_trailing_sep q) as [C | C].
    + rewrite C. simpl. unfold dir_rank. simpl. lia.
    + unfold dir_rank.
      destruct (bool_decide _ || bool_decide _); [lia |].
      rewrite length_string_of_list_ascii. lia.
Qed.

(** The loop of [GetProjectRoot] ends once the fuel exceeds the rank of
    the directory it starts from. *)
Lemma GetProjectRoot_loop_ends (w : World) (home : string) (fuel : nat) :
  forall current : string,
    (dir_rank current < fuel)%nat ->
    is_Some (config.GetProjectRoot_loop fuel w home current).
Proof.
  induction fuel as [|fuel IH]; intros current Hrank; [lia |].
  cbn [config.GetProjectRoot_loop].
  destruct (match os_Stat w (filepath_Join [current; ".claude"]) with
            | Ok info => fi_IsDir info
            | Err _ => false
            end); [eexists; reflexivity |].
  destruct (bool_decide (filepath_Dir current = current)) eqn:Efix; simpl;
    [eexists; reflexivity |].
  destruct (bool_decide (current = home)); [eexists; reflexivity |].
  apply IH. apply bool_decide_eq_false in Efix.
  destruct (filepath_Dir_rank current) as [? | ?]; [congruence | lia].
Qed.

(** [GetProjectRoot] is the result of the loop, which always ends. *)
Lemma GetProjectRoot_loop_result (w : World) (cwd : string) :
  os_Getwd w = Ok cwd ->
  config.GetProjectRoot_loop (S (S (String.length cwd))) w
    (match os_UserHomeDir w with Ok h => h | Err _ => "" end) cwd
  = Some (config.GetProjectRoot w).
Proof.
  intros Hcwd. unfold config.GetProjectRoot. rewrite Hcwd.
  destruct (GetProjectRoot_loop_ends w
              (match os_UserHomeDir w with Ok h => h | Err _ => "" end)
              (S (S (String.length cwd))) cwd) as [r Hr].
  - unfold dir_rank. destruct (bool_decide _ || bool_decide _); lia.
  - rewrite Hr. reflexivity.
Qed.

(** ** The configuration resolver *)

Lemma first_existing_app (w : World) (l1 l2 : list string) :
  config.first_existing w (l1 ++ l2)
  = if forallb (fun p => negb (file_exists w p)) l1
    then config.first_existing w l2
    else config.first_existing w l1.
Proof.
  induction l1 as [|p l1 IH]; simpl; [reflexivity |].
  unfold file_exists at 1. destruct (os_Stat w p); simpl; [reflexivity | exact IH].
Qed.

(** The search list of [FindConfig] is the three tiers, in this order. *)
Lemma searchPaths_tiers (w : World) :
  config.searchPaths w
  = (from_option (fun p => [p]) [] (cwd_config w)
     ++ from_option (fun p => [p]) [] (project_config w)
     ++ from_option (fun p => [p]) [] (user_config w))%list.
Proof.
  unfold config.searchPaths, cwd_config, project_config, user_config.
  destruct (os_Getwd w), (decide (config.GetProjectRoot w = "")), (os_UserHomeDir w);
    simpl; rewrite ?app_nil_r, <- ?app_assoc; reflexivity.
Qed.

(** [FindConfig] is the first tier that is present. *)
Lemma FindConfig_tiers (w : World) :
  config.FindConfig w
  = if present w (cwd_config w) then default "" (cwd_config w)
    else if present w (project_config w) then default "" (project_config w)
    else if present w (user_config w) then default "" (user_config w)
    else "".
Proof.
  unfold config.FindConfig. rewrite searchPaths_tiers.
  destruct (cwd_config w) as [p1|], (project_config w) as [p2|], (user_config w) as [p3|];
    simpl; unfold file_exists;
    repeat match goal with
           | |- context [os_Stat w ?p] => destruct (os_Stat w p); simpl
           end; reflexivity.
Qed.

(** C8. When config files exist at several tiers of the search at once,
    [FindConfig] returns the file of the current directory whatever else
    exists, the file of the project root when the current directory has
    none, and the user's config file when neither has one; when no tier
    has a file it returns the empty path, Go's "none". *)
Theorem FindConfig_priority (w : World) :
  (forall p, cwd_config w = Some p -> file_exists w p = true ->
     config.FindConfig w = p)
  /\ (forall p, project_config w = Some p -> file_exists w p = true ->
        present w (cwd_config w) = false ->
        config.FindConfig w = p)
  /\ (forall p, user_config w = Some p -> file_exists w p = true ->
        present w (cwd_config w) = false ->
        present w (project_config w) = false ->
        config.FindConfig w = p)
  /\ (present w (cwd_config w) = false ->
      present w (project_config w) = false ->
      present w (user_config w) = false ->
      config.FindConfig w = "").
Proof.
  rewrite FindConfig_tiers. split; [| split; [| split]].
  - intros p Hp Hex. rewrite Hp. simpl. rewrite Hex. reflexivity.
  - intros p Hp Hex Hcwd. rewrite Hcwd, Hp. simpl. rewrite Hex. reflexivity.
  - intros p Hp Hex Hcwd Hproj. rewrite Hcwd, Hproj, Hp. simpl. rewrite Hex. reflexivity.
  - intros Hcwd Hproj Huser. rewrite Hcwd, Hproj, Huser. reflexivity.
Qed.

(** The four cases on the sample home: all three files, then without the
    file of the current directory, then without that of the project, then
    without any. *)
Lemma FindConfig_priority_witness :
  config.FindConfig (sample.world_without []) = "/home/u/proj/sub/.paddleocr_cli.yaml"
  /\ config.FindConfig (sample.world_without ["/home/u/proj/sub/.paddleocr_cli.yaml"])
     = "/home/u/proj/.paddleocr_cli.yaml"
  /\ config.FindConfig (sample.world_without
       ["/home/u/proj/sub/.paddleocr_cli.yaml"; "/home/u/proj/.paddleocr_cli.yaml"])
     = "/home/u/.config/paddleocr_cli/config.yaml"
  /\ config.FindConfig (sample.world_without
       ["/home/u/proj/sub/.paddleocr_cli.yaml"; "/home/u/proj/.paddleocr_cli.yaml";
        "/home/u/.config/paddleocr_cli/config.yaml"])
     = "".
Proof.
  split; [| split; [| split]].
  - apply (proj1 (FindConfig_priority _)); vm_compute; reflexivity.
  - apply (proj1 (proj2 (FindConfig_priority _))); vm_compute; reflexivity.
  - apply (proj1 (proj2 (proj2 (FindConfig_priority _)))); vm_compute; reflexivity.
  - apply (proj2 (proj2 (proj2 (FindConfig_priority _)))); vm_compute; reflexivity.
Defined.

(** ** The file operations *)

Lemma fs_key_same_cwd (w w' : World) (name : string) :
  w_cwd w' = w_cwd w -> fs_key w' name = fs_key w name.
Proof. unfold fs_key. intros ->. reflexivity. Qed.

Lemma fs_key_not_empty (w : World) (name key : string) :
  fs_key w name = Some key -> name <> "".
Proof.
  unfold fs_key. destruct (decide (name = "")); [discriminate | trivial].
Qed.

Lemma os_ReadFile_file (w : World) (name data : string) (mode : Z) :
  fs_node w name = Some (NFile data mode) -> os_ReadFile w name = Ok data.
Proof. unfold os_ReadFile. intros ->. reflexivity. Qed.

Lemma os_Stat_file (w : World) (name data : string) (mode : Z) :
  fs_node w name = Some (NFile data mode) -> os_Stat w name = Ok (mkFileInfo false).
Proof. unfold os_Stat. intros ->. reflexivity. Qed.

(** [MkdirAll] changes nothing that is there: it only makes directories,
    at the keys of the directories it is given, where nothing was. *)
Lemma mkdir_each_keeps (w0 : World) (dirs : list string) :
  forall (fs fs' : gmap string Node) (r : result unit),
    mkdir_each w0 dirs fs = (r, fs') ->
    forall key,
      fs' !! key = fs !! key
      \/ (fs !! key = None /\ fs' !! key = Some NDir
          /\ exists d, In d dirs /\ fs_key w0 d = Some key).
Proof.
  induction dirs as [|d dirs IH]; intros fs fs' r Hmk key; simpl in Hmk.
  - injection Hmk as _ <-. left. reflexivity.
  - destruct (fs_key w0 d) as [k |] eqn:Hk; [| injection Hmk as _ <-; left; reflexivity].
    destruct (fs !! k) as [[? ? | |] |] eqn:Hd.
    + injection Hmk as _ <-. left. reflexivity.
    + destruct (IH _ _ _ Hmk key) as [Hsame | (Hnone & Hdir & d' & Hin & Hkey)].
      * left. exact Hsame.
      * right. split; [exact Hnone |]. split; [exact Hdir |].
        exists d'. split; [right; exact Hin | exact Hkey].
    + injection Hmk as _ <-. left. reflexivity.
    + destruct (IH _ _ _ Hmk key) as [Hsame | (Hnone & Hdir & d' & Hin & Hkey)].
      * destruct (decide (k = key)) as [-> | Hne].
        -- right. rewrite Hsame, lookup_insert_eq. split; [exact Hd |].
           split; [reflexivity |]. exists d. split; [left; reflexivity | exact Hk].
        -- left. rewrite Hsame. apply lookup_insert_ne. exact Hne.
      * right.
        destruct (decide (k = key)) as [-> | Hne].
        -- rewrite lookup_insert_eq in Hnone. discriminate.
        -- rewrite lookup_insert_ne in Hnone by exact Hne.
           split; [exact Hnone |]. split; [exact Hdir |].
           exists d'. split; [right; exact Hin | exact Hkey].
Qed.

Lemma os_MkdirAll_keeps (path : string) (perm : Z) (w w' : World) (r : result unit) :
  os_MkdirAll path perm w = (r, w') ->
  w_cwd w' = w_cwd w /\ w_home w' = w_home w /\ w_net w' = w_net w
  /\ w_disk w' = w_disk w
  /\ forall key,
       w_fs w' !! key = w_fs w !! key
       \/ (w_fs w !! key = None /\ w_fs w' !! key = Some NDir
           /\ exists d, In d (ancestors path) /\ fs_key w d = Some key).
Proof.
  unfold os_MkdirAll. destruct (decide (path = "")).
  - intros [= _ <-]. repeat split. intros key. left. reflexivity.
  - destruct (mkdir_each w (ancestors path) (w_fs w)) as [r0 fs] eqn:Hmk.
    intros [= _ <-]. repeat split. intros key. simpl.
    exact (mkdir_each_keeps _ _ _ _ _ Hmk key).
Qed.

(** [WriteFile] changes nothing but the file it is given. *)
Lemma os_WriteFile_keeps (name data : string) (perm : Z) (w w' : World) (r : result unit) :
  os_WriteFile name data perm w = (r, w') ->
  w_cwd w' = w_cwd w /\ w_home w' = w_home w /\ w_net w' = w_net w
  /\ w_disk w' = w_disk w
  /\ forall key, fs_key w name <> Some key -> w_fs w' !! key = w_fs w !! key.
Proof.
  unfold os_WriteFile. destruct (fs_key w name) as [k |].
  - destruct (open_for_writing (w_fs w) k perm) as [mode | err].
    + destruct (w_disk w k data) as [[n err] |]; intros [= _ <-]; repeat split;
        intros key Hkey; simpl; apply lookup_insert_ne; congruence.
    + intros [= _ <-]. repeat split.
  - intros [= _ <-]. repeat split.
Qed.

(** After a [WriteFile] that succeeded the name leads to the data, in a
    file with the mode it had, or with [perm] when it is new. *)
Lemma os_WriteFile_done (name data : string) (perm : Z) (w w' : World) :
  os_WriteFile name data perm w = (Ok tt, w') ->
  exists mode,
    fs_node w' name = Some (NFile data mode)
    /\ match fs_node w name with
       | None => mode = perm
       | Some (NFile _ old) => mode = old
       | Some _ => False
       end.
Proof.
  unfold os_WriteFile, fs_node. destruct (fs_key w name) as [k |] eqn:Hk; [| discriminate].
  destruct (open_for_writing (w_fs w) k perm) as [mode | err] eqn:Hopen; [| discriminate].
  destruct (w_disk w k data) as [[n err] |]; [discriminate |].
  intros [= <-]. exists mode.
  change (fs_key (set_fs (<[k := NFile data mode]> (w_fs w)) w) name)
    with (fs_key w name).
  rewrite Hk. simpl.
  split; [apply lookup_insert_eq |].
  unfold open_for_writing in Hopen.
  destruct (w_fs w !! k) as [[? ? | |] |]; try congruence.
  destruct (w_fs w !! filepath_Dir k) as [[? ? | |] |]; congruence.
Qed.

(** A [WriteFile] that failed either could not open the file, and changed
    nothing, or stopped while it wrote, and left the file with the first
    bytes. *)
Lemma os_WriteFile_failed (name data : string) (perm : Z) (w w' : World) (err : error) :
  os_WriteFile name data perm w = (Err err, w') ->
  w' = w
  \/ exists key mode n,
       fs_key w name = Some key
       /\ w' = set_fs (<[key := NFile (written n data) mode]> (w_fs w)) w.
Proof.
  unfold os_WriteFile. destruct (fs_key w name) as [k |]; [| intros [= _ <-]; left; reflexivity].
  destruct (open_for_writing (w_fs w) k perm) as [mode | e];
    [| intros [= _ <-]; left; reflexivity].
  destruct (w_disk w k data) as [[n e] |]; [| discriminate].
  intros [= _ <-]. right. exists k, mode, n. split; reflexivity.
Qed.

Section Resolver.
Context {Y : config.Yaml}.

(** C1, as the code has it.  For an explicitly given config path [Load]
    reads the file, and looks at the error of the read: an error that
    [os.IsNotExist] recognises, the one of a path with nothing at it and
    directories above it, is swallowed, and the empty default
    configuration is returned with no error.  A read error of any other
    kind is returned to the caller: the path is a directory, access is
    denied, or a regular file stands above the path. *)
Theorem Load_explicit_path (configPath : string) (w : World) :
  configPath <> "" ->
  forall err, os_ReadFile w configPath = Err err ->
    config.Load configPath w = if err_not_exist err then Ok config.New else Err err.
Proof.
  intros Hpath err Hread. unfold config.Load.
  destruct (decide (configPath = "")) as [? | _]; [contradiction |].
  destruct (decide (configPath = "")) as [? | _]; [contradiction |].
  rewrite Hread. reflexivity.
Qed.

(** C9. Saving a configuration to an explicit path and loading that path
    again gives the configuration back, whenever the save succeeds and the
    YAML codec reads back what it writes for this configuration. *)
Theorem Save_Load_roundtrip (c : config.Config) (configPath : string) (w w' : World) :
  configPath <> "" ->
  config.Save c configPath w = (Ok tt, w') ->
  (forall data, config.yaml_Marshal c = Ok data ->
                config.yaml_Unmarshal data config.New = Ok c) ->
  config.Load configPath w' = Ok c.
Proof.
  intros Hpath Hsave Hcodec.
  unfold config.Save, io_bind, io_ret, io_lift in Hsave.
  destruct (decide (configPath = "")) as [? | _]; [contradiction |].
  destruct (os_MkdirAll (filepath_Dir configPath) 493 w) as [[[] | e] w1];
    [| discriminate].
  destruct (config.yaml_Marshal c) as [data | e] eqn:Hdata; [| discriminate].
  specialize (Hcodec data eq_refl).
  destruct (os_WriteFile_done _ _ _ _ _ Hsave) as (mode & Hfile & _).
  unfold config.Load.
  destruct (decide (configPath = "")) as [? | _]; [contradiction |].
  destruct (decide (configPath = "")) as [? | _]; [contradiction |].
  rewrite (os_ReadFile_file _ _ _ _ Hfile). exact Hcodec.
Qed.

End Resolver.

(** C10, as the code has it.  Every scope other than "local" and "project",
    recognised or not, takes the default branch: the result is the user's
    config path when the home directory is known, and the error of the
    home directory lookup otherwise.  An error comes from three places
    only: [os.ErrNotExist] for the scope "project" when no project root
    exists, the error of [os.Getwd] for "local", and the error of
    [os.UserHomeDir] for the default branch. *)
Theorem GetSavePath_scopes (scope : string) (w : World) :
  (scope <> "local" -> scope <> "project" ->
     config.GetSavePath scope w
     = match os_UserHomeDir w with
       | Ok home =>
           Ok (filepath_Join [home; config.UserConfigDir; config.UserConfigFile])
       | Err err => Err err
       end)
  /\ (forall err, config.GetSavePath scope w = Err err ->
        (scope = "project" /\ config.GetProjectRoot w = "" /\ err = os_ErrNotExist)
        \/ (scope = "local" /\ os_Getwd w = Err err)
        \/ (scope <> "local" /\ scope <> "project" /\ os_UserHomeDir w = Err err))
  /\ (config.GetProjectRoot w = "" ->
      config.GetSavePath "project" w = Err os_ErrNotExist).
Proof.
  unfold config.GetSavePath. split; [| split].
  - intros Hl Hp.
    destruct (decide (scope = "local")); [contradiction |].
    destruct (decide (scope = "project")); [contradiction |].
    destruct (os_UserHomeDir w); reflexivity.
  - intros err.
    destruct (decide (scope = "local")) as [Hl | Hl].
    + destruct (os_Getwd w) as [cwd | e]; [discriminate |].
      intros [= ->]. right. left. split; [assumption | reflexivity].
    + destruct (decide (scope = "project")) as [Hp | Hp].
      * destruct (decide (config.GetProjectRoot w = "")) as [Hroot | Hroot];
          [| discriminate].
        intros [= <-]. left. repeat split; assumption.
      * destruct (os_UserHomeDir w) as [home | e]; [discriminate |].
        intros [= ->]. right. right. repeat split; assumption.
  - intros Hroot. simpl.
    destruct (decide (config.GetProjectRoot w = "")); [reflexivity | contradiction].
Qed.

(** The examples of C1, C9 and C10 on the sample home. *)

(** C1 fails as stated: nothing is at this path, and [Load] answers with
    the default configuration instead of an error. *)
Lemma Load_missing_path_counterexample :
  os_Stat (sample.world sample.offline) "/home/u/proj/absent.yaml"
  = Err (PathError "stat" "/home/u/proj/absent.yaml" ENOENT)
  /\ @config.Load sample.yaml "/home/u/proj/absent.yaml" (sample.world sample.offline)
     = Ok config.New
  /\ ~ (exists err, @config.Load sample.yaml "/home/u/proj/absent.yaml"
                      (sample.world sample.offline) = Err err).
Proof.
  split; [vm_compute; reflexivity |].
  split; [vm_compute; reflexivity |].
  intros [err Herr]. vm_compute in Herr. discriminate.
Qed.

(** A missing file gives the default; a directory gives the error of the
    read, and a path below a regular file the error of the open. *)
Lemma Load_explicit_path_witness :
  @config.Load sample.yaml "/home/u/proj/absent.yaml" (sample.world sample.offline)
  = Ok config.New
  /\ @config.Load sample.yaml "/home/u/proj" (sample.world sample.offline)
     = Err (PathError "read" "/home/u/proj" EISDIR)
  /\ @config.Load sample.yaml "/home/u/proj/sub/scan.PDF/conf.yaml"
       (sample.world sample.offline)
     = Err (PathError "open" "/home/u/proj/sub/scan.PDF/conf.yaml" ENOTDIR).
Proof.
  split; [| split].
  - apply (@Load_explicit_path sample.yaml "/home/u/proj/absent.yaml"
             (sample.world sample.offline) ltac:(discriminate)
             (PathError "open" "/home/u/proj/absent.yaml" ENOENT)).
    vm_compute. reflexivity.
  - apply (@Load_explicit_path sample.yaml "/home/u/proj"
             (sample.world sample.offline) ltac:(discriminate)
             (PathError "read" "/home/u/proj" EISDIR)).
    vm_compute. reflexivity.
  - apply (@Load_explicit_path sample.yaml "/home/u/proj/sub/scan.PDF/conf.yaml"
             (sample.world sample.offline) ltac:(discriminate)
             (PathError "open" "/home/u/proj/sub/scan.PDF/conf.yaml" ENOTDIR)).
    vm_compute. reflexivity.
Defined.

(** Saving the sample settings into a new directory and loading them. *)
Lemma Save_Load_roundtrip_witness :
  @config.Load sample.yaml "/home/u/other/.paddleocr_cli.yaml"
    (snd (@config.Save sample.yaml sample.settings "/home/u/other/.paddleocr_cli.yaml"
            (sample.world sample.offline)))
  = Ok sample.settings.
Proof.
  apply (@Save_Load_roundtrip sample.yaml sample.settings
           "/home/u/other/.paddleocr_cli.yaml" (sample.world sample.offline)).
  - discriminate.
  - vm_compute. reflexivity.
  - intros data Hdata. vm_compute in Hdata. injection Hdata as <-.
    vm_compute. reflexivity.
Defined.

(** C10 fails as stated: an unrecognised scope takes the default branch,
    and the default branch returns an error when the home directory is
    not known. *)
Lemma GetSavePath_counterexample :
  "global" <> "local" /\ "global" <> "project"
  /\ config.GetSavePath "global" sample.homeless = Err sample.home_error
  /\ config.GetSavePath "user" sample.homeless = Err sample.home_error.
Proof.
  split; [discriminate |]. split; [discriminate |].
  split; vm_compute; reflexivity.
Qed.

(** An unrecognised scope saves to the user's file, like "user". *)
Lemma GetSavePath_scopes_witness :
  config.GetSavePath "global" (sample.world sample.offline)
  = Ok "/home/u/.config/paddleocr_cli/config.yaml".
Proof.
  apply (proj1 (GetSavePath_scopes "global" (sample.world sample.offline)));
    discriminate.
Defined.

(** ** The file classifier *)

Lemma same_letter_lower (b a : ascii) :
  is_ascii b && negb (is_upper b) = true ->
  same_letter b a = true ->
  is_ascii a = true /\ lower_byte a = b /\ (is_upper a = false -> a = b).
Proof.
  unfold same_letter, is_ascii, is_upper, is_lower, lower_byte, is_upper.
  intros Hb Ha.
  apply andb_true_iff in Hb as [Hb1 Hb2].
  apply N.ltb_lt in Hb1. apply negb_true_iff in Hb2.
  apply orb_true_iff in Ha as [Ha | Ha].
  - apply bool_decide_eq_true in Ha. subst a. rewrite Hb2.
    split; [apply N.ltb_lt; assumption | split; [reflexivity | reflexivity]].
  - apply andb_true_iff in Ha as [Hlow Hcap].
    apply andb_true_iff in Hlow as [Hl1 Hl2].
    apply N.leb_le in Hl1. apply N.leb_le in Hl2. apply N.eqb_eq in Hcap.
    assert (Hup : ((65 <=? N_of_ascii a) && (N_of_ascii a <=? 90))%N = true).
    { apply andb_true_iff. split; apply N.leb_le; lia. }
    rewrite Hup. split; [apply N.ltb_lt; lia | split].
    + rewrite Hcap. apply ascii_N_embedding.
    + discriminate.
Qed.

Lemma any_case_lower (name s : string) :
  plain name = true ->
  any_case_of name s = true ->
  string_forall is_ascii s = true
  /\ string_map lower_byte s = name
  /\ (string_exists is_upper s = false -> s = name).
Proof.
  revert s. induction name as [|b name IH]; intros [|a s] Hplain Hcase;
    simpl in *; try discriminate.
  - split; [reflexivity | split; [reflexivity | reflexivity]].
  - apply andb_true_iff in Hplain as [Hb Hplain].
    apply andb_true_iff in Hcase as [Hba Hcase].
    destruct (same_letter_lower b a Hb Hba) as (H1 & H2 & H3).
    destruct (IH s Hplain Hcase) as (I1 & I2 & I3).
    rewrite H1, I1, H2, I2. split; [reflexivity | split; [reflexivity |]].
    intros Hup. apply orb_false_iff in Hup as [Hu1 Hu2].
    rewrite (H3 Hu1), (I3 Hu2). reflexivity.
Qed.

(** [strings.ToLower] of any spelling of a plain name is the name. *)
Lemma strings_ToLower_any_case (unicode_map : string -> string) (name s : string) :
  plain name = true ->
  any_case_of name s = true ->
  strings_ToLower_with unicode_map s = name.
Proof.
  intros Hplain Hcase.
  destruct (any_case_lower name s Hplain Hcase) as (H1 & H2 & H3).
  unfold strings_ToLower_with. rewrite H1.
  destruct (string_exists is_upper s); [exact H2 | apply H3; reflexivity].
Qed.

Lemma same_letter_lower_byte (a : ascii) :
  is_ascii a = true -> same_letter (lower_byte a) a = true.
Proof.
  unfold same_letter, lower_byte, is_ascii, is_lower, is_upper. intros Ha.
  destruct ((65 <=? N_of_ascii a) && (N_of_ascii a <=? 90))%N eqn:Hup.
  - apply andb_true_iff in Hup as [H1 H2].
    apply N.leb_le in H1. apply N.leb_le in H2.
    rewrite N_ascii_embedding by lia.
    apply orb_true_iff. right. apply andb_true_iff. split.
    + apply andb_true_iff. split; apply N.leb_le; lia.
    + apply N.eqb_eq. reflexivity.
  - apply orb_true_iff. left. apply bool_decide_eq_true. reflexivity.
Qed.

Lemma any_case_of_lowered (s : string) :
  string_forall is_ascii s = true ->
  any_case_of (string_map lower_byte s) s = true.
Proof.
  induction s as [|a s IH]; simpl; [reflexivity |].
  intros H. apply andb_true_iff in H as [Ha Hs].
  rewrite (same_letter_lower_byte a Ha), (IH Hs). reflexivity.
Qed.

Lemma string_map_no_upper (s : string) :
  string_exists is_upper s = false -> string_map lower_byte s = s.
Proof.
  induction s as [|a s IH]; simpl; [reflexivity |].
  intros H. apply orb_false_iff in H as [Ha Hs].
  unfold lower_byte at 1. rewrite Ha, (IH Hs). reflexivity.
Qed.

(** An ASCII text is a spelling of what [strings.ToLower] makes of it. *)
Lemma any_case_of_ToLower (unicode_map : string -> string) (s : string) :
  string_forall is_ascii s = true ->
  any_case_of (strings_ToLower_with unicode_map s) s = true.
Proof.
  intros Hs. unfold strings_ToLower_with. rewrite Hs.
  destruct (string_exists is_upper s) eqn:Hup.
  - apply any_case_of_lowered. exact Hs.
  - rewrite <- (string_map_no_upper s Hup) at 1. apply any_case_of_lowered. exact Hs.
Qed.

Section Classifier.
Context {L : ocr.Lib}.

Lemma getFileType_lowered (filePath : string) :
  ocr.getFileType filePath
  = if decide (ocr.strings_ToLower (filepath_Ext filePath) = ".pdf")
    then ocr.FileTypePDF else ocr.FileTypeImage.
Proof.
  unfold ocr.getFileType.
  destruct (decide (ocr.strings_ToLower (filepath_Ext filePath) = ".pdf"));
    [reflexivity |].
  destruct (bool_decide _); reflexivity.
Qed.

(** C6. The type of a file depends on the lower-cased extension of its
    path only.  An extension that spells [.pdf] in any mix of cases gives
    PDF; one that spells a listed image extension in any mix of cases
    gives Image; so does every other extension, and a path with no
    extension. *)
Theorem getFileType_by_extension (filePath : string) :
  (forall other,
     ocr.strings_ToLower (filepath_Ext other) = ocr.strings_ToLower (filepath_Ext filePath) ->
     ocr.getFileType other = ocr.getFileType filePath)
  /\ (any_case_of ".pdf" (filepath_Ext filePath) = true ->
      ocr.getFileType filePath = ocr.FileTypePDF)
  /\ (forall name, In name image_extensions ->
        any_case_of ("." +:+ name) (filepath_Ext filePath) = true ->
        ocr.getFileType filePath = ocr.FileTypeImage)
  /\ (string_forall is_ascii (filepath_Ext filePath) = true ->
      any_case_of ".pdf" (filepath_Ext filePath) = false ->
      ocr.getFileType filePath = ocr.FileTypeImage)
  /\ (filepath_Ext filePath = "" -> ocr.getFileType filePath = ocr.FileTypeImage)
  /\ (ocr.strings_ToLower (filepath_Ext filePath) <> ".pdf" ->
      ocr.getFileType filePath = ocr.FileTypeImage).
Proof.
  split; [| split; [| split; [| split; [| split]]]].
  - intros other Heq. rewrite !getFileType_lowered, Heq. reflexivity.
  - intros Hcase. rewrite getFileType_lowered.
    unfold ocr.strings_ToLower.
    rewrite (strings_ToLower_any_case _ ".pdf" _ eq_refl Hcase). reflexivity.
  - intros name Hin Hcase. rewrite getFileType_lowered.
    unfold ocr.strings_ToLower.
    assert (Hplain : plain ("." +:+ name) = true).
    { simpl in Hin.
      repeat (destruct Hin as [<- | Hin]; [reflexivity |]). contradiction. }
    rewrite (strings_ToLower_any_case _ ("." +:+ name) _ Hplain Hcase).
    simpl in Hin.
    repeat (destruct Hin as [<- | Hin]; [reflexivity |]). contradiction.
  - intros Hascii Hcase. rewrite getFileType_lowered.
    destruct (decide (ocr.strings_ToLower (filepath_Ext filePath) = ".pdf")) as [Hpdf | _];
      [| reflexivity].
    pose proof (any_case_of_ToLower ocr.unicode_Map_ToLower _ Hascii) as Hspell.
    unfold ocr.strings_ToLower in Hpdf. rewrite Hpdf in Hspell. congruence.
  - intros Hnone. rewrite getFileType_lowered, Hnone. reflexivity.
  - intros Hother. rewrite getFileType_lowered.
    destruct (decide (ocr.strings_ToLower (filepath_Ext filePath) = ".pdf"));
      [contradiction | reflexivity].
Qed.

End Classifier.

(** Upper, lower and mixed case, an image, an unknown and a missing
    extension. *)
Lemma getFileType_by_extension_witness :
  @ocr.getFileType sample.lib "/home/u/proj/sub/scan.PDF" = ocr.FileTypePDF
  /\ @ocr.getFileType sample.lib "photo.JpEg" = ocr.FileTypeImage
  /\ @ocr.getFileType sample.lib "notes.txt" = ocr.FileTypeImage
  /\ @ocr.getFileType sample.lib "archive.pdf/README" = ocr.FileTypeImage.
Proof.
  split; [| split; [| split]].
  - apply (proj1 (proj2 (@getFileType_by_extension sample.lib _))).
    vm_compute. reflexivity.
  - apply (proj1 (proj2 (proj2 (@getFileType_by_extension sample.lib _))) "jpeg").
    + simpl. tauto.
    + vm_compute. reflexivity.
  - apply (proj1 (proj2 (proj2 (proj2 (@getFileType_by_extension sample.lib _)))));
      vm_compute; reflexivity.
  - apply (proj1 (proj2 (proj2 (proj2 (proj2 (@getFileType_by_extension sample.lib _)))))).
    vm_compute. reflexivity.
Defined.

(** ** The result model *)

Lemma FullMarkdown_parts_from (pages : list ocr.OCRResult) (parts : list string) :
  fold_left (fun parts page => (parts ++ [ocr.Markdown page])%list) pages parts
  = (parts ++ map ocr.Markdown pages)%list.
Proof.
  revert parts. induction pages as [|page pages IH]; intros parts; simpl.
  - rewrite app_nil_r. reflexivity.
  - rewrite IH, <- app_assoc. reflexivity.
Qed.

Lemma strings_Join_tail_joined (sep t : string) (rest : list string) :
  t +:+ strings_Join_tail rest sep = joined sep (t :: rest).
Proof.
  revert t. induction rest as [|t' rest IH]; intros t.
  - simpl. apply string_app_nil_r.
  - change (strings_Join_tail (t' :: rest) sep)
      with (sep +:+ t' +:+ strings_Join_tail rest sep).
    rewrite IH. reflexivity.
Qed.

Lemma strings_Join_joined (sep : string) (elems : list string) :
  strings_Join elems sep = joined sep elems.
Proof.
  destruct elems as [|t [|t' rest]]; [reflexivity | reflexivity |].
  unfold strings_Join. apply strings_Join_tail_joined.
Qed.

(** C7. [FullMarkdown] is the texts of the pages, in their order, joined
    by a blank line, three dashes and a blank line: two pages give the
    first text, the separator and the second text, and no page gives the
    empty string. *)
Theorem FullMarkdown_joined (r : ocr.DocumentOCRResult) :
  ocr.FullMarkdown r
  = joined (String "010" (String "010" ("---" +:+ String "010" (String "010" ""))))
      (map ocr.Markdown (ocr.Pages r))
  /\ (forall success msg logID pageA pageB,
        ocr.FullMarkdown (ocr.mkDocumentOCRResult success [pageA; pageB] msg logID)
        = ocr.Markdown pageA
          +:+ String "010" (String "010" ("---" +:+ String "010" (String "010" "")))
          +:+ ocr.Markdown pageB)
  /\ (forall success msg logID,
        ocr.FullMarkdown (ocr.mkDocumentOCRResult success [] msg logID) = "").
Proof.
  assert (Hjoin : forall d, ocr.FullMarkdown d
            = joined (LF +:+ LF +:+ "---" +:+ LF +:+ LF) (map ocr.Markdown (ocr.Pages d))).
  { intros d. unfold ocr.FullMarkdown, ocr.FullMarkdown_parts.
    rewrite FullMarkdown_parts_from, strings_Join_joined. reflexivity. }
  split; [| split].
  - rewrite Hjoin. reflexivity.
  - intros. rewrite Hjoin. reflexivity.
  - intros. rewrite Hjoin. reflexivity.
Qed.

(** ** The OCR client *)

Lemma message_not_empty (c : ascii) (s t : string) : String c s +:+ t <> "".
Proof. rewrite string_app_cons. discriminate. Qed.




(** Unfolds one run of [OCRFile] into the calls it makes. *)
Ltac run_OCRFile :=
  unfold ocr.OCRFile, ocr.encodeFile, ocr.bind, ocr.ret, ocr.call_Stat,
    ocr.call_ReadFile, ocr.call_Do, ocr.IsConfigured, ocr.ServerURL, ocr.failure.

Section Client.
Context {L : ocr.Lib}.

Lemma build_pages_from (results : list ocr.LayoutParsingResult) :
  forall (n : nat) (pages : list ocr.OCRResult),
    ocr.build_pages (Z.of_nat n) results pages
    = (pages ++ imap (fun k => page_of (n + k)) results)%list.
Proof.
  induction results as [|r results IH]; intros n pages; simpl.
  - rewrite app_nil_r. reflexivity.
  - replace (Z.of_nat n + 1) with (Z.of_nat (S n)) by lia.
    rewrite IH, <- app_assoc. simpl. f_equal. f_equal.
    + unfold page_of. rewrite Nat.add_0_r.
      destruct (ocr.md_Images (ocr.lp_Markdown r)); reflexivity.
    + apply imap_ext. intros k x _. simpl. f_equal. lia.
Qed.

(** The pages [OCRFile] builds are the layout parsing results, each at
    its position. *)
Lemma build_pages_imap (results : list ocr.LayoutParsingResult) :
  ocr.build_pages 0 results [] = imap page_of results.
Proof. exact (build_pages_from results 0%nat []). Qed.

(** C2. Whatever the world answers, a result that [OCRFile] returns is
    well formed: a failed one has no pages and a non-empty error message,
    a successful one has an empty error message.  The only run that
    returns no result is the nil dereference of a client without a
    configuration. *)
Theorem OCRFile_well_formed (c : ocr.Client) (filePath : string)
    (opts : ocr.OCROptions) (w : World) :
  match fst (ocr.OCRFile c filePath opts w) with
  | ocr.Returns r => well_formed r
  | ocr.Panics => ocr.config c = None
  end.
Proof.
  run_OCRFile. unfold well_formed.
  destruct (os_IsNotExist (error_of (os_Stat w filePath))); simpl;
    [split; [reflexivity | apply message_not_empty] |].
  destruct (ocr.config c) as [cfg |]; simpl; [| reflexivity].
  destruct (config.IsConfigured cfg); simpl; [| split; [reflexivity | discriminate]].
  destruct (os_ReadFile w filePath) as [data | err]; simpl;
    [| split; [reflexivity | apply message_not_empty]].
  destruct (ocr.json_Marshal _) as [payloadBytes | err]; simpl;
    [| split; [reflexivity | apply message_not_empty]].
  destruct (ocr.http_NewRequest _ _ _) as [req | err]; simpl;
    [| split; [reflexivity | apply message_not_empty]].
  destruct (w_net w _ _) as [resp | err]; simpl;
    [| split; [reflexivity | apply message_not_empty]].
  destruct (resp_Body resp) as [body | err]; simpl;
    [| split; [reflexivity | apply message_not_empty]].
  destruct (bool_decide (resp_StatusCode resp = http_StatusOK)); simpl;
    [| split; [reflexivity | apply message_not_empty]].
  destruct (ocr.json_Unmarshal body) as [response | err]; simpl;
    [| split; [reflexivity | apply message_not_empty]].
  destruct (bool_decide (ocr.api_ErrorCode response = 0)); simpl;
    [reflexivity | split; [reflexivity | apply message_not_empty]].
Qed.

(** C3. [OCRFile] checks that the file exists, then that the client is
    configured, then that the file can be read.  The first check that
    fails decides the result, a failed one with its own message and no
    pages, and the run stops there: a missing file is reported without
    looking at the configuration, and neither it nor an unconfigured
    client leads to a read of the file or to an HTTP request. *)
Theorem OCRFile_checks_in_order (c : ocr.Client) (filePath : string)
    (opts : ocr.OCROptions) (w : World) :
  (os_IsNotExist (error_of (os_Stat w filePath)) = true ->
     ocr.OCRFile c filePath opts w
     = (ocr.Returns (ocr.mkDocumentOCRResult false []
                       ("File not found: " +:+ filePath) ""),
        [ocr.EvStat filePath]))
  /\ (os_IsNotExist (error_of (os_Stat w filePath)) = false ->
      ocr.IsConfigured c = ocr.Returns false ->
      ocr.OCRFile c filePath opts w
      = (ocr.Returns (ocr.mkDocumentOCRResult false []
           "PaddleOCR is not configured. Run 'paddleocr-cli configure' first." ""),
         [ocr.EvStat filePath]))
  /\ (forall err,
        os_IsNotExist (error_of (os_Stat w filePath)) = false ->
        ocr.IsConfigured c = ocr.Returns true ->
        os_ReadFile w filePath = Err err ->
        ocr.OCRFile c filePath opts w
        = (ocr.Returns (ocr.mkDocumentOCRResult false []
                          ("Failed to read file: " +:+ err_text err) ""),
           [ocr.EvStat filePath; ocr.EvReadFile filePath])).
Proof.
  split; [| split].
  - intros Hstat. run_OCRFile. rewrite Hstat. reflexivity.
  - intros Hstat Hconf. unfold ocr.OCRFile, ocr.bind, ocr.ret, ocr.call_Stat.
    rewrite Hstat, Hconf. reflexivity.
  - intros err Hstat Hconf Hread.
    unfold ocr.OCRFile, ocr.encodeFile, ocr.bind, ocr.ret, ocr.call_Stat, ocr.call_ReadFile.
    rewrite Hstat, Hconf, Hread. reflexivity.
Qed.

(** What a run that reached the network has sent, and what it does with
    the answer: [handle] is the rest of [OCRFile] after [client.Do]. *)
Lemma OCRFile_sent (c : ocr.Client) (filePath : string) (opts : ocr.OCROptions)
    (w : World) (client : http_Client) (req : http_Request) :
  last (snd (ocr.OCRFile c filePath opts w)) = Some (ocr.EvDo client req) ->
  fst (ocr.OCRFile c filePath opts w)
  = match w_net w client req with
    | Err err => ocr.Returns (ocr.failure ("Request failed: " +:+ err_text err) "")
    | Ok resp =>
        match resp_Body resp with
        | Err err =>
            ocr.Returns (ocr.failure ("Failed to read response: " +:+ err_text err) "")
        | Ok body =>
            if negb (bool_decide (resp_StatusCode resp = http_StatusOK)) then
              ocr.Returns (ocr.failure
                ("HTTP " +:+ strconv_Itoa (resp_StatusCode resp) +:+ ": "
                 +:+ resp_Status resp +:+ LF +:+ body) "")
            else
              match ocr.json_Unmarshal body with
              | Err err =>
                  ocr.Returns (ocr.failure ("Invalid JSON response: " +:+ err_text err) "")
              | Ok response =>
                  if negb (bool_decide (ocr.api_ErrorCode response = 0)) then
                    ocr.Returns (ocr.failure
                      ("API error (" +:+ strconv_Itoa (ocr.api_ErrorCode response)
                       +:+ "): " +:+ ocr.api_ErrorMsg response) (ocr.api_LogID response))
                  else
                    ocr.Returns (ocr.mkDocumentOCRResult true
                      (ocr.build_pages 0
                         (ocr.LayoutParsingResults (ocr.api_Result response)) [])
                      "" (ocr.api_LogID response))
              end
        end
    end.
Proof.
  unfold ocr.OCRFile, ocr.encodeFile, ocr.bind, ocr.ret, ocr.call_Stat,
    ocr.call_ReadFile, ocr.call_Do, ocr.IsConfigured, ocr.ServerURL.
  destruct (os_IsNotExist (error_of (os_Stat w filePath))); simpl; [discriminate |].
  destruct (ocr.config c) as [cfg |]; simpl; [| discriminate].
  destruct (config.IsConfigured cfg); simpl; [| discriminate].
  destruct (os_ReadFile w filePath) as [data | err]; simpl; [| discriminate].
  destruct (ocr.json_Marshal _) as [payloadBytes | err]; simpl; [| discriminate].
  destruct (ocr.http_NewRequest _ _ _) as [req0 | err]; simpl; [| discriminate].
  match goal with
  | |- context [w_net w ?cl ?rq] => set (client0 := cl); set (sent := rq)
  end.
  destruct (w_net w client0 sent) as [resp | err] eqn:Hnet; simpl.
  - destruct (resp_Body resp) as [body | err] eqn:Hbody; simpl.
    + destruct (bool_decide (resp_StatusCode resp = http_StatusOK)) eqn:Hcode; simpl.
      * destruct (ocr.json_Unmarshal body) as [response | err] eqn:Hjson; simpl.
        -- destruct (bool_decide (ocr.api_ErrorCode response = 0)) eqn:Herr; simpl;
             intros [= <- <-]; rewrite Hnet, Hbody, Hcode; simpl; rewrite Hjson, Herr;
             reflexivity.
        -- intros [= <- <-]. rewrite Hnet, Hbody, Hcode. simpl. rewrite Hjson.
           reflexivity.
      * intros [= <- <-]. rewrite Hnet, Hbody, Hcode. reflexivity.
    + intros [= <- <-]. rewrite Hnet, Hbody. reflexivity.
  - intros [= <- <-]. rewrite Hnet. reflexivity.
Qed.

(** C4. When the request was sent and answered with status 200 and a body
    that parses to an envelope with error code 0, [OCRFile] returns a
    successful result with the log id of the envelope, and its pages are
    the layout parsing results in their order: the page at position [i]
    has page index [i], the text of the [i]-th result, and its images,
    an empty map standing for a missing one. *)
Theorem OCRFile_success (c : ocr.Client) (filePath : string) (opts : ocr.OCROptions)
    (w : World) (client : http_Client) (req : http_Request)
    (resp : http_Response) (body : string) (response : ocr.APIResponse) :
  last (snd (ocr.OCRFile c filePath opts w)) = Some (ocr.EvDo client req) ->
  w_net w client req = Ok resp ->
  resp_StatusCode resp = 200 ->
  resp_Body resp = Ok body ->
  ocr.json_Unmarshal body = Ok response ->
  ocr.api_ErrorCode response = 0 ->
  exists pages,
    fst (ocr.OCRFile c filePath opts w)
    = ocr.Returns (ocr.mkDocumentOCRResult true pages "" (ocr.api_LogID response))
    /\ length pages = length (ocr.LayoutParsingResults (ocr.api_Result response))
    /\ forall (i : nat) (r : ocr.LayoutParsingResult),
         ocr.LayoutParsingResults (ocr.api_Result response) !! i = Some r ->
         pages !! i
         = Some (ocr.mkOCRResult (Z.of_nat i) (ocr.md_Text (ocr.lp_Markdown r))
                   (Some (default ∅ (ocr.md_Images (ocr.lp_Markdown r))))).
Proof.
  intros Hsent Hnet Hcode Hbody Hjson Herr.
  exists (imap page_of (ocr.LayoutParsingResults (ocr.api_Result response))).
  split; [| split].
  - rewrite (OCRFile_sent c filePath opts w client req Hsent).
    rewrite Hnet, Hbody, Hcode. simpl. rewrite Hjson, Herr. simpl.
    rewrite build_pages_imap. reflexivity.
  - apply length_imap.
  - intros i r Hi. rewrite list_lookup_imap, Hi. reflexivity.
Qed.


End Client.

(** The examples of C3, C4 and C5 on the sample home. *)

(** A missing file is reported even by an unconfigured client; an
    unconfigured client stops before the read; a directory passes both
    checks and fails the read. *)
Lemma OCRFile_checks_in_order_witness :
  @ocr.OCRFile sample.lib sample.unconfigured "/home/u/proj/sub/absent.pdf"
    ocr.DefaultOCROptions (sample.world sample.serves_hi)
  = (ocr.Returns (ocr.mkDocumentOCRResult false []
                    "File not found: /home/u/proj/sub/absent.pdf" ""),
     [ocr.EvStat "/home/u/proj/sub/absent.pdf"])
  /\ @ocr.OCRFile sample.lib sample.unconfigured "/home/u/proj/sub/scan.PDF"
       ocr.DefaultOCROptions (sample.world sample.serves_hi)
     = (ocr.Returns (ocr.mkDocumentOCRResult false []
          "PaddleOCR is not configured. Run 'paddleocr-cli configure' first." ""),
        [ocr.EvStat "/home/u/proj/sub/scan.PDF"])
  /\ @ocr.OCRFile sample.lib sample.client "/home/u/proj/sub"
       ocr.DefaultOCROptions (sample.world sample.serves_hi)
     = (ocr.Returns (ocr.mkDocumentOCRResult false []
                       "Failed to read file: read /home/u/proj/sub: is a directory" ""),
        [ocr.EvStat "/home/u/proj/sub"; ocr.EvReadFile "/home/u/proj/sub"]).
Proof.
  split; [| split].
  - apply (proj1 (@OCRFile_checks_in_order sample.lib _ _ _ _)).
    vm_compute. reflexivity.
  - apply (proj1 (proj2 (@OCRFile_checks_in_order sample.lib _ _ _ _)));
      vm_compute; reflexivity.
  - apply (proj2 (proj2 (@OCRFile_checks_in_order sample.lib _ _ _ _))
             (PathError "read" "/home/u/proj/sub" EISDIR));
      vm_compute; reflexivity.
Defined.

(** The envelope of the specification's example gives one page, with page
    index 0 and the text [hi]. *)
Lemma OCRFile_success_witness :
  exists pages,
    fst (@ocr.OCRFile sample.lib sample.client "/home/u/proj/sub/scan.PDF"
           ocr.DefaultOCROptions (sample.world sample.serves_hi))
    = ocr.Returns (ocr.mkDocumentOCRResult true pages "" "log-1")
    /\ length pages = 1%nat
    /\ pages !! 0%nat = Some (ocr.mkOCRResult 0 "hi" (Some ∅)).
Proof.
  destruct (@OCRFile_success sample.lib sample.client "/home/u/proj/sub/scan.PDF"
              ocr.DefaultOCROptions (sample.world sample.serves_hi)
              (mkClient (120 * time_Second))
              (Header_Set "Content-Type" "application/json"
                 (Header_Set "Authorization" "token secret-token"
                    (mkRequest "POST" "https://ocr.example.com/layout-parsing" ∅
                       ("{" +:+ sample.quoted "file" +:+ ":" +:+ sample.quoted "JVBERi0xLjc="
                        +:+ "," +:+ sample.quoted "fileType" +:+ ":0,"
                        +:+ sample.quoted "useChartRecognition" +:+ ":false,"
                        +:+ sample.quoted "useDocOrientationClassify" +:+ ":false,"
                        +:+ sample.quoted "useDocUnwarping" +:+ ":false}"))))
              (mkResponse 200 "200 OK" (Ok sample.hi_body)) sample.hi_body
              sample.hi_envelope)
    as (pages & Hresult & Hlength & Hpages).
  - vm_compute. reflexivity.
  - reflexivity.
  - reflexivity.
  - reflexivity.
  - vm_compute. reflexivity.
  - reflexivity.
  - exists pages. split; [exact Hresult |]. split; [exact Hlength |].
    exact (Hpages 0%nat _ eq_refl).
Defined.



(** Where a client without a configuration comes from: [NewClient(nil)]
    drops the error of [Load], here a config file that does not parse,
    and [OCRFile] then dereferences the nil configuration. *)
Example NewClient_nil_config :
  let w := mkWorld (Ok "/tmp") (Ok "/home/u")
             {[ "/" := NDir; "/tmp" := NDir;
                "/tmp/.paddleocr_cli.yaml" := NFile "paddleocr: [" 384;
                "/tmp/page.png" := NFile "PNG" 420 ]} sample.offline sample.sound in
  ocr.config (@ocr.NewClient sample.yaml None w) = None
  /\ fst (@ocr.OCRFile sample.lib (@ocr.NewClient sample.yaml None w) "/tmp/page.png"
            ocr.DefaultOCROptions w) = ocr.Panics.
Proof. split; vm_compute; reflexivity. Qed.

(** The trailing slash of the sample server URL is trimmed. *)
Example ServerURL_example :
  ocr.ServerURL sample.client = ocr.Returns "https://ocr.example.com".
Proof. vm_compute. reflexivity. Qed.

(** The command line on the sample home. *)

Example runOCR_example :
  @main.runOCR sample.yaml sample.lib sample.cli main.defaultFlags
    "/home/u/proj/sub/scan.PDF" (main.start (sample.world sample.server))
  = (main.Done tt,
     main.mkProc (sample.world sample.server)
       ("hi" +:+ LF)
       ("Processing: /home/u/proj/sub/scan.PDF" +:+ LF +:+ "OCR completed: 1 page(s)" +:+ LF)
       [ocr.EvStat "/home/u/proj/sub/scan.PDF"; ocr.EvStat "/home/u/proj/sub/scan.PDF";
        ocr.EvReadFile "/home/u/proj/sub/scan.PDF";
        ocr.EvDo (mkClient (120 * time_Second))
          (Header_Set "Content-Type" "application/json"
             (Header_Set "Authorization" "token secret-token"
                (mkRequest "POST" "https://ocr.example.com/layout-parsing" ∅
                   ("{" +:+ sample.quoted "file" +:+ ":" +:+ sample.quoted "JVBERi0xLjc="
                    +:+ "," +:+ sample.quoted "fileType" +:+ ":0,"
                    +:+ sample.quoted "useChartRecognition" +:+ ":false,"
                    +:+ sample.quoted "useDocOrientationClassify" +:+ ":false,"
                    +:+ sample.quoted "useDocUnwarping" +:+ ":false}"))))]).
Proof. vm_compute. reflexivity. Qed.

Example runOCR_page_out_of_range :
  let f := main.mkFlags "" false 5 false 120 false false false true ""
             "" "" false false false "user" in
  let run := @main.runOCR sample.yaml sample.lib sample.cli f
               "/home/u/proj/sub/scan.PDF" (main.start (sample.world sample.server)) in
  fst run = main.Exit 1
  /\ main.p_stdout (snd run) = ""
  /\ main.p_stderr (snd run) = "Error: Page 5 not found (document has 1 pages)" +:+ LF.
Proof. vm_compute. repeat split; reflexivity. Qed.

Example runConfigure_test_example :
  let f := main.mkFlags "" false (-1) false 120 false false false false ""
             "" "" false true false "user" in
  let run := @main.runConfigure sample.yaml sample.lib sample.health f
               (main.start (sample.world sample.server)) in
  fst run = main.Done tt
  /\ main.p_stdout (snd run)
     = "Testing connection to PaddleOCR server..." +:+ LF
       +:+ "  [OK] Connection successful" +:+ LF
  /\ main.p_calls (snd run)
     = [ocr.EvDo (mkClient (10 * time_Second))
          (Header_Set "Authorization" "token secret-token"
             (mkRequest "GET" "https://ocr.example.com/health" ∅ ""))].
Proof. vm_compute. repeat split; reflexivity. Qed.

Example runConfigure_locations_example :
  let f := main.mkFlags "" false (-1) false 120 false false false false ""
             "" "" false false true "user" in
  let run := @main.runConfigure sample.yaml sample.lib sample.health f
               (main.start (sample.world_without ["/home/u/proj/.paddleocr_cli.yaml"])) in
  fst run = main.Done tt
  /\ main.p_stdout (snd run)
     = "Configuration file search locations:" +:+ LF +:+ LF
       +:+ "  [FOUND]      Current directory" +:+ LF
       +:+ "             /home/u/proj/sub/.paddleocr_cli.yaml" +:+ LF +:+ LF
       +:+ "  [not found]  Project root" +:+ LF
       +:+ "             /home/u/proj/.paddleocr_cli.yaml" +:+ LF +:+ LF
       +:+ "  [FOUND]      User config" +:+ LF
       +:+ "             /home/u/.config/paddleocr_cli/config.yaml" +:+ LF +:+ LF.
Proof. vm_compute. repeat split; reflexivity. Qed.

Example runConfigure_update_example :
  let f := main.mkFlags "" false (-1) false 120 false false false false ""
             "new-token-123" "" false false false "local" in
  let run := @main.runConfigure sample.yaml sample.lib sample.health f
               (main.start (sample.world sample.server)) in
  fst run = main.Done tt
  /\ main.p_stdout (snd run)
     = "Configuration saved to: /home/u/proj/sub/.paddleocr_cli.yaml" +:+ LF
  /\ @config.Load sample.yaml "" (main.p_world (snd run))
     = Ok (config.mkConfig
             (config.mkPaddleOCRConfig "https://ocr.example.com/" "new-token-123")).
Proof. vm_compute. repeat split; reflexivity. Qed.

(** An output file named from the working directory. *)
Example runOCR_relative_output :
  let f := main.mkFlags "out.md" false (-1) false 120 false false false true ""
             "" "" false false false "user" in
  let run := @main.runOCR sample.yaml sample.lib sample.cli f
               "scan.PDF" (main.start (sample.world sample.server)) in
  fst run = main.Done tt
  /\ main.p_stdout (snd run) = ""
  /\ w_fs (main.p_world (snd run)) !! "/home/u/proj/sub/out.md" = Some (NFile "hi" 420).
Proof. vm_compute. repeat split; reflexivity. Qed.

(** * Further properties of the code *)

(** ** The project root *)

Lemma ancestor_succ (k : nat) (dir : string) :
  ancestor (S k) dir = ancestor k (filepath_Dir dir).
Proof. unfold ancestor. apply Nat.iter_succ_r. Qed.

Lemma ancestor_fixed (k : nat) (dir : string) :
  filepath_Dir dir = dir -> ancestor k dir = dir.
Proof.
  intros Hfix. induction k as [|k IH]; [reflexivity |].
  rewrite ancestor_succ, Hfix. exact IH.
Qed.

(** What the loop returns, when it returns a directory: the nearest one
    with the marker, reached without passing the home directory. *)
Lemma GetProjectRoot_loop_sound (w : World) (home : string) (fuel : nat) :
  forall current root : string,
    config.GetProjectRoot_loop fuel w home current = Some root ->
    root <> "" ->
    exists k,
      root = ancestor k current
      /\ has_marker w root = true
      /\ forall j, (j < k)%nat ->
           has_marker w (ancestor j current) = false /\ ancestor j current <> home.
Proof.
  induction fuel as [|fuel IH]; intros current root Hloop Hroot; [discriminate |].
  cbn [config.GetProjectRoot_loop] in Hloop.
  change (match os_Stat w (filepath_Join [current; ".claude"]) with
          | Ok info => fi_IsDir info
          | Err _ => false
          end) with (has_marker w current) in Hloop.
  destruct (has_marker w current) eqn:Hmark.
  - injection Hloop as <-. exists 0%nat. split; [reflexivity |].
    split; [exact Hmark | intros j Hj; lia].
  - destruct (bool_decide (filepath_Dir current = current)) eqn:Hfix; simpl in Hloop;
      [congruence |].
    destruct (bool_decide (current = home)) eqn:Hhome; [congruence |].
    apply bool_decide_eq_false in Hhome.
    destruct (IH _ _ Hloop Hroot) as (k & Hk & Hm & Hbelow).
    exists (S k). rewrite ancestor_succ. split; [exact Hk |]. split; [exact Hm |].
    intros [|j] Hj.
    + split; [exact Hmark | exact Hhome].
    + rewrite ancestor_succ. apply Hbelow. lia.
Qed.

(** The loop finds the nearest directory with the marker, when no
    directory below it is the home directory. *)
Lemma GetProjectRoot_loop_complete (w : World) (home : string) (k : nat) :
  forall (fuel : nat) (current root : string),
    config.GetProjectRoot_loop fuel w home current = Some root ->
    has_marker w (ancestor k current) = true ->
    (forall j, (j < k)%nat ->
       has_marker w (ancestor j current) = false /\ ancestor j current <> home) ->
    root = ancestor k current.
Proof.
  induction k as [|k IH]; intros [|fuel] current root Hloop Hmark Hbelow;
    try discriminate; cbn [config.GetProjectRoot_loop] in Hloop;
    change (match os_Stat w (filepath_Join [current; ".claude"]) with
            | Ok info => fi_IsDir info
            | Err _ => false
            end) with (has_marker w current) in Hloop.
  - change (ancestor 0 current) with current in *. rewrite Hmark in Hloop. congruence.
  - destruct (Hbelow 0%nat ltac:(lia)) as [Hnone Hhome].
    change (ancestor 0 current) with current in *. rewrite Hnone in Hloop.
    destruct (bool_decide (filepath_Dir current = current)) eqn:Hfix; simpl in Hloop.
    + apply bool_decide_eq_true in Hfix.
      rewrite (ancestor_fixed (S k) current Hfix) in Hmark. congruence.
    + rewrite bool_decide_eq_false_2 in Hloop by exact Hhome.
      rewrite ancestor_succ in *. apply (IH fuel _ _ Hloop Hmark).
      intros j Hj. rewrite <- ancestor_succ. apply Hbelow. lia.
Qed.

(** X1. [GetProjectRoot] returns the nearest directory, from the working
    directory upwards, that holds a [.claude] directory, provided the
    walk does not pass the home directory first; and a non-empty result
    is always such a directory. *)
Theorem GetProjectRoot_nearest (w : World) (cwd : string) :
  os_Getwd w = Ok cwd ->
  (forall k,
     has_marker w (ancestor k cwd) = true ->
     (forall j, (j < k)%nat ->
        has_marker w (ancestor j cwd) = false /\ ancestor j cwd <> home_of w) ->
     config.GetProjectRoot w = ancestor k cwd)
  /\ (config.GetProjectRoot w <> "" ->
      exists k,
        config.GetProjectRoot w = ancestor k cwd
        /\ has_marker w (config.GetProjectRoot w) = true
        /\ forall j, (j < k)%nat ->
             has_marker w (ancestor j cwd) = false /\ ancestor j cwd <> home_of w).
Proof.
  intros Hcwd. pose proof (GetProjectRoot_loop_result w cwd Hcwd) as Hloop.
  fold (home_of w) in Hloop. split.
  - intros k Hmark Hbelow.
    exact (GetProjectRoot_loop_complete w (home_of w) k _ _ _ Hloop Hmark Hbelow).
  - intros Hroot.
    exact (GetProjectRoot_loop_sound w (home_of w) _ _ _ Hloop Hroot).
Qed.

(** On the sample home the project is one level above the working
    directory. *)
Lemma GetProjectRoot_nearest_witness :
  config.GetProjectRoot (sample.world sample.offline) = "/home/u/proj".
Proof.
  apply (proj1 (GetProjectRoot_nearest (sample.world sample.offline)
                  "/home/u/proj/sub" eq_refl) 1%nat).
  - vm_compute. reflexivity.
  - intros j Hj. assert (j = 0%nat) as -> by lia.
    split; [vm_compute; reflexivity | vm_compute; discriminate].
Defined.

(** X2. Started in the home directory, [GetProjectRoot] looks at the home
    directory only: a [.claude] directory further up is never used. *)
Theorem GetProjectRoot_at_home (w : World) (home : string) :
  os_Getwd w = Ok home ->
  os_UserHomeDir w = Ok home ->
  config.GetProjectRoot w = if has_marker w home then home else "".
Proof.
  intros Hcwd Hhome. unfold config.GetProjectRoot. rewrite Hcwd, Hhome.
  cbn [config.GetProjectRoot_loop].
  change (match os_Stat w (filepath_Join [home; ".claude"]) with
          | Ok info => fi_IsDir info
          | Err _ => false
          end) with (has_marker w home).
  destruct (has_marker w home); [reflexivity |].
  rewrite (bool_decide_eq_true_2 (home = home)) by reflexivity.
  rewrite orb_true_r. reflexivity.
Qed.

(** A marker in the root directory is not seen from a home without one. *)
Lemma GetProjectRoot_at_home_witness :
  config.GetProjectRoot
    (mkWorld (Ok "/home/u") (Ok "/home/u") {[ "/.claude" := NDir ]} sample.offline
       sample.sound)
  = "".
Proof.
  rewrite (GetProjectRoot_at_home
             (mkWorld (Ok "/home/u") (Ok "/home/u") {[ "/.claude" := NDir ]} sample.offline
       sample.sound)
             "/home/u" eq_refl eq_refl).
  vm_compute. reflexivity.
Defined.

(** ** The configuration files *)

Lemma stat_ok_not_empty (w : World) (path : string) :
  config.stat_ok w path = true -> path <> "".
Proof.
  unfold config.stat_ok, os_Stat, fs_node. intros Hok ->.
  destruct (decide ("" = "")) as [_ | Hne]; [discriminate | contradiction].
Qed.

Lemma first_existing_filter (w : World) (paths : list string) :
  config.first_existing w paths
  = from_option id "" (head (List.filter (config.stat_ok w) paths)).
Proof.
  induction paths as [|p paths IH]; [reflexivity |].
  simpl. unfold config.stat_ok at 1.
  destruct (os_Stat w p); [reflexivity | exact IH].
Qed.

Lemma first_existing_empty (w : World) (paths : list string) :
  config.first_existing w paths = ""
  <-> Forall (fun p => config.stat_ok w p = false) paths.
Proof.
  induction paths as [|p paths IH]; simpl.
  - split; [constructor | reflexivity].
  - rewrite Forall_cons. destruct (config.stat_ok w p) eqn:Hp.
    + pose proof (stat_ok_not_empty w p Hp) as Hne.
      unfold config.stat_ok in Hp. destruct (os_Stat w p); [| discriminate].
      split; [contradiction | intros [? _]; discriminate].
    + unfold config.stat_ok in Hp. destruct (os_Stat w p); [discriminate |].
      rewrite IH. tauto.
Qed.

(** The locations that exist are the search paths that exist, in order. *)
Lemma GetConfigLocations_existing (w : World) :
  map config.Path (List.filter config.Exists (config.GetConfigLocations w))
  = List.filter (config.stat_ok w) (config.searchPaths w).
Proof.
  unfold config.GetConfigLocations, config.searchPaths.
  destruct (os_Getwd w) as [cwd | e1], (decide (config.GetProjectRoot w = "")) as [Hr | Hr],
    (os_UserHomeDir w) as [home | e3];
    rewrite ?List.filter_app; simpl;
    repeat match goal with
           | |- context [config.stat_ok w ?p] => destruct (config.stat_ok w p); simpl
           end; reflexivity.
Qed.

Lemma GetConfigLocations_none (w : World) :
  Forall (fun loc => config.Exists loc = false) (config.GetConfigLocations w)
  <-> Forall (fun p => config.stat_ok w p = false) (config.searchPaths w).
Proof.
  unfold config.GetConfigLocations, config.searchPaths.
  destruct (os_Getwd w) as [cwd | e1], (decide (config.GetProjectRoot w = "")) as [Hr | Hr],
    (os_UserHomeDir w) as [home | e3];
    rewrite ?Forall_app, ?Forall_cons, ?Forall_nil; simpl; tauto.
Qed.

(** X3. [FindConfig] returns the path of the first location that
    [GetConfigLocations] reports as existing, and the empty path exactly
    when no location exists: what [configure --locations] shows as found
    first is the file that is loaded. *)
Theorem FindConfig_first_location (w : World) :
  config.FindConfig w
  = from_option config.Path ""
      (head (List.filter config.Exists (config.GetConfigLocations w)))
  /\ (config.FindConfig w = ""
      <-> Forall (fun loc => config.Exists loc = false) (config.GetConfigLocations w)).
Proof.
  unfold config.FindConfig. split.
  - rewrite first_existing_filter, <- GetConfigLocations_existing.
    destruct (List.filter config.Exists (config.GetConfigLocations w)); reflexivity.
  - rewrite first_existing_empty, GetConfigLocations_none. reflexivity.
Qed.

Lemma filepath_Clean_not_empty (path : string) : filepath_Clean path <> "".
Proof.
  unfold filepath_Clean, clean_bytes.
  destruct (list_ascii_of_string path) as [|c p]; [discriminate |].
  destruct (if is_sep c then _ else _); discriminate.
Qed.

Lemma filepath_Join_not_empty (elem : list string) (e : string) :
  e <> "" -> In e elem -> filepath_Join elem <> "".
Proof.
  intros He. induction elem as [|x elem IH]; intros Hin; [contradiction |].
  cbn [filepath_Join]. destruct (decide (x = "")) as [-> | Hx].
  - apply IH. destruct Hin as [<- | Hin]; [contradiction | exact Hin].
  - apply filepath_Clean_not_empty.
Qed.

(** [GetSavePath] never returns the empty path, which [Save] would take
    for "no path given". *)
Lemma GetSavePath_not_empty (scope path : string) (w : World) :
  config.GetSavePath scope w = Ok path -> path <> "".
Proof.
  unfold config.GetSavePath.
  destruct (decide (scope = "local")).
  - destruct (os_Getwd w) as [cwd |]; [| discriminate]. intros [= <-].
    apply (filepath_Join_not_empty [cwd; config.ConfigFilename] config.ConfigFilename);
      [discriminate | simpl; tauto].
  - destruct (decide (scope = "project")).
    + destruct (decide (config.GetProjectRoot w = "")); [discriminate |]. intros [= <-].
      apply (filepath_Join_not_empty [config.GetProjectRoot w; config.ConfigFilename]
               config.ConfigFilename); [discriminate | simpl; tauto].
    + destruct (os_UserHomeDir w) as [home |]; [| discriminate]. intros [= <-].
      apply (filepath_Join_not_empty [home; config.UserConfigDir; config.UserConfigFile]
               config.UserConfigFile); [discriminate | simpl; tauto].
Qed.

Section Files.
Context {Y : config.Yaml}.

(** X4. When none of the locations has a file, [Load] without a path
    returns the empty configuration and no error, whatever the codec: a
    missing configuration is not an error of loading, and the result is
    not configured. *)
Theorem Load_without_config (w : World) :
  Forall (fun loc => config.Exists loc = false) (config.GetConfigLocations w) ->
  config.Load "" w = Ok config.New /\ config.IsConfigured config.New = false.
Proof.
  intros Hnone. split; [| reflexivity].
  apply GetConfigLocations_none, first_existing_empty in Hnone.
  unfold config.Load. simpl. unfold config.FindConfig. rewrite Hnone. reflexivity.
Qed.

(** What a successful [Save] leaves at its path: the marshalled
    configuration, in a regular file. *)
Lemma Save_writes (c : config.Config) (configPath : string) (w w' : World) :
  configPath <> "" ->
  config.Save c configPath w = (Ok tt, w') ->
  exists data mode,
    config.yaml_Marshal c = Ok data
    /\ fs_node w' configPath = Some (NFile data mode)
    /\ w_cwd w' = w_cwd w /\ w_home w' = w_home w.
Proof.
  intros Hpath Hsave.
  unfold config.Save, io_bind, io_ret, io_lift in Hsave.
  destruct (decide (configPath = "")) as [? | _]; [contradiction |].
  destruct (os_MkdirAll (filepath_Dir configPath) 493 w) as [[[] | e] w1] eqn:Hmk;
    [| discriminate].
  destruct (os_MkdirAll_keeps _ _ _ _ _ Hmk) as (Hc & Hh & _).
  destruct (config.yaml_Marshal c) as [data | e]; [| discriminate].
  destruct (os_WriteFile_done _ _ _ _ _ Hsave) as (mode & Hfile & _).
  destruct (os_WriteFile_keeps _ _ _ _ _ _ Hsave) as (Hc' & Hh' & _).
  exists data, mode. split; [reflexivity |]. split; [exact Hfile |].
  split; congruence.
Qed.

(** X5. A configuration saved at the path of the scope "local" is the one
    found first afterwards: [FindConfig] returns that path, and [Load]
    without a path returns the saved configuration when the codec reads
    back what it wrote. *)
Theorem Save_local_is_found (c : config.Config) (path : string) (w w' : World) :
  config.GetSavePath "local" w = Ok path ->
  config.Save c path w = (Ok tt, w') ->
  config.FindConfig w' = path
  /\ ((forall data, config.yaml_Marshal c = Ok data ->
                    config.yaml_Unmarshal data config.New = Ok c) ->
      config.Load "" w' = Ok c).
Proof.
  intros Hscope Hsave.
  pose proof (GetSavePath_not_empty _ _ _ Hscope) as Hpath.
  destruct (Save_writes c path w w' Hpath Hsave) as (data & mode & Hdata & Hfile & Hcwd & _).
  unfold config.GetSavePath in Hscope.
  destruct (decide ("local" = "local")) as [_ | Hne]; [| contradiction].
  destruct (os_Getwd w) as [cwd | e] eqn:Hwd; [| discriminate].
  assert (Hjoin : filepath_Join [cwd; config.ConfigFilename] = path) by congruence.
  clear Hscope.
  assert (Hfound : config.FindConfig w' = path).
  { unfold config.FindConfig. rewrite searchPaths_tiers.
    assert (Htier : cwd_config w' = Some path).
    { unfold cwd_config, os_Getwd in *. rewrite Hcwd, Hwd, Hjoin. reflexivity. }
    rewrite Htier. simpl. rewrite (os_Stat_file _ _ _ _ Hfile). reflexivity. }
  split; [exact Hfound |].
  intros Hcodec. unfold config.Load. simpl. rewrite Hfound.
  destruct (decide (path = "")); [contradiction |].
  rewrite (os_ReadFile_file _ _ _ _ Hfile). apply Hcodec. exact Hdata.
Qed.

End Files.

(** With no file anywhere the sample codec is not even asked. *)
Lemma Load_without_config_witness :
  @config.Load sample.yaml ""
    (sample.world_without
       ["/home/u/proj/sub/.paddleocr_cli.yaml"; "/home/u/proj/.paddleocr_cli.yaml";
        "/home/u/.config/paddleocr_cli/config.yaml"])
  = Ok config.New.
Proof.
  apply (@Load_without_config sample.yaml).
  vm_compute. repeat constructor.
Defined.

(** Saving new settings in the working directory of the sample home. *)
Lemma Save_local_is_found_witness :
  let c := config.mkConfig (config.mkPaddleOCRConfig "http://localhost:8080" "t0ken") in
  let w' := snd (@config.Save sample.yaml c "/home/u/proj/sub/.paddleocr_cli.yaml"
                   (sample.world sample.offline)) in
  config.FindConfig w' = "/home/u/proj/sub/.paddleocr_cli.yaml"
  /\ @config.Load sample.yaml "" w' = Ok c.
Proof.
  intros c w'.
  destruct (@Save_local_is_found sample.yaml c "/home/u/proj/sub/.paddleocr_cli.yaml"
              (sample.world sample.offline) w') as [Hfound Hload].
  - vm_compute. reflexivity.
  - vm_compute. reflexivity.
  - split; [exact Hfound |]. apply Hload.
    intros data Hdata. vm_compute in Hdata. injection Hdata as <-.
    vm_compute. reflexivity.
Defined.

(** ** What Save changes *)

Section SaveEffects.
Context {Y : config.Yaml}.

(** X6. Whether it succeeds or fails, [Save] to an explicit path leaves
    the working directory and the home directory as they are, and every
    file and directory except the file its path leads to: besides that
    file it only makes directories, where nothing was, and only
    directories that lie above the path. *)
Theorem Save_keeps_other_files (c : config.Config) (configPath : string)
    (w w' : World) (r : result unit) :
  configPath <> "" ->
  config.Save c configPath w = (r, w') ->
  w_cwd w' = w_cwd w /\ w_home w' = w_home w
  /\ forall key,
       fs_key w configPath <> Some key ->
       w_fs w' !! key = w_fs w !! key
       \/ (w_fs w !! key = None /\ w_fs w' !! key = Some NDir
           /\ exists d,
                In d (ancestors (filepath_Dir configPath)) /\ fs_key w d = Some key).
Proof.
  intros Hpath Hsave. unfold config.Save, io_bind, io_ret, io_lift in Hsave.
  destruct (decide (configPath = "")) as [? | _]; [contradiction |].
  destruct (os_MkdirAll (filepath_Dir configPath) 493 w) as [[[] | e] w1] eqn:Hmk.
  - destruct (os_MkdirAll_keeps _ _ _ _ _ Hmk) as (Hc & Hh & _ & _ & Hfs).
    destruct (config.yaml_Marshal c) as [data | e].
    + destruct (os_WriteFile_keeps _ _ _ _ _ _ Hsave) as (Hc' & Hh' & _ & _ & Hfs').
      split; [congruence |]. split; [congruence |].
      intros key Hkey. rewrite (Hfs' key).
      * exact (Hfs key).
      * rewrite (fs_key_same_cwd w w1 configPath Hc). exact Hkey.
    + injection Hsave as _ <-. split; [exact Hc |]. split; [exact Hh |].
      intros key _. exact (Hfs key).
  - injection Hsave as _ <-.
    destruct (os_MkdirAll_keeps _ _ _ _ _ Hmk) as (Hc & Hh & _ & _ & Hfs).
    split; [exact Hc |]. split; [exact Hh |].
    intros key _. exact (Hfs key).
Qed.

(** X7. A configuration file that [Save] creates, where there was
    nothing, holds exactly the bytes of [yaml.Marshal] and has the mode
    0600, readable and writable by its owner only. *)
Theorem Save_creates_private_file (c : config.Config) (configPath : string) (w w' : World) :
  configPath <> "" ->
  fs_node w configPath = None ->
  config.Save c configPath w = (Ok tt, w') ->
  exists data,
    config.yaml_Marshal c = Ok data
    /\ fs_node w' configPath = Some (NFile data 384).
Proof.
  intros Hpath Hnew Hsave. unfold config.Save, io_bind, io_ret, io_lift in Hsave.
  destruct (decide (configPath = "")) as [? | _]; [contradiction |].
  destruct (os_MkdirAll (filepath_Dir configPath) 493 w) as [[[] | e] w1] eqn:Hmk;
    [| discriminate].
  destruct (os_MkdirAll_keeps _ _ _ _ _ Hmk) as (Hc & _ & _ & _ & Hfs).
  destruct (config.yaml_Marshal c) as [data | e]; [| discriminate].
  exists data. split; [reflexivity |].
  destruct (os_WriteFile_done _ _ _ _ _ Hsave) as (mode & Hfile & Hmode).
  unfold fs_node in Hnew, Hmode. rewrite (fs_key_same_cwd w w1 configPath Hc) in Hmode.
  destruct (fs_key w configPath) as [key |]; [| subst mode; exact Hfile].
  destruct (Hfs key) as [Hsame | (_ & Hdir & _)].
  - rewrite Hsame, Hnew in Hmode. subst mode. exact Hfile.
  - rewrite Hdir in Hmode. contradiction.
Qed.

End SaveEffects.

(** The sample files are as they were after a save next to them, and so
    is the sample home after a save into a new directory, but for the
    directory. *)
Lemma Save_keeps_other_files_witness :
  w_fs (snd (@config.Save sample.yaml config.New "/home/u/proj/sub/new.yaml"
               (sample.world sample.offline)))
    !! "/home/u/proj/sub/scan.PDF"
  = Some (NFile "%PDF-1.7" 420)
  /\ w_fs (snd (@config.Save sample.yaml config.New "/home/u/other/new.yaml"
                  (sample.world sample.offline)))
       !! "/home/u/other"
     = Some NDir.
Proof.
  split.
  - destruct (proj2 (proj2 (@Save_keeps_other_files sample.yaml config.New
                              "/home/u/proj/sub/new.yaml" (sample.world sample.offline)
                              _ _ ltac:(discriminate) (surjective_pairing _)))
                "/home/u/proj/sub/scan.PDF" ltac:(vm_compute; discriminate))
      as [Hsame | (Hnone & _)].
    + rewrite Hsame. vm_compute. reflexivity.
    + vm_compute in Hnone. discriminate Hnone.
  - destruct (proj2 (proj2 (@Save_keeps_other_files sample.yaml config.New
                              "/home/u/other/new.yaml" (sample.world sample.offline)
                              _ _ ltac:(discriminate) (surjective_pairing _)))
                "/home/u/other" ltac:(vm_compute; discriminate))
      as [Hsame | (_ & Hdir & _)].
    + vm_compute. reflexivity.
    + exact Hdir.
Defined.

Lemma Save_creates_private_file_witness :
  exists data,
    fs_node (snd (@config.Save sample.yaml sample.settings "/home/u/proj/sub/new.yaml"
                    (sample.world sample.offline)))
      "/home/u/proj/sub/new.yaml"
    = Some (NFile data 384).
Proof.
  destruct (@Save_creates_private_file sample.yaml sample.settings
              "/home/u/proj/sub/new.yaml" (sample.world sample.offline)
              (snd (@config.Save sample.yaml sample.settings "/home/u/proj/sub/new.yaml"
                      (sample.world sample.offline))))
    as (data & _ & Hfile).
  - discriminate.
  - vm_compute. reflexivity.
  - vm_compute. reflexivity.
  - exists data. exact Hfile.
Defined.

(** ** The requests of the client *)

Lemma string_app_nil_l (s : string) : "" +:+ s = s.
Proof. reflexivity. Qed.

Lemma strings_TrimRight_parts (s : string) (cut : ascii) :
  exists k,
    s = strings_TrimRight s cut +:+ repeated cut k
    /\ last_byte (strings_TrimRight s cut) <> Some cut.
Proof.
  induction s as [|c s (k & Hs & Hlast)]; [exists 0%nat; split; [reflexivity | discriminate] |].
  cbn [strings_TrimRight].
  destruct (strings_TrimRight s cut) as [|x t] eqn:Ht.
  - rewrite string_app_nil_l in Hs. destruct (decide (c = cut)) as [-> | Hc].
    + exists (S k). split; [| discriminate]. rewrite string_app_nil_l. simpl. congruence.
    + exists k. split; [| simpl; congruence].
      rewrite string_app_cons, string_app_nil_l. congruence.
  - exists k. split.
    + rewrite string_app_cons. congruence.
    + exact Hlast.
Qed.

Section Requests.
Context {L : ocr.Lib}.

Lemma ServerURL_parts (c : ocr.Client) (cfg : config.Config) :
  ocr.config c = Some cfg ->
  exists url k,
    ocr.ServerURL c = ocr.Returns url
    /\ config.ServerURL (config.PaddleOCR cfg) = url +:+ repeated "/" k
    /\ last_byte url <> Some "/"%char.
Proof.
  intros Hcfg. unfold ocr.ServerURL. rewrite Hcfg.
  destruct (strings_TrimRight_parts (config.ServerURL (config.PaddleOCR cfg)) Separator)
    as (k & Hs & Hlast).
  eexists _, k. split; [reflexivity |]. split; [exact Hs | exact Hlast].
Qed.

(** X8. The server URL of a client is the configured one without its
    trailing slashes, all of them and nothing else, so that an endpoint
    is never appended after a slash. *)
Theorem ServerURL_trimmed (c : ocr.Client) (cfg : config.Config) :
  ocr.config c = Some cfg ->
  exists url k,
    ocr.ServerURL c = ocr.Returns url
    /\ config.ServerURL (config.PaddleOCR cfg) = url +:+ repeated "/" k
    /\ last_byte url <> Some "/"%char.
Proof. exact (ServerURL_parts c cfg). Qed.

(** Everything about a run of [OCRFile] that sent a request. *)
Lemma OCRFile_request_sent (c : ocr.Client) (filePath : string) (opts : ocr.OCROptions)
    (w : World) (client : http_Client) (req : http_Request) :
  In (ocr.EvDo client req) (snd (ocr.OCRFile c filePath opts w)) ->
  exists cfg data payloadBytes url,
    ocr.config c = Some cfg
    /\ config.IsConfigured cfg = true
    /\ os_ReadFile w filePath = Ok data
    /\ ocr.json_Marshal
         (ocr.mkPayload (base64_EncodeToString data)
            (ocr.FileType_int (ocr.getFileType filePath))
            (ocr.UseDocOrientationClassify opts) (ocr.UseDocUnwarping opts)
            (ocr.UseChartRecognition opts)) = Ok payloadBytes
    /\ ocr.ServerURL c = ocr.Returns url
    /\ req = Header_Set "Content-Type" "application/json"
               (Header_Set "Authorization"
                  ("token " +:+ config.AccessToken (config.PaddleOCR cfg))
                  (mkRequest "POST" (url +:+ ocr.LayoutParsingEndpoint) ∅ payloadBytes))
    /\ client = (if 0 <? ocr.Timeout opts then mkClient (ocr.Timeout opts)
                 else ocr.httpClient c)
    /\ snd (ocr.OCRFile c filePath opts w)
       = [ocr.EvStat filePath; ocr.EvReadFile filePath; ocr.EvDo client req].
Proof.
  unfold ocr.OCRFile, ocr.encodeFile, ocr.bind, ocr.ret, ocr.call_Stat,
    ocr.call_ReadFile, ocr.call_Do, ocr.IsConfigured, ocr.ServerURL, ocr.http_NewRequest.
  destruct (os_IsNotExist (error_of (os_Stat w filePath))); simpl;
    [intros [? | []]; discriminate |].
  destruct (ocr.config c) as [cfg |]; simpl; [| intros [? | []]; discriminate].
  destruct (config.IsConfigured cfg) eqn:Hconf; simpl; [| intros [? | []]; discriminate].
  destruct (os_ReadFile w filePath) as [data | err] eqn:Hread; simpl;
    [| intros [? | [? | []]]; discriminate].
  destruct (ocr.json_Marshal _) as [payloadBytes | err] eqn:Hpayload; simpl;
    [| intros [? | [? | []]]; discriminate].
  destruct (ocr.url_Parse_error _) as [err |]; simpl;
    [intros [? | [? | []]]; discriminate |].
  match goal with
  | |- context [w_net w ?cl ?rq] => set (client0 := cl); set (sent := rq)
  end.
  destruct (w_net w client0 sent) as [resp | err]; simpl;
    [destruct (resp_Body resp) as [body | err]; simpl;
       [destruct (bool_decide (resp_StatusCode resp = http_StatusOK)); simpl;
          [destruct (ocr.json_Unmarshal body) as [response | err]; simpl;
             [destruct (bool_decide (ocr.api_ErrorCode response = 0)); simpl | ] | ] | ] | ].
  all: intros [Hin | [Hin | [Hin | []]]]; try discriminate.
  all: injection Hin as <- <-.
  all: exists cfg, data, payloadBytes,
         (strings_TrimRight (config.ServerURL (config.PaddleOCR cfg)) Separator).
  all: split; [reflexivity |]; split; [exact Hconf |]; split; [reflexivity |].
  all: split; [exact Hpayload |]; repeat split; reflexivity.
Qed.

(** X9. [OCRFile] asks the world in one order only: the stat of the file,
    then one read of it, then one HTTP request.  It stops after any of
    them, and it never reads or sends twice. *)
Theorem OCRFile_calls (c : ocr.Client) (filePath : string) (opts : ocr.OCROptions)
    (w : World) :
  snd (ocr.OCRFile c filePath opts w) = [ocr.EvStat filePath]
  \/ snd (ocr.OCRFile c filePath opts w) = [ocr.EvStat filePath; ocr.EvReadFile filePath]
  \/ exists client req,
       snd (ocr.OCRFile c filePath opts w)
       = [ocr.EvStat filePath; ocr.EvReadFile filePath; ocr.EvDo client req].
Proof.
  run_OCRFile.
  destruct (os_IsNotExist (error_of (os_Stat w filePath))); simpl; [left; reflexivity |].
  destruct (ocr.config c) as [cfg |]; simpl; [| left; reflexivity].
  destruct (config.IsConfigured cfg); simpl; [| left; reflexivity].
  destruct (os_ReadFile w filePath) as [data | err]; simpl; [| right; left; reflexivity].
  destruct (ocr.json_Marshal _) as [payloadBytes | err]; simpl;
    [| right; left; reflexivity].
  destruct (ocr.http_NewRequest _ _ _) as [req | err]; simpl;
    [| right; left; reflexivity].
  right. right.
  match goal with
  | |- context [w_net w ?cl ?rq] => exists cl, rq
  end.
  destruct (w_net w _ _) as [resp | err]; simpl; [| reflexivity].
  destruct (resp_Body resp) as [body | err]; simpl; [| reflexivity].
  destruct (bool_decide (resp_StatusCode resp = http_StatusOK)); simpl; [| reflexivity].
  destruct (ocr.json_Unmarshal body) as [response | err]; simpl; [| reflexivity].
  destruct (bool_decide (ocr.api_ErrorCode response = 0)); reflexivity.
Qed.

(** X10. The request [OCRFile] sends is a POST to the trimmed server URL
    followed by [/layout-parsing], with the headers [Authorization]
    ([token] and the access token) and [Content-Type] and no other, and
    with the marshalled payload as its body: the file in base64 and the
    file type of its extension.  The timeout is the one of the options
    when that is positive, and the one of the client otherwise. *)
Theorem OCRFile_request (c : ocr.Client) (filePath : string) (opts : ocr.OCROptions)
    (w : World) (client : http_Client) (req : http_Request) :
  In (ocr.EvDo client req) (snd (ocr.OCRFile c filePath opts w)) ->
  exists cfg data url k,
    ocr.config c = Some cfg
    /\ os_ReadFile w filePath = Ok data
    /\ config.ServerURL (config.PaddleOCR cfg) = url +:+ repeated "/" k
    /\ last_byte url <> Some "/"%char
    /\ req_Method req = "POST"
    /\ req_URL req = url +:+ "/layout-parsing"
    /\ req_Header req = ocr_headers (config.AccessToken (config.PaddleOCR cfg))
    /\ ocr.json_Marshal
         (ocr.mkPayload (base64_EncodeToString data)
            (match ocr.getFileType filePath with
             | ocr.FileTypePDF => 0
             | ocr.FileTypeImage => 1
             end)
            (ocr.UseDocOrientationClassify opts) (ocr.UseDocUnwarping opts)
            (ocr.UseChartRecognition opts)) = Ok (req_Body req)
    /\ http_Timeout client
       = if 0 <? ocr.Timeout opts then ocr.Timeout opts
         else http_Timeout (ocr.httpClient c).
Proof.
  intros Hin.
  destruct (OCRFile_request_sent c filePath opts w client req Hin)
    as (cfg & data & payloadBytes & url & Hcfg & _ & Hread & Hpayload & Hurl & -> & -> & _).
  destruct (ServerURL_parts c cfg Hcfg) as (url' & k & Hurl' & Hparts & Hlast).
  assert (url' = url) as -> by congruence.
  exists cfg, data, url, k.
  split; [exact Hcfg |]. split; [exact Hread |]. split; [exact Hparts |].
  split; [exact Hlast |]. split; [reflexivity |]. split; [reflexivity |].
  split; [| split].
  - simpl. unfold ocr_headers. rewrite insert_insert_ne by discriminate.
    rewrite insert_empty. reflexivity.
  - simpl. rewrite <- Hpayload. reflexivity.
  - destruct (0 <? ocr.Timeout opts); reflexivity.
Qed.

(** X11. [OCRFile] reports success for one reason only: the file was
    read, the request was sent, the answer had status 200, and its body
    parsed to an envelope with error code 0, whose log id the result
    carries. *)
Theorem OCRFile_success_only_if (c : ocr.Client) (filePath : string)
    (opts : ocr.OCROptions) (w : World) (r : ocr.DocumentOCRResult) :
  fst (ocr.OCRFile c filePath opts w) = ocr.Returns r ->
  ocr.Success r = true ->
  exists client req resp body response,
    snd (ocr.OCRFile c filePath opts w)
    = [ocr.EvStat filePath; ocr.EvReadFile filePath; ocr.EvDo client req]
    /\ w_net w client req = Ok resp
    /\ resp_StatusCode resp = 200
    /\ resp_Body resp = Ok body
    /\ ocr.json_Unmarshal body = Ok response
    /\ ocr.api_ErrorCode response = 0
    /\ ocr.LogID r = ocr.api_LogID response
    /\ length (ocr.Pages r)
       = length (ocr.LayoutParsingResults (ocr.api_Result response)).
Proof.
  run_OCRFile.
  destruct (os_IsNotExist (error_of (os_Stat w filePath))); simpl;
    [intros [= <-]; discriminate |].
  destruct (ocr.config c) as [cfg |]; simpl; [| discriminate].
  destruct (config.IsConfigured cfg); simpl; [| intros [= <-]; discriminate].
  destruct (os_ReadFile w filePath) as [data | err]; simpl; [| intros [= <-]; discriminate].
  destruct (ocr.json_Marshal _) as [payloadBytes | err]; simpl;
    [| intros [= <-]; discriminate].
  destruct (ocr.http_NewRequest _ _ _) as [req | err]; simpl;
    [| intros [= <-]; discriminate].
  match goal with
  | |- context [w_net w ?cl ?rq] => set (client0 := cl); set (sent := rq)
  end.
  destruct (w_net w client0 sent) as [resp | err] eqn:Hnet; simpl;
    [| intros [= <-]; discriminate].
  destruct (resp_Body resp) as [body | err] eqn:Hbody; simpl;
    [| intros [= <-]; discriminate].
  destruct (bool_decide (resp_StatusCode resp = http_StatusOK)) eqn:Hcode; simpl;
    [| intros [= <-]; discriminate].
  destruct (ocr.json_Unmarshal body) as [response | err] eqn:Hjson; simpl;
    [| intros [= <-]; discriminate].
  destruct (bool_decide (ocr.api_ErrorCode response = 0)) eqn:Herr; simpl;
    [| intros [= <-]; discriminate].
  intros [= <-] _. apply bool_decide_eq_true in Hcode, Herr.
  exists client0, sent, resp, body, response.
  split; [reflexivity |]. split; [exact Hnet |]. split; [exact Hcode |].
  split; [exact Hbody |]. split; [exact Hjson |]. split; [exact Herr |].
  split; [reflexivity |]. simpl. rewrite build_pages_imap. apply length_imap.
Qed.

(** X12. A non-zero error code in the envelope of a 200 answer gives a
    failed result that carries the code and the message of the envelope
    and its log id.  It is the only failure with a log id: every other
    failed result has the empty one. *)
Theorem OCRFile_api_error (c : ocr.Client) (filePath : string) (opts : ocr.OCROptions)
    (w : World) :
  (forall client req resp body response,
     last (snd (ocr.OCRFile c filePath opts w)) = Some (ocr.EvDo client req) ->
     w_net w client req = Ok resp ->
     resp_StatusCode resp = 200 ->
     resp_Body resp = Ok body ->
     ocr.json_Unmarshal body = Ok response ->
     ocr.api_ErrorCode response <> 0 ->
     fst (ocr.OCRFile c filePath opts w)
     = ocr.Returns (ocr.mkDocumentOCRResult false []
         ("API error (" +:+ strconv_Itoa (ocr.api_ErrorCode response) +:+ "): "
          +:+ ocr.api_ErrorMsg response)
         (ocr.api_LogID response)))
  /\ (forall r,
        fst (ocr.OCRFile c filePath opts w) = ocr.Returns r ->
        ocr.Success r = false ->
        ocr.LogID r = ""
        \/ exists client req resp body response,
             snd (ocr.OCRFile c filePath opts w)
             = [ocr.EvStat filePath; ocr.EvReadFile filePath; ocr.EvDo client req]
             /\ w_net w client req = Ok resp
             /\ resp_StatusCode resp = 200
             /\ resp_Body resp = Ok body
             /\ ocr.json_Unmarshal body = Ok response
             /\ ocr.api_ErrorCode response <> 0
             /\ ocr.LogID r = ocr.api_LogID response).
Proof.
  split.
  - intros client req resp body response Hsent Hnet Hcode Hbody Hjson Herr.
    rewrite (OCRFile_sent c filePath opts w client req Hsent).
    rewrite Hnet, Hbody, Hcode. simpl. rewrite Hjson.
    rewrite bool_decide_eq_false_2 by exact Herr. reflexivity.
  - intros r. run_OCRFile.
    destruct (os_IsNotExist (error_of (os_Stat w filePath))); simpl;
      [intros [= <-] _; left; reflexivity |].
    destruct (ocr.config c) as [cfg |]; simpl; [| discriminate].
    destruct (config.IsConfigured cfg); simpl; [| intros [= <-] _; left; reflexivity].
    destruct (os_ReadFile w filePath) as [data | err]; simpl;
      [| intros [= <-] _; left; reflexivity].
    destruct (ocr.json_Marshal _) as [payloadBytes | err]; simpl;
      [| intros [= <-] _; left; reflexivity].
    destruct (ocr.http_NewRequest _ _ _) as [req | err]; simpl;
      [| intros [= <-] _; left; reflexivity].
    match goal with
    | |- context [w_net w ?cl ?rq] => set (client0 := cl); set (sent := rq)
    end.
    destruct (w_net w client0 sent) as [resp | err] eqn:Hnet; simpl;
      [| intros [= <-] _; left; reflexivity].
    destruct (resp_Body resp) as [body | err] eqn:Hbody; simpl;
      [| intros [= <-] _; left; reflexivity].
    destruct (bool_decide (resp_StatusCode resp = http_StatusOK)) eqn:Hcode; simpl;
      [| intros [= <-] _; left; reflexivity].
    destruct (ocr.json_Unmarshal body) as [response | err] eqn:Hjson; simpl;
      [| intros [= <-] _; left; reflexivity].
    destruct (bool_decide (ocr.api_ErrorCode response = 0)) eqn:Herr; simpl;
      [intros [= <-]; discriminate |].
    intros [= <-] _. apply bool_decide_eq_true in Hcode.
    apply bool_decide_eq_false in Herr.
    right. exists client0, sent, resp, body, response.
    split; [reflexivity |]. split; [exact Hnet |]. split; [exact Hcode |].
    split; [exact Hbody |]. split; [exact Hjson |]. split; [exact Herr | reflexivity].
Qed.

(** X13. After the request was sent, a transport error, a body that
    cannot be read and a body that is not the expected JSON each give a
    failed result with their own message and the text of the error; the
    last only for an answer with status 200. *)
Theorem OCRFile_response_failures (c : ocr.Client) (filePath : string)
    (opts : ocr.OCROptions) (w : World) (client : http_Client) (req : http_Request) :
  last (snd (ocr.OCRFile c filePath opts w)) = Some (ocr.EvDo client req) ->
  (forall err, w_net w client req = Err err ->
     fst (ocr.OCRFile c filePath opts w)
     = ocr.Returns (ocr.mkDocumentOCRResult false []
                      ("Request failed: " +:+ err_text err) ""))
  /\ (forall resp err, w_net w client req = Ok resp -> resp_Body resp = Err err ->
        fst (ocr.OCRFile c filePath opts w)
        = ocr.Returns (ocr.mkDocumentOCRResult false []
                         ("Failed to read response: " +:+ err_text err) ""))
  /\ (forall resp body err,
        w_net w client req = Ok resp -> resp_Body resp = Ok body ->
        resp_StatusCode resp = 200 ->
        ocr.json_Unmarshal body = Err err ->
        fst (ocr.OCRFile c filePath opts w)
        = ocr.Returns (ocr.mkDocumentOCRResult false []
                         ("Invalid JSON response: " +:+ err_text err) "")).
Proof.
  intros Hsent. rewrite (OCRFile_sent c filePath opts w client req Hsent).
  split; [| split].
  - intros err Hnet. rewrite Hnet. reflexivity.
  - intros resp err Hnet Hbody. rewrite Hnet, Hbody. reflexivity.
  - intros resp body err Hnet Hbody Hcode Hjson.
    rewrite Hnet, Hbody, Hcode. simpl. rewrite Hjson. reflexivity.
Qed.

End Requests.

Section NilConfig.
Context {L : ocr.Lib} {Y : config.Yaml}.

(** X14. [NewClient(nil)] drops the error of [Load]: when the
    configuration cannot be loaded the client has no configuration, and
    [OCRFile] on a file that is not reported missing then panics on the
    nil pointer, after the stat and before any read or request. *)
Theorem NewClient_nil_panics (w : World) (filePath : string) (opts : ocr.OCROptions)
    (err : error) :
  config.Load "" w = Err err ->
  os_IsNotExist (error_of (os_Stat w filePath)) = false ->
  ocr.config (ocr.NewClient None w) = None
  /\ ocr.OCRFile (ocr.NewClient None w) filePath opts w
     = (ocr.Panics, [ocr.EvStat filePath]).
Proof.
  intros Hload Hstat.
  assert (Hnil : ocr.config (ocr.NewClient None w) = None).
  { unfold ocr.NewClient. rewrite Hload. reflexivity. }
  split; [exact Hnil |].
  unfold ocr.OCRFile, ocr.bind, ocr.ret, ocr.call_Stat, ocr.IsConfigured.
  rewrite Hstat, Hnil. reflexivity.
Qed.

End NilConfig.

(** ** The connection test *)

Section Health.
Context {L : ocr.Lib} {H : ocr.HealthLib}.

(** X15. Without an access token [TestConnection] answers at once, with
    its own message and without any call, whatever the server URL is. *)
Theorem TestConnection_no_token (c : ocr.Client) (cfg : config.Config) (w : World) :
  ocr.config c = Some cfg ->
  config.AccessToken (config.PaddleOCR cfg) = "" ->
  ocr.TestConnection c w = (ocr.Returns (false, "Access token not configured"), []).
Proof.
  intros Hcfg Htoken. unfold ocr.TestConnection. rewrite Hcfg.
  destruct (decide (config.AccessToken (config.PaddleOCR cfg) = "")); [| contradiction].
  reflexivity.
Qed.

(** Everything about a run of [TestConnection] that sent a request. *)
Lemma TestConnection_sent (c : ocr.Client) (w : World)
    (client : http_Client) (req : http_Request) :
  In (ocr.EvDo client req) (snd (ocr.TestConnection c w)) ->
  exists cfg url,
    ocr.config c = Some cfg
    /\ config.AccessToken (config.PaddleOCR cfg) <> ""
    /\ ocr.ServerURL c = ocr.Returns url
    /\ client = mkClient (10 * time_Second)
    /\ req = Header_Set "Authorization"
               ("token " +:+ config.AccessToken (config.PaddleOCR cfg))
               (mkRequest "GET" (url +:+ ocr.HealthEndpoint) ∅ "")
    /\ snd (ocr.TestConnection c w) = [ocr.EvDo client req]
    /\ fst (ocr.TestConnection c w)
       = match w_net w client req with
         | Err err => ocr.Returns (false, "Connection failed: " +:+ err_text err)
         | Ok resp =>
             match resp_Body resp with
             | Err err => ocr.Returns (false, "Failed to read response: " +:+ err_text err)
             | Ok body =>
                 if negb (bool_decide (resp_StatusCode resp = http_StatusOK)) then
                   ocr.Returns (false, "HTTP " +:+ strconv_Itoa (resp_StatusCode resp)
                                       +:+ ": " +:+ resp_Status resp)
                 else
                   match ocr.json_Unmarshal_health body with
                   | Err err =>
                       ocr.Returns (false, "Invalid JSON response: " +:+ err_text err)
                   | Ok response =>
                       if bool_decide (ocr.hr_ErrorCode response = 0) then
                         ocr.Returns (true, "Connection successful")
                       else
                         ocr.Returns (false, "Server error: " +:+ ocr.hr_ErrorMsg response)
                   end
             end
         end.
Proof.
  unfold ocr.TestConnection, ocr.bind, ocr.ret, ocr.call_Do, ocr.ServerURL,
    ocr.http_NewRequest.
  destruct (ocr.config c) as [cfg |]; simpl; [| intros []].
  destruct (decide (config.AccessToken (config.PaddleOCR cfg) = "")) as [? | Htoken];
    simpl; [intros [] |].
  destruct (ocr.url_Parse_error _) as [err |]; simpl; [intros [] |].
  match goal with
  | |- context [w_net w ?cl ?rq] => set (client0 := cl); set (sent := rq)
  end.
  destruct (w_net w client0 sent) as [resp | err] eqn:Hnet; simpl.
  - destruct (resp_Body resp) as [body | err] eqn:Hbody; simpl.
    + destruct (bool_decide (resp_StatusCode resp = http_StatusOK)) eqn:Hcode; simpl.
      * destruct (ocr.json_Unmarshal_health body) as [response | err] eqn:Hjson; simpl.
        -- destruct (bool_decide (ocr.hr_ErrorCode response = 0)) eqn:Herr; simpl;
             intros [Hin | []]; injection Hin as <- <-;
             exists cfg, (strings_TrimRight (config.ServerURL (config.PaddleOCR cfg))
                            Separator);
             rewrite Hnet, Hbody, Hcode; simpl; rewrite Hjson, Herr;
             (split; [reflexivity |]); (split; [exact Htoken |]); repeat split; reflexivity.
        -- intros [Hin | []]; injection Hin as <- <-.
           exists cfg, (strings_TrimRight (config.ServerURL (config.PaddleOCR cfg))
                          Separator).
           rewrite Hnet, Hbody, Hcode; simpl; rewrite Hjson.
           split; [reflexivity |]. split; [exact Htoken |]. repeat split; reflexivity.
      * intros [Hin | []]; injection Hin as <- <-.
        exists cfg, (strings_TrimRight (config.ServerURL (config.PaddleOCR cfg)) Separator).
        rewrite Hnet, Hbody, Hcode.
        split; [reflexivity |]. split; [exact Htoken |]. repeat split; reflexivity.
    + intros [Hin | []]; injection Hin as <- <-.
      exists cfg, (strings_TrimRight (config.ServerURL (config.PaddleOCR cfg)) Separator).
      rewrite Hnet, Hbody.
      split; [reflexivity |]. split; [exact Htoken |]. repeat split; reflexivity.
  - intros [Hin | []]; injection Hin as <- <-.
    exists cfg, (strings_TrimRight (config.ServerURL (config.PaddleOCR cfg)) Separator).
    rewrite Hnet.
    split; [reflexivity |]. split; [exact Htoken |]. repeat split; reflexivity.
Qed.

(** X16. [TestConnection] makes at most one call, and what it sends is a
    GET of the trimmed server URL followed by [/health], with the header
    [Authorization] alone and no body, through a client with a timeout
    of ten seconds, whatever the timeout of the OCR client is. *)
Theorem TestConnection_request (c : ocr.Client) (w : World)
    (client : http_Client) (req : http_Request) :
  In (ocr.EvDo client req) (snd (ocr.TestConnection c w)) ->
  exists cfg url k,
    ocr.config c = Some cfg
    /\ config.ServerURL (config.PaddleOCR cfg) = url +:+ repeated "/" k
    /\ last_byte url <> Some "/"%char
    /\ http_Timeout client = 10 * 1000000000
    /\ req = mkRequest "GET" (url +:+ "/health")
               (health_headers (config.AccessToken (config.PaddleOCR cfg))) ""
    /\ snd (ocr.TestConnection c w) = [ocr.EvDo client req].
Proof.
  intros Hin.
  destruct (TestConnection_sent c w client req Hin)
    as (cfg & url & Hcfg & _ & Hurl & Hclient & Hreq & Htrace & _).
  destruct (ServerURL_parts c cfg Hcfg) as (url' & k & Hurl' & Hparts & Hlast).
  assert (url' = url) as -> by congruence.
  exists cfg, url, k.
  split; [exact Hcfg |]. split; [exact Hparts |]. split; [exact Hlast |].
  split; [rewrite Hclient; reflexivity |]. split; [| exact Htrace].
  rewrite Hreq. unfold Header_Set, health_headers. simpl.
  rewrite insert_empty. reflexivity.
Qed.

(** X17. [TestConnection] answers true for one reason only: its request
    was sent and answered with status 200 and a body with error code 0;
    the message is then [Connection successful].  Every other answer is
    false. *)
Theorem TestConnection_success_only_if (c : ocr.Client) (w : World) (message : string) :
  fst (ocr.TestConnection c w) = ocr.Returns (true, message) ->
  message = "Connection successful"
  /\ exists req resp body response,
       snd (ocr.TestConnection c w) = [ocr.EvDo (mkClient (10 * time_Second)) req]
       /\ w_net w (mkClient (10 * time_Second)) req = Ok resp
       /\ resp_StatusCode resp = 200
       /\ resp_Body resp = Ok body
       /\ ocr.json_Unmarshal_health body = Ok response
       /\ ocr.hr_ErrorCode response = 0.
Proof.
  intros Htrue.
  assert (Hcalls : exists client req, In (ocr.EvDo client req) (snd (ocr.TestConnection c w))).
  { revert Htrue.
    unfold ocr.TestConnection, ocr.bind, ocr.ret, ocr.call_Do, ocr.ServerURL,
      ocr.http_NewRequest.
    destruct (ocr.config c) as [cfg |]; simpl; [| discriminate].
    destruct (decide (config.AccessToken (config.PaddleOCR cfg) = "")); simpl;
      [discriminate |].
    destruct (ocr.url_Parse_error _) as [err |]; simpl; [discriminate |].
    intros _. eexists _, _.
    match goal with
    | |- In _ (snd (let (b, t2) := ?x in _)) => destruct x
    end. simpl. left. reflexivity. }
  destruct Hcalls as (client & req & Hin).
  destruct (TestConnection_sent c w client req Hin)
    as (cfg & url & _ & _ & _ & -> & _ & Htrace & Hresult).
  rewrite Hresult in Htrue.
  destruct (w_net w _ req) as [resp | err] eqn:Hnet; [| discriminate].
  destruct (resp_Body resp) as [body | err] eqn:Hbody; [| discriminate].
  destruct (bool_decide (resp_StatusCode resp = http_StatusOK)) eqn:Hcode;
    simpl in Htrue; [| discriminate].
  destruct (ocr.json_Unmarshal_health body) as [response | err] eqn:Hjson; [| discriminate].
  destruct (bool_decide (ocr.hr_ErrorCode response = 0)) eqn:Herr; [| discriminate].
  injection Htrue as <-. apply bool_decide_eq_true in Hcode, Herr.
  split; [reflexivity |]. exists req, resp, body, response.
  repeat split; assumption.
Qed.

End Health.

(** ** The command line *)

(** Unfolds the commands of a run of the command line. *)
Ltac run_cmd :=
  unfold main.andThen, main.when, main.call, main.ask, main.returned, main.eprint,
    main.print, main.exit, main.done, main.panic, main.perform in *.

Section CommandLine.
Context {Y : config.Yaml} {L : ocr.Lib} {H : ocr.HealthLib} {M : main.Lib}.

Lemma markdownOutput_keeps (f : main.Flags) (result : ocr.DocumentOCRResult)
    (p p' : main.Proc) (r : main.Ran string) :
  main.markdownOutput f result p = (r, p') ->
  main.p_world p' = main.p_world p /\ main.p_stdout p' = main.p_stdout p
  /\ main.p_calls p' = main.p_calls p
  /\ (forall output, r = main.Done output -> p' = p).
Proof.
  unfold main.markdownOutput. run_cmd.
  repeat case_match.
  all: intros [= <- <-].
  all: split; [reflexivity |]; split; [reflexivity |]; split; [reflexivity |].
  all: intros output Hdone; first [reflexivity | discriminate].
Qed.

Lemma failed_before_the_write (f : main.Flags) (p p' : main.Proc) :
  main.p_stdout p' = main.p_stdout p ->
  main.p_world p' = main.p_world p ->
  main.p_stdout p' = main.p_stdout p
  /\ (main.outputFile f = "" -> main.p_world p' = main.p_world p)
  /\ (main.p_world p' = main.p_world p
      \/ exists output err,
           os_WriteFile (main.outputFile f) output 420 (main.p_world p)
           = (Err err, main.p_world p'))
  /\ (forall key,
        fs_key (main.p_world p) (main.outputFile f) <> Some key ->
        w_fs (main.p_world p') !! key = w_fs (main.p_world p) !! key).
Proof.
  intros Hout Hworld. split; [exact Hout |]. split; [intros _; exact Hworld |].
  split; [left; exact Hworld |]. intros key _. rewrite Hworld. reflexivity.
Qed.

(** X18. When [runOCR] ends with a failure, by an exit or by a panic,
    nothing has been written to the standard output: the text of a
    document is written there only by a run that succeeds.  The file
    system is as it was, unless the failure is that of the write of the
    output file: that write may leave the output file made or cut short,
    and it leaves every other file and directory as it was. *)
Theorem runOCR_failure_writes_nothing (f : main.Flags) (filePath : string)
    (p p' : main.Proc) (r : main.Ran unit) :
  main.runOCR f filePath p = (r, p') ->
  r <> main.Done tt ->
  main.p_stdout p' = main.p_stdout p
  /\ (main.outputFile f = "" -> main.p_world p' = main.p_world p)
  /\ (main.p_world p' = main.p_world p
      \/ exists output err,
           os_WriteFile (main.outputFile f) output 420 (main.p_world p)
           = (Err err, main.p_world p'))
  /\ (forall key,
        fs_key (main.p_world p) (main.outputFile f) <> Some key ->
        w_fs (main.p_world p') !! key = w_fs (main.p_world p) !! key).
Proof.
  unfold main.runOCR. run_cmd. simpl.
  destruct (os_IsNotExist (error_of (os_Stat (main.p_world p) filePath))); simpl;
    [intros [= <- <-] _; apply failed_before_the_write; reflexivity |].
  destruct (config.Load (main.configFile f) (main.p_world p)) as [cfg | err]; simpl;
    [| intros [= <- <-] _; apply failed_before_the_write; reflexivity].
  destruct (config.IsConfigured cfg); simpl;
    [| intros [= <- <-] _; apply failed_before_the_write; reflexivity].
  destruct (main.quiet f); simpl.
  all: destruct (ocr.OCRFile _ filePath _ (main.p_world p)) as [[result |] calls]; simpl;
         [| intros [= <- <-] _; apply failed_before_the_write; reflexivity].
  all: destruct (ocr.Success result); simpl;
         [| intros [= <- <-] _; apply failed_before_the_write; reflexivity].
  all: destruct (main.jsonOutput f); simpl.
  all: try (destruct (main.json_MarshalIndent _ _) as [jsonBytes | err]; simpl;
            [| intros [= <- <-] _; apply failed_before_the_write; reflexivity]).
  all: try (destruct (main.markdownOutput f result _) as [[output | code |] p1] eqn:Hmd;
            apply markdownOutput_keeps in Hmd as (Hw & Hout & _ & _); simpl in *;
            [| intros [= <- <-] _; apply failed_before_the_write; assumption
             | intros [= <- <-] _; apply failed_before_the_write; assumption]).
  all: destruct (bool_decide (main.outputFile f = "")) eqn:Hfile; simpl;
         [intros [= <- <-] Hfail; contradiction |].
  all: apply bool_decide_eq_false in Hfile.
  all: try rewrite Hw.
  all: destruct (os_WriteFile _ _ _ _) as [[[] | err] w1] eqn:Hwrite; simpl;
         [destruct (main.quiet f); simpl; intros [= <- <-] Hfail; contradiction |].
  all: intros [= <- <-] _; simpl.
  all: split; [first [reflexivity | assumption] |].
  all: split; [intros Hnone; contradiction |].
  all: split; [right; eexists _, err; exact Hwrite |].
  all: intros key Hkey.
  all: exact (proj2 (proj2 (proj2 (proj2 (os_WriteFile_keeps _ _ _ _ _ _ Hwrite)))) key Hkey).
Qed.

(** X19. A run of [runOCR] that succeeds has loaded a configuration that
    is configured and has got a successful result from [OCRFile]; its
    output went to one place only, the named file or else the standard
    output followed by a line feed, and without [--json] and [--page]
    and [--no-separator] the output is the full markdown of the result. *)
Theorem runOCR_success (f : main.Flags) (filePath : string) (p p' : main.Proc) :
  main.runOCR f filePath p = (main.Done tt, p') ->
  exists cfg result output,
    config.Load (main.configFile f) (main.p_world p) = Ok cfg
    /\ config.IsConfigured cfg = true
    /\ fst (ocr.OCRFile (ocr.NewClient (Some cfg) (main.p_world p)) filePath
              (ocr.mkOCROptions (main.orientation f) (main.unwarp f) (main.chart f)
                 (main.wrap_int64 (main.timeout f * time_Second)))
              (main.p_world p)) = ocr.Returns result
    /\ ocr.Success result = true
    /\ (main.jsonOutput f = false -> main.pageNum f < 0 -> main.noSeparator f = false ->
        output = ocr.FullMarkdown result)
    /\ (main.outputFile f = "" ->
        main.p_stdout p' = main.p_stdout p +:+ output +:+ LF
        /\ main.p_world p' = main.p_world p)
    /\ (main.outputFile f <> "" ->
        main.p_stdout p' = main.p_stdout p
        /\ exists mode,
             fs_node (main.p_world p') (main.outputFile f)
             = Some (NFile output mode)).
Proof.
  intros Hrun. unfold main.runOCR in Hrun. run_cmd. simpl in Hrun.
  destruct (os_IsNotExist (error_of (os_Stat (main.p_world p) filePath)));
    simpl in Hrun; [discriminate |].
  destruct (config.Load (main.configFile f) (main.p_world p)) as [cfg | err];
    simpl in Hrun; [| discriminate].
  destruct (config.IsConfigured cfg) eqn:Hconf; simpl in Hrun; [| discriminate].
  exists cfg.
  set (opts := ocr.mkOCROptions (main.orientation f) (main.unwarp f) (main.chart f)
                 (main.wrap_int64 (main.timeout f * time_Second))) in *.
  set (client := ocr.NewClient (Some cfg) (main.p_world p)) in *.
  assert (Hocr : exists result calls output,
             ocr.OCRFile client filePath opts (main.p_world p) = (ocr.Returns result, calls)
             /\ ocr.Success result = true
             /\ (main.jsonOutput f = false ->
                 exists q, main.markdownOutput f result q = (main.Done output, q))
             /\ (main.outputFile f = "" ->
                 main.p_stdout p' = main.p_stdout p +:+ output +:+ LF
                 /\ main.p_world p' = main.p_world p)
             /\ (main.outputFile f <> "" ->
                 main.p_stdout p' = main.p_stdout p
                 /\ exists mode,
                      fs_node (main.p_world p') (main.outputFile f)
                      = Some (NFile output mode))).
  { destruct (main.quiet f) eqn:Hquiet; simpl in Hrun.
    all: destruct (ocr.OCRFile client filePath opts (main.p_world p))
           as [[result |] calls]; simpl in Hrun; [| discriminate].
    all: destruct (ocr.Success result) eqn:Hsuccess; simpl in Hrun; [| discriminate].
    all: exists result, calls.
    all: destruct (main.jsonOutput f); simpl in Hrun.
    all: try (destruct (main.json_MarshalIndent _ _) as [output | err]; simpl in Hrun;
              [| discriminate]).
    all: try match type of Hrun with
             | context [main.markdownOutput ?f0 ?r0 ?q0] =>
                 destruct (main.markdownOutput f0 r0 q0) as [[output | code |] p1] eqn:Hmd;
                 [| discriminate | discriminate];
                 destruct (markdownOutput_keeps _ _ _ _ _ Hmd) as (_ & _ & _ & Hsame);
                 specialize (Hsame output eq_refl); subst p1
             end.
    all: exists output; split; [reflexivity |]; split; [exact Hsuccess |].
    all: split; [first [intros Hj; discriminate Hj | intros _; eexists; exact Hmd] |].
    all: destruct (bool_decide (main.outputFile f = "")) eqn:Hfile; simpl in Hrun.
    all: try apply bool_decide_eq_true in Hfile; try apply bool_decide_eq_false in Hfile.
    all: try (destruct (os_WriteFile _ _ _ _) as [[[] | err] w1] eqn:Hwrite;
              simpl in Hrun; [| discriminate];
              apply os_WriteFile_done in Hwrite as (mode & Hwrite & _);
              try rewrite Hquiet in Hrun; simpl in Hrun).
    all: injection Hrun as <-; simpl.
    all: split; [intros Hnone | intros Hsome]; try contradiction.
    all: first [split; reflexivity | split; [reflexivity | eauto]]. }
  destruct Hocr as (result & calls & output & Hocr & Hsuccess & Hout & Hstd & Hfile).
  exists result, output.
  split; [reflexivity |]. split; [exact Hconf |]. split; [rewrite Hocr; reflexivity |].
  split; [exact Hsuccess |]. split; [| split; assumption].
  intros Hjson Hpage Hsep. destruct (Hout Hjson) as [q Hmd].
  unfold main.markdownOutput in Hmd.
  destruct (0 <=? main.pageNum f) eqn:Hge; [apply Z.leb_le in Hge; lia |].
  rewrite Hsep in Hmd. unfold main.done in Hmd. congruence.
Qed.

(** X20. With [--page N], N not negative, the markdown output is the text
    of the page at position N and nothing else; when the document has no
    such page the run exits with status 1 and the message that names the
    page and the number of pages.  The index is checked, so the run never
    panics, and [--no-separator] has no effect. *)
Theorem markdownOutput_page (f : main.Flags) (result : ocr.DocumentOCRResult)
    (p : main.Proc) :
  0 <= main.pageNum f ->
  (forall page,
     ocr.Pages result !! Z.to_nat (main.pageNum f) = Some page ->
     main.markdownOutput f result p = (main.Done (ocr.Markdown page), p))
  /\ (ocr.Pages result !! Z.to_nat (main.pageNum f) = None ->
      main.markdownOutput f result p
      = (main.Exit 1,
         main.mkProc (main.p_world p) (main.p_stdout p)
           (main.p_stderr p +:+ "Error: Page " +:+ strconv_Itoa (main.pageNum f)
            +:+ " not found (document has "
            +:+ strconv_Itoa (Z.of_nat (length (ocr.Pages result))) +:+ " pages)"
            +:+ String "010" "")
           (main.p_calls p))).
Proof.
  intros Hpage. unfold main.markdownOutput. run_cmd.
  rewrite (proj2 (Z.leb_le 0 (main.pageNum f)) Hpage).
  split.
  - intros page Hlookup. pose proof (lookup_lt_Some _ _ _ Hlookup) as Hlt.
    rewrite (proj2 (Z.ltb_lt _ _)) by lia. rewrite Hlookup. reflexivity.
  - intros Hnone. apply lookup_ge_None in Hnone.
    rewrite (proj2 (Z.ltb_ge _ _)) by lia. reflexivity.
Qed.

(** What a run of [runOCR] adds to the calls: its own stat, and then the
    calls of [OCRFile], if it gets that far. *)
Lemma runOCR_calls (f : main.Flags) (filePath : string) (p p' : main.Proc)
    (r : main.Ran unit) :
  main.runOCR f filePath p = (r, p') ->
  main.p_calls p' = (main.p_calls p ++ [ocr.EvStat filePath])%list
  \/ exists cfg,
       config.Load (main.configFile f) (main.p_world p) = Ok cfg
       /\ config.IsConfigured cfg = true
       /\ main.p_calls p'
          = ((main.p_calls p ++ [ocr.EvStat filePath])
          ++ snd (ocr.OCRFile (ocr.NewClient (Some cfg) (main.p_world p)) filePath
                       (ocr.mkOCROptions (main.orientation f) (main.unwarp f) (main.chart f)
                          (main.wrap_int64 (main.timeout f * time_Second)))
                       (main.p_world p)))%list.
Proof.
  intros Hrun. unfold main.runOCR in Hrun. run_cmd. simpl in Hrun.
  destruct (os_IsNotExist (error_of (os_Stat (main.p_world p) filePath)));
    simpl in Hrun; [injection Hrun as _ <-; left; reflexivity |].
  destruct (config.Load (main.configFile f) (main.p_world p)) as [cfg | err];
    simpl in Hrun; [| injection Hrun as _ <-; left; reflexivity].
  destruct (config.IsConfigured cfg) eqn:Hconf; simpl in Hrun;
    [| injection Hrun as _ <-; left; reflexivity].
  right. exists cfg. split; [reflexivity |]. split; [exact Hconf |].
  destruct (main.quiet f) eqn:Hquiet; simpl in Hrun.
  all: destruct (ocr.OCRFile _ filePath _ (main.p_world p)) as [[result |] calls];
         simpl in Hrun; [| injection Hrun as _ <-; reflexivity].
  all: destruct (ocr.Success result); simpl in Hrun;
         [| injection Hrun as _ <-; reflexivity].
  all: destruct (main.jsonOutput f); simpl in Hrun.
  all: try (destruct (main.json_MarshalIndent _ _) as [output | err]; simpl in Hrun;
            [| injection Hrun as _ <-; reflexivity]).
  all: try match type of Hrun with
           | context [main.markdownOutput ?f0 ?r0 ?q0] =>
               destruct (main.markdownOutput f0 r0 q0) as [[output | code |] p1] eqn:Hmd;
               destruct (markdownOutput_keeps _ _ _ _ _ Hmd) as (_ & _ & Hcalls & _);
               simpl in Hcalls;
               [| injection Hrun as _ <-; exact Hcalls
                | injection Hrun as _ <-; exact Hcalls]
           end.
  all: destruct (bool_decide (main.outputFile f = "")); simpl in Hrun.
  all: try (destruct (os_WriteFile _ _ _ _) as [[[] | err] w1]; simpl in Hrun;
            try rewrite Hquiet in Hrun; simpl in Hrun).
  all: injection Hrun as _ <-; simpl; first [reflexivity | exact Hcalls].
Qed.

(** X21. Whatever [runOCR] sends, it sends with the timeout of
    [--timeout] in seconds when that is from 1 to 9223372036, and with
    the default of 120 seconds when it is from -9223372036 to 0.  Beyond
    these the duration in nanoseconds does not fit in 64 bits and wraps
    around: in every case the timeout is the wrapped product when that is
    positive and the default otherwise, so that the negative timeout
    -9223372037 is sent as a positive duration. *)
Theorem runOCR_timeout (f : main.Flags) (filePath : string) (w : World)
    (r : main.Ran unit) (p' : main.Proc) (client : http_Client) (req : http_Request) :
  main.runOCR f filePath (main.start w) = (r, p') ->
  In (ocr.EvDo client req) (main.p_calls p') ->
  http_Timeout client
  = (if 0 <? main.wrap_int64 (main.timeout f * 1000000000)
     then main.wrap_int64 (main.timeout f * 1000000000)
     else 120 * 1000000000)
  /\ (0 < main.timeout f <= 9223372036 ->
      http_Timeout client = main.timeout f * 1000000000)
  /\ (-9223372036 <= main.timeout f <= 0 ->
      http_Timeout client = 120 * 1000000000)
  /\ (main.timeout f = -9223372037 ->
      http_Timeout client = 9223372036709551616).
Proof.
  intros Hrun Hin.
  assert (Hgen : http_Timeout client
                 = (if 0 <? main.wrap_int64 (main.timeout f * 1000000000)
                    then main.wrap_int64 (main.timeout f * 1000000000)
                    else 120 * 1000000000)).
  { destruct (runOCR_calls _ _ _ _ _ Hrun) as [Hcalls | (cfg & _ & _ & Hcalls)];
      rewrite Hcalls in Hin; simpl in Hin.
    - destruct Hin as [? | []]. discriminate.
    - destruct Hin as [? | Hin]; [discriminate |].
      destruct (OCRFile_request_sent _ _ _ _ _ _ Hin)
        as (_ & _ & _ & _ & _ & _ & _ & _ & _ & _ & Hclient & _).
      rewrite Hclient. simpl. unfold time_Second.
      destruct (0 <? main.wrap_int64 (main.timeout f * 1000000000)); reflexivity. }
  split; [exact Hgen |]. rewrite Hgen. unfold main.wrap_int64.
  split; [| split]; intros Hbound.
  - rewrite Z.mod_small by lia.
    replace (main.timeout f * 1000000000 + 2 ^ 63 - 2 ^ 63)
      with (main.timeout f * 1000000000) by lia.
    rewrite (proj2 (Z.ltb_lt _ _)) by lia. reflexivity.
  - rewrite Z.mod_small by lia.
    replace (main.timeout f * 1000000000 + 2 ^ 63 - 2 ^ 63)
      with (main.timeout f * 1000000000) by lia.
    rewrite (proj2 (Z.ltb_ge _ _)) by lia. reflexivity.
  - rewrite Hbound. vm_compute. reflexivity.
Qed.

Lemma substring_suffix (n : nat) :
  forall (s : string) (m : nat),
    String.length s = (n + m)%nat ->
    exists hidden,
      s = hidden +:+ String.substring n m s
      /\ String.length hidden = n
      /\ String.length (String.substring n m s) = m.
Proof.
  induction n as [|n IH]; intros s m Hlen.
  - exists "". split; [| split; [reflexivity |]].
    + rewrite string_app_nil_l. clear -Hlen. revert m Hlen.
      induction s as [|c s IHs]; intros [|m] Hlen; simpl in *; try lia; try reflexivity.
      f_equal. apply IHs. lia.
    + clear -Hlen. revert m Hlen.
      induction s as [|c s IHs]; intros [|m] Hlen; simpl in *; try lia; try reflexivity.
      f_equal. apply IHs. lia.
  - destruct s as [|c s]; simpl in Hlen; [lia |].
    destruct (IH s m ltac:(lia)) as (hidden & Hs & Hh & Hm).
    exists (String c hidden). simpl. rewrite string_app_cons.
    split; [congruence |]. split; [congruence | exact Hm].
Qed.

(** X22. Of an access token of more than eight bytes [--show] prints
    three stars and the last eight bytes, leaving out at least one byte
    before them; a token of eight bytes or fewer is shown as not set,
    even when it is set. *)
Theorem tokenDisplay_masks (accessToken : string) :
  ((String.length accessToken <= 8)%nat -> main.tokenDisplay accessToken = "(not set)")
  /\ ((8 < String.length accessToken)%nat ->
      exists hidden shown,
        accessToken = hidden +:+ shown
        /\ hidden <> ""
        /\ String.length shown = 8%nat
        /\ main.tokenDisplay accessToken = "***" +:+ shown).
Proof.
  unfold main.tokenDisplay, main.last_bytes. split; intros Hlen.
  - rewrite (proj2 (Nat.ltb_ge _ _)) by lia. reflexivity.
  - rewrite (proj2 (Nat.ltb_lt _ _)) by lia.
    destruct (substring_suffix (String.length accessToken - 8) accessToken 8 ltac:(lia))
      as (hidden & Hs & Hh & Hm).
    exists hidden, (String.substring (String.length accessToken - 8) 8 accessToken).
    split; [exact Hs |]. split; [| split; [exact Hm | reflexivity]].
    intros ->. simpl in Hh. lia.
Qed.

Lemma printLocations_keeps (locs : list config.Location) :
  forall p : main.Proc,
    fst (main.printLocations locs p) = main.Done tt
    /\ main.p_world (snd (main.printLocations locs p)) = main.p_world p
    /\ main.p_stderr (snd (main.printLocations locs p)) = main.p_stderr p
    /\ main.p_calls (snd (main.printLocations locs p)) = main.p_calls p.
Proof.
  induction locs as [|loc locs IH]; intros p; [repeat split |].
  cbn [main.printLocations]. run_cmd. simpl.
  match goal with
  | |- context [main.printLocations locs ?q] => destruct (IH q) as (H1 & H2 & H3 & H4)
  end.
  rewrite H1, H2, H3, H4. repeat split.
Qed.

(** X23. [configure --locations] and [configure --show] only look: the
    file system is left as it was and no call is made through the client;
    [--locations] always ends well, and nothing but a configuration that
    cannot be loaded makes [--show] fail. *)
Theorem runConfigure_looks_only (f : main.Flags) (p p' : main.Proc) (r : main.Ran unit) :
  main.runConfigure f p = (r, p') ->
  (main.locations f = true ->
   r = main.Done tt /\ main.p_world p' = main.p_world p
   /\ main.p_calls p' = main.p_calls p /\ main.p_stderr p' = main.p_stderr p)
  /\ (main.locations f = false -> main.showConfig f = true ->
      main.p_world p' = main.p_world p /\ main.p_calls p' = main.p_calls p
      /\ (r = main.Done tt
          \/ r = main.Exit 1
             /\ exists err,
                  config.Load (config.FindConfig (main.p_world p)) (main.p_world p)
                  = Err err)).
Proof.
  intros Hrun. unfold main.runConfigure in Hrun. split.
  - intros Hloc. rewrite Hloc in Hrun. run_cmd. simpl in Hrun.
    match type of Hrun with
    | context [main.printLocations ?l ?q] =>
        destruct (printLocations_keeps l q) as (H1 & H2 & H3 & H4);
        destruct (main.printLocations l q) as [r1 p1]
    end.
    simpl in *. subst r1. injection Hrun as <- <-. repeat split; assumption.
  - intros Hloc Hshow. rewrite Hloc in Hrun. run_cmd. simpl in Hrun.
    destruct (config.Load _ _) as [cfg | err]; simpl in Hrun.
    + rewrite Hshow in Hrun.
      destruct (bool_decide (config.FindConfig (main.p_world p) = "")); simpl in Hrun;
        injection Hrun as <- <-; simpl; repeat split; left; reflexivity.
    + injection Hrun as <- <-. simpl. repeat split. right. split; [reflexivity |].
      exists err. reflexivity.
Qed.

(** X24. [configure] without [--token] and without [--server-url], in the
    update mode, changes nothing: it ends with status 1, the file system
    and the standard output are as before and no call is made. *)
Theorem runConfigure_nothing_to_set (f : main.Flags) (p : main.Proc) :
  main.locations f = false -> main.showConfig f = false -> main.testConn f = false ->
  main.token f = "" -> main.serverURL f = "" ->
  fst (main.runConfigure f p) = main.Exit 1
  /\ main.p_world (snd (main.runConfigure f p)) = main.p_world p
  /\ main.p_stdout (snd (main.runConfigure f p)) = main.p_stdout p
  /\ main.p_calls (snd (main.runConfigure f p)) = main.p_calls p.
Proof.
  intros Hloc Hshow Htest Htoken Hurl. unfold main.runConfigure.
  rewrite Hloc. run_cmd. simpl.
  destruct (config.Load _ _) as [cfg | err]; simpl; [| repeat split].
  rewrite Hshow, Htest, Htoken, Hurl. simpl. repeat split.
Qed.

(** X25. A run of [configure] that updates the configuration and ends
    well has saved, at the path of the scope, the configuration it loaded
    with the given token and server URL put in and the rest kept, and
    says so; loading that path then gives this configuration, when the
    codec reads back what it wrote. *)
Theorem runConfigure_saves_update (f : main.Flags) (p p' : main.Proc) :
  main.locations f = false -> main.showConfig f = false -> main.testConn f = false ->
  main.runConfigure f p = (main.Done tt, p') ->
  exists cfg savePath,
    config.Load (config.FindConfig (main.p_world p)) (main.p_world p) = Ok cfg
    /\ config.GetSavePath (main.scope f) (main.p_world p) = Ok savePath
    /\ config.AccessToken (config.PaddleOCR (main.updated f cfg))
       = (if decide (main.token f = "") then config.AccessToken (config.PaddleOCR cfg)
          else main.token f)
    /\ config.ServerURL (config.PaddleOCR (main.updated f cfg))
       = (if decide (main.serverURL f = "") then config.ServerURL (config.PaddleOCR cfg)
          else main.serverURL f)
    /\ main.p_stdout p'
       = main.p_stdout p +:+ "Configuration saved to: " +:+ savePath +:+ String "010" ""
    /\ ((forall data, config.yaml_Marshal (main.updated f cfg) = Ok data ->
                      config.yaml_Unmarshal data config.New = Ok (main.updated f cfg)) ->
        config.Load savePath (main.p_world p') = Ok (main.updated f cfg)).
Proof.
  intros Hloc Hshow Htest Hrun. unfold main.runConfigure in Hrun.
  rewrite Hloc in Hrun. run_cmd. simpl in Hrun.
  destruct (config.Load _ _) as [cfg | err]; simpl in Hrun; [| discriminate].
  rewrite Hshow, Htest in Hrun.
  destruct (bool_decide (main.token f = "") && bool_decide (main.serverURL f = ""));
    simpl in Hrun; [discriminate |].
  destruct (config.GetSavePath (main.scope f) (main.p_world p)) as [savePath | err]
    eqn:Hscope; simpl in Hrun.
  2: { destruct (decide (main.scope f = "project")); discriminate. }
  pose proof (GetSavePath_not_empty _ _ _ Hscope) as Hpath.
  destruct (os_MkdirAll (filepath_Dir savePath) 493 (main.p_world p)) as [[[] | err] w1];
    simpl in Hrun; [| discriminate].
  destruct (config.Save (main.updated f cfg) savePath w1) as [[[] | err] w2] eqn:Hsave;
    simpl in Hrun; [| discriminate].
  injection Hrun as <-. simpl.
  exists cfg, savePath. split; [reflexivity |]. split; [reflexivity |].
  split; [| split; [| split; [reflexivity |]]].
  - unfold main.updated.
    destruct (decide (main.token f = "")) as [Ht | Ht];
      [rewrite (bool_decide_eq_true_2 _ Ht) | rewrite (bool_decide_eq_false_2 _ Ht)];
      destruct (bool_decide (main.serverURL f = "")); reflexivity.
  - unfold main.updated.
    destruct (decide (main.serverURL f = "")) as [Hu | Hu];
      [rewrite (bool_decide_eq_true_2 _ Hu) | rewrite (bool_decide_eq_false_2 _ Hu)];
      destruct (bool_decide (main.token f = "")); reflexivity.
  - intros Hcodec.
    destruct (Save_writes _ _ _ _ Hpath Hsave) as (data & mode & Hdata & Hfile & _).
    unfold config.Load.
    destruct (decide (savePath = "")); [contradiction |].
    destruct (decide (savePath = "")); [contradiction |].
    rewrite (os_ReadFile_file _ _ _ _ Hfile). apply Hcodec. exact Hdata.
Qed.

Lemma OCRFile_returns (c : ocr.Client) (cfg : config.Config) (filePath : string)
    (opts : ocr.OCROptions) (w : World) :
  ocr.config c = Some cfg ->
  exists result calls, ocr.OCRFile c filePath opts w = (ocr.Returns result, calls).
Proof.
  intros Hcfg. run_OCRFile. rewrite Hcfg. simpl.
  repeat (case_match; simpl in * ); simplify_eq; eauto.
Qed.

Lemma TestConnection_returns (c : ocr.Client) (cfg : config.Config) (w : World) :
  ocr.config c = Some cfg ->
  exists answer calls, ocr.TestConnection c w = (ocr.Returns answer, calls).
Proof.
  intros Hcfg. unfold ocr.TestConnection, ocr.bind, ocr.ret, ocr.call_Do, ocr.ServerURL.
  rewrite Hcfg. simpl.
  repeat (case_match; simpl in * ); simplify_eq; eauto.
Qed.

Lemma markdownOutput_ends (f : main.Flags) (result : ocr.DocumentOCRResult)
    (p : main.Proc) :
  (exists output, fst (main.markdownOutput f result p) = main.Done output)
  \/ fst (main.markdownOutput f result p) = main.Exit 1.
Proof.
  unfold main.markdownOutput. run_cmd.
  destruct (0 <=? main.pageNum f) eqn:Hlow; [| destruct (main.noSeparator f); eauto].
  destruct (main.pageNum f <? Z.of_nat (length (ocr.Pages result))) eqn:Hhigh;
    [| right; reflexivity].
  apply Z.leb_le in Hlow. apply Z.ltb_lt in Hhigh.
  destruct (lookup_lt_is_Some_2 (ocr.Pages result) (Z.to_nat (main.pageNum f))
              ltac:(lia)) as [page Hpage].
  rewrite Hpage. eauto.
Qed.

(** X26. What [runOCR] sends, it sends once, after the configuration was
    loaded from the file of [--config] (or the one [FindConfig] finds)
    and found configured, and with the access token of that
    configuration and no other in the header; the file is looked up
    twice, by the command and by the client. *)
Theorem runOCR_sends_loaded_token (f : main.Flags) (filePath : string) (w : World)
    (r : main.Ran unit) (p' : main.Proc) (client : http_Client) (req : http_Request) :
  main.runOCR f filePath (main.start w) = (r, p') ->
  In (ocr.EvDo client req) (main.p_calls p') ->
  exists cfg,
    config.Load (main.configFile f) w = Ok cfg
    /\ config.IsConfigured cfg = true
    /\ req_Header req = ocr_headers (config.AccessToken (config.PaddleOCR cfg))
    /\ main.p_calls p'
       = [ocr.EvStat filePath; ocr.EvStat filePath; ocr.EvReadFile filePath;
          ocr.EvDo client req].
Proof.
  intros Hrun Hin.
  destruct (runOCR_calls _ _ _ _ _ Hrun) as [Hcalls | (cfg & Hload & Hconf & Hcalls)];
    rewrite Hcalls in Hin |- *; simpl in Hin |- *.
  - destruct Hin as [Hin | []]. discriminate Hin.
  - simpl in Hload. destruct Hin as [Hin | Hin]; [discriminate Hin |].
    destruct (OCRFile_request_sent _ _ _ _ _ _ Hin)
      as (cfg' & data & payloadBytes & url & Hcfg & _ & _ & _ & _ & Hreq & _ & Hsent).
    simpl in Hcfg. injection Hcfg as <-.
    exists cfg. split; [exact Hload |]. split; [exact Hconf |].
    split; [| rewrite Hsent; reflexivity].
    rewrite Hreq. unfold ocr_headers. simpl.
    apply insert_insert_ne. discriminate.
Qed.

(** X27. Neither command panics, and neither exits with a status other
    than 1: the client they use is made from a configuration that was
    loaded, so its configuration is never nil, and the page index is
    checked before it is used. *)
Theorem commands_end_with_0_or_1 (f : main.Flags) (filePath : string) (p : main.Proc) :
  (fst (main.runOCR f filePath p) = main.Done tt
   \/ fst (main.runOCR f filePath p) = main.Exit 1)
  /\ (fst (main.runConfigure f p) = main.Done tt
      \/ fst (main.runConfigure f p) = main.Exit 1).
Proof.
  split.
  - destruct (main.runOCR f filePath p) as [r p'] eqn:Hrun. simpl.
    unfold main.runOCR in Hrun. run_cmd. simpl in Hrun.
    destruct (os_IsNotExist (error_of (os_Stat (main.p_world p) filePath)));
      simpl in Hrun; [injection Hrun as <- _; right; reflexivity |].
    destruct (config.Load (main.configFile f) (main.p_world p)) as [cfg | err];
      simpl in Hrun; [| injection Hrun as <- _; right; reflexivity].
    destruct (config.IsConfigured cfg); simpl in Hrun;
      [| injection Hrun as <- _; right; reflexivity].
    set (opts := ocr.mkOCROptions (main.orientation f) (main.unwarp f) (main.chart f)
                   (main.wrap_int64 (main.timeout f * time_Second))) in *.
    set (client := ocr.NewClient (Some cfg) (main.p_world p)) in *.
    destruct (OCRFile_returns client cfg filePath opts (main.p_world p) eq_refl)
      as (result & calls & Hocr).
    destruct (main.quiet f) eqn:Hquiet; simpl in Hrun.
    all: rewrite Hocr in Hrun; simpl in Hrun.
    all: destruct (ocr.Success result); simpl in Hrun;
           [| injection Hrun as <- _; right; reflexivity].
    all: destruct (main.jsonOutput f); simpl in Hrun.
    all: try (destruct (main.json_MarshalIndent _ _) as [output | err]; simpl in Hrun;
              [| injection Hrun as <- _; right; reflexivity]).
    all: try match type of Hrun with
             | context [main.markdownOutput ?f0 ?r0 ?q0] =>
                 destruct (markdownOutput_ends f0 r0 q0) as [[output Hmd] | Hmd];
                 destruct (main.markdownOutput f0 r0 q0) as [r1 p1];
                 simpl in Hmd; subst r1;
                 [| injection Hrun as <- _; right; reflexivity]
             end.
    all: destruct (bool_decide (main.outputFile f = "")); simpl in Hrun.
    all: try (destruct (os_WriteFile _ _ _ _) as [[[] | err] w1]; simpl in Hrun;
              try rewrite Hquiet in Hrun; simpl in Hrun).
    all: injection Hrun as <- _; first [left; reflexivity | right; reflexivity].
  - destruct (main.runConfigure f p) as [r p'] eqn:Hrun. simpl.
    unfold main.runConfigure in Hrun.
    destruct (main.locations f).
    { run_cmd. simpl in Hrun.
      match type of Hrun with
      | context [main.printLocations ?l ?q] =>
          destruct (printLocations_keeps l q) as (Hdone & _);
          destruct (main.printLocations l q) as [r1 p1]
      end.
      simpl in Hdone. subst r1. injection Hrun as <- _. left. reflexivity. }
    run_cmd. simpl in Hrun.
    destruct (config.Load _ _) as [cfg | err]; simpl in Hrun;
      [| injection Hrun as <- _; right; reflexivity].
    destruct (main.showConfig f).
    { destruct (bool_decide (config.FindConfig (main.p_world p) = "")); simpl in Hrun;
        injection Hrun as <- _; left; reflexivity. }
    destruct (main.testConn f).
    { destruct (config.IsConfigured cfg); simpl in Hrun;
        [| injection Hrun as <- _; right; reflexivity].
      destruct (TestConnection_returns (ocr.NewClient (Some cfg) (main.p_world p)) cfg
                  (main.p_world p) eq_refl) as ([success message] & calls & Htest).
      rewrite Htest in Hrun. simpl in Hrun.
      destruct success; simpl in Hrun; injection Hrun as <- _;
        [left | right]; reflexivity. }
    destruct (bool_decide (main.token f = "") && bool_decide (main.serverURL f = ""));
      simpl in Hrun.
    { clear -Hrun. injection Hrun as <- _. right. reflexivity. }
    destruct (config.GetSavePath (main.scope f) (main.p_world p)) as [savePath | err];
      simpl in Hrun.
    2: { destruct (decide (main.scope f = "project")); injection Hrun as <- _;
           right; reflexivity. }
    destruct (os_MkdirAll _ _ _) as [[[] | err] w1]; simpl in Hrun;
      [| injection Hrun as <- _; right; reflexivity].
    destruct (config.Save _ _ _) as [[[] | err] w2]; simpl in Hrun;
      injection Hrun as <- _; [left | right]; reflexivity.
Qed.

(** X28. With [--quiet] a run of [runOCR] that succeeds writes nothing to
    the standard error: the progress messages are all switched off, and
    the only other messages are those of the failures. *)
Theorem runOCR_quiet (f : main.Flags) (filePath : string) (p p' : main.Proc) :
  main.quiet f = true ->
  main.runOCR f filePath p = (main.Done tt, p') ->
  main.p_stderr p' = main.p_stderr p.
Proof.
  intros Hquiet Hrun. unfold main.runOCR in Hrun. run_cmd. simpl in Hrun.
  destruct (os_IsNotExist (error_of (os_Stat (main.p_world p) filePath)));
    simpl in Hrun; [discriminate |].
  destruct (config.Load (main.configFile f) (main.p_world p)) as [cfg | err];
    simpl in Hrun; [| discriminate].
  destruct (config.IsConfigured cfg); simpl in Hrun; [| discriminate].
  rewrite Hquiet in Hrun. simpl in Hrun.
  destruct (ocr.OCRFile _ filePath _ (main.p_world p)) as [[result |] calls];
    simpl in Hrun; [| discriminate].
  destruct (ocr.Success result); simpl in Hrun; [| discriminate].
  destruct (main.jsonOutput f); simpl in Hrun.
  all: try (destruct (main.json_MarshalIndent _ _) as [output | err]; simpl in Hrun;
            [| discriminate]).
  all: try match type of Hrun with
           | context [main.markdownOutput ?f0 ?r0 ?q0] =>
               destruct (main.markdownOutput f0 r0 q0) as [[output | code |] p1] eqn:Hmd;
               [| discriminate | discriminate];
               destruct (markdownOutput_keeps _ _ _ _ _ Hmd) as (_ & _ & _ & Hsame);
               specialize (Hsame output eq_refl); subst p1
           end.
  all: destruct (bool_decide (main.outputFile f = "")); simpl in Hrun.
  all: try (destruct (os_WriteFile _ _ _ _) as [[[] | err] w1]; simpl in Hrun;
            [| discriminate]).
  all: injection Hrun as <-; reflexivity.
Qed.

(** X29. [configure --test] only looks, too: the file system is left as
    it was.  It ends well exactly when the configuration that was found
    is configured and [TestConnection] on a client made from it answers
    true; without a configured configuration no call is made. *)
Theorem runConfigure_test (f : main.Flags) (p p' : main.Proc) (r : main.Ran unit) :
  main.locations f = false -> main.showConfig f = false -> main.testConn f = true ->
  main.runConfigure f p = (r, p') ->
  main.p_world p' = main.p_world p
  /\ (r = main.Done tt <->
      exists cfg message,
        config.Load (config.FindConfig (main.p_world p)) (main.p_world p) = Ok cfg
        /\ config.IsConfigured cfg = true
        /\ fst (ocr.TestConnection (ocr.NewClient (Some cfg) (main.p_world p))
                  (main.p_world p)) = ocr.Returns (true, message))
  /\ ((forall cfg,
         config.Load (config.FindConfig (main.p_world p)) (main.p_world p) = Ok cfg ->
         config.IsConfigured cfg = false) ->
      main.p_calls p' = main.p_calls p).
Proof.
  intros Hloc Hshow Htest Hrun. unfold main.runConfigure in Hrun.
  rewrite Hloc in Hrun. run_cmd. simpl in Hrun.
  destruct (config.Load _ _) as [cfg | err] eqn:Hload; simpl in Hrun.
  2: { injection Hrun as <- <-. simpl. split; [reflexivity |].
       split; [| reflexivity].
       split; [discriminate | intros (cfg & message & Hcfg & _); discriminate Hcfg]. }
  rewrite Hshow, Htest in Hrun.
  destruct (config.IsConfigured cfg) eqn:Hconf; simpl in Hrun.
  2: { injection Hrun as <- <-. simpl. split; [reflexivity |].
       split; [| reflexivity].
       split; [discriminate |].
       intros (cfg' & message & Hcfg & Hconf' & _). injection Hcfg as <-. congruence. }
  destruct (ocr.TestConnection _ _) as [[[success message] |] calls] eqn:Hconn;
    simpl in Hrun.
  2: { injection Hrun as <- <-. simpl. split; [reflexivity |].
       split; [| intros Hnone; specialize (Hnone cfg eq_refl); congruence].
       split; [discriminate |].
       intros (cfg' & message & Hcfg & _ & Hanswer). injection Hcfg as <-.
       rewrite Hconn in Hanswer. discriminate Hanswer. }
  destruct success; simpl in Hrun; injection Hrun as <- <-; simpl.
  - split; [reflexivity |].
    split; [| intros Hnone; specialize (Hnone cfg eq_refl); congruence].
    split; [| reflexivity]. intros _. exists cfg, message.
    split; [reflexivity |]. split; [exact Hconf |]. rewrite Hconn. reflexivity.
  - split; [reflexivity |].
    split; [| intros Hnone; specialize (Hnone cfg eq_refl); congruence].
    split; [discriminate |].
    intros (cfg' & message' & Hcfg & _ & Hanswer). injection Hcfg as <-.
    rewrite Hconn in Hanswer. discriminate Hanswer.
Qed.

End CommandLine.

(** ** The properties above on the sample home *)

Lemma ServerURL_trimmed_witness :
  exists url k,
    ocr.ServerURL sample.client = ocr.Returns url
    /\ "https://ocr.example.com/" = url +:+ repeated "/" k
    /\ last_byte url <> Some "/"%char.
Proof.
  exact (ServerURL_trimmed sample.client sample.settings eq_refl).
Defined.

Lemma OCRFile_request_witness :
  let client := mkClient (120 * time_Second) in
  In (ocr.EvDo client sample.scan_request)
    (snd (@ocr.OCRFile sample.lib sample.client "/home/u/proj/sub/scan.PDF"
            ocr.DefaultOCROptions (sample.world sample.serves_hi)))
  /\ req_URL sample.scan_request = "https://ocr.example.com" +:+ "/layout-parsing"
  /\ req_Header sample.scan_request = ocr_headers "secret-token"
  /\ http_Timeout client = 120 * 1000000000.
Proof.
  intros client.
  assert (Hsent : In (ocr.EvDo client sample.scan_request)
                    (snd (@ocr.OCRFile sample.lib sample.client "/home/u/proj/sub/scan.PDF"
                            ocr.DefaultOCROptions (sample.world sample.serves_hi)))).
  { vm_compute. right. right. left. reflexivity. }
  split; [exact Hsent |].
  destruct (@OCRFile_request sample.lib _ _ _ _ _ _ Hsent)
    as (cfg & data & url & k & Hcfg & _ & _ & _ & _ & _ & Hheader & _ & Htimeout).
  injection Hcfg as <-.
  split; [reflexivity |]. split; [exact Hheader | exact Htimeout].
Defined.

Lemma OCRFile_success_only_if_witness :
  exists resp body response,
    snd (@ocr.OCRFile sample.lib sample.client "/home/u/proj/sub/scan.PDF"
           ocr.DefaultOCROptions (sample.world sample.server))
    = [ocr.EvStat "/home/u/proj/sub/scan.PDF"; ocr.EvReadFile "/home/u/proj/sub/scan.PDF";
       ocr.EvDo (mkClient (120 * time_Second)) sample.scan_request]
    /\ sample.server (mkClient (120 * time_Second)) sample.scan_request = Ok resp
    /\ resp_StatusCode resp = 200
    /\ resp_Body resp = Ok body
    /\ sample.unmarshal_response body = Ok response
    /\ ocr.api_ErrorCode response = 0
    /\ ocr.api_LogID response = "log-1".
Proof.
  destruct (@OCRFile_success_only_if sample.lib sample.client "/home/u/proj/sub/scan.PDF"
              ocr.DefaultOCROptions (sample.world sample.server) sample.hi_result)
    as (client & req & resp & body & response
        & Hcalls & Hnet & Hstatus & Hbody & Hjson & Hcode & Hlog & _).
  - vm_compute. reflexivity.
  - reflexivity.
  - assert (Hsame : [ocr.EvStat "/home/u/proj/sub/scan.PDF";
                     ocr.EvReadFile "/home/u/proj/sub/scan.PDF";
                     ocr.EvDo (mkClient (120 * time_Second)) sample.scan_request]
                    = [ocr.EvStat "/home/u/proj/sub/scan.PDF";
                       ocr.EvReadFile "/home/u/proj/sub/scan.PDF"; ocr.EvDo client req]).
    { rewrite <- Hcalls. vm_compute. reflexivity. }
    injection Hsame as <- <-.
    exists resp, body, response.
    split; [vm_compute; reflexivity |]. split; [exact Hnet |]. split; [exact Hstatus |].
    split; [exact Hbody |]. split; [exact Hjson |]. split; [exact Hcode |].
    symmetry. exact Hlog.
Defined.

(** A rejection in the envelope keeps its log id; a transport error has
    none. *)
Lemma OCRFile_api_error_witness :
  fst (@ocr.OCRFile sample.rejecting sample.client "/home/u/proj/sub/scan.PDF"
         ocr.DefaultOCROptions (sample.world sample.serves_hi))
  = ocr.Returns (ocr.mkDocumentOCRResult false [] "API error (500): model overloaded" "log-2")
  /\ forall r,
       fst (@ocr.OCRFile sample.lib sample.client "/home/u/proj/sub/scan.PDF"
              ocr.DefaultOCROptions (sample.world sample.offline)) = ocr.Returns r ->
       ocr.LogID r = "".
Proof.
  split.
  - apply (proj1 (@OCRFile_api_error sample.rejecting sample.client
                    "/home/u/proj/sub/scan.PDF" ocr.DefaultOCROptions
                    (sample.world sample.serves_hi))
             (mkClient (120 * time_Second)) sample.scan_request
             (mkResponse 200 "200 OK" (Ok sample.hi_body)) sample.hi_body
             sample.rejected_envelope).
    + vm_compute. reflexivity.
    + reflexivity.
    + reflexivity.
    + reflexivity.
    + reflexivity.
    + vm_compute. discriminate.
  - intros r Hr.
    assert (Hfail : ocr.Success r = false).
    { pose proof Hr as Hrun. vm_compute in Hrun. injection Hrun as <-. reflexivity. }
    destruct (proj2 (@OCRFile_api_error sample.lib sample.client
                       "/home/u/proj/sub/scan.PDF" ocr.DefaultOCROptions
                       (sample.world sample.offline)) r Hr Hfail)
      as [Hnone | (client & req & resp & _ & _ & Hcalls & Hnet & _)].
    + exact Hnone.
    + assert (Hsame : [ocr.EvStat "/home/u/proj/sub/scan.PDF";
                       ocr.EvReadFile "/home/u/proj/sub/scan.PDF";
                       ocr.EvDo (mkClient (120 * time_Second)) sample.scan_request]
                      = [ocr.EvStat "/home/u/proj/sub/scan.PDF";
                         ocr.EvReadFile "/home/u/proj/sub/scan.PDF";
                         ocr.EvDo client req]).
      { rewrite <- Hcalls. vm_compute. reflexivity. }
      injection Hsame as <- <-. discriminate Hnet.
Defined.

Lemma OCRFile_response_failures_witness :
  fst (@ocr.OCRFile sample.lib sample.client "/home/u/proj/sub/scan.PDF"
         ocr.DefaultOCROptions (sample.world sample.offline))
  = ocr.Returns (ocr.mkDocumentOCRResult false []
                   "Request failed: dial tcp: connection refused" "").
Proof.
  destruct (@OCRFile_response_failures sample.lib sample.client "/home/u/proj/sub/scan.PDF"
              ocr.DefaultOCROptions (sample.world sample.offline)
              (mkClient (120 * time_Second)) sample.scan_request)
    as (Hnet & _ & _).
  - vm_compute. reflexivity.
  - apply (Hnet sample.no_route). reflexivity.
Defined.

Lemma NewClient_nil_panics_witness :
  @ocr.OCRFile sample.lib (@ocr.NewClient sample.yaml None sample.world_unreadable)
    "/home/u/proj/sub/scan.PDF" ocr.DefaultOCROptions sample.world_unreadable
  = (ocr.Panics, [ocr.EvStat "/home/u/proj/sub/scan.PDF"]).
Proof.
  apply (@NewClient_nil_panics sample.lib sample.yaml sample.world_unreadable
           "/home/u/proj/sub/scan.PDF" ocr.DefaultOCROptions
           (PathError "read" "/home/u/proj/sub/.paddleocr_cli.yaml" EISDIR)).
  - vm_compute. reflexivity.
  - vm_compute. reflexivity.
Defined.

Lemma TestConnection_no_token_witness :
  @ocr.TestConnection sample.lib sample.health sample.unconfigured
    (sample.world sample.server)
  = (ocr.Returns (false, "Access token not configured"), []).
Proof.
  apply (@TestConnection_no_token sample.lib sample.health sample.unconfigured config.New).
  - reflexivity.
  - reflexivity.
Defined.

Lemma TestConnection_request_witness :
  sample.health_request
  = mkRequest "GET" ("https://ocr.example.com" +:+ "/health")
      (health_headers "secret-token") ""
  /\ snd (@ocr.TestConnection sample.lib sample.health sample.client
            (sample.world sample.server))
     = [ocr.EvDo (mkClient (10 * time_Second)) sample.health_request].
Proof.
  destruct (@TestConnection_request sample.lib sample.health sample.client
              (sample.world sample.server) (mkClient (10 * time_Second))
              sample.health_request)
    as (cfg & url & k & Hcfg & _ & _ & _ & Hreq & Hcalls).
  - vm_compute. left. reflexivity.
  - injection Hcfg as <-. split; [| exact Hcalls].
    vm_compute. reflexivity.
Defined.

Lemma TestConnection_success_only_if_witness :
  exists req resp,
    snd (@ocr.TestConnection sample.lib sample.health sample.client
           (sample.world sample.server))
    = [ocr.EvDo (mkClient (10 * time_Second)) req]
    /\ sample.server (mkClient (10 * time_Second)) req = Ok resp
    /\ resp_StatusCode resp = 200.
Proof.
  destruct (@TestConnection_success_only_if sample.lib sample.health sample.client
              (sample.world sample.server) "Connection successful")
    as (_ & req & resp & body & response & Hcalls & Hnet & Hstatus & _).
  - vm_compute. reflexivity.
  - exists req, resp. split; [exact Hcalls |]. split; [exact Hnet | exact Hstatus].
Defined.

(** The sample scan with an output file on a full device: the run fails,
    nothing is printed, the output file is made and left empty, and the
    scan is as it was. *)
Lemma runOCR_failure_writes_nothing_witness :
  let f := main.mkFlags "/home/u/proj/sub/out.md" false (-1) false 120 false false false
             true "" "" "" false false false "user" in
  let run := @main.runOCR sample.yaml sample.lib sample.cli f
               "/home/u/proj/sub/scan.PDF" (main.start sample.world_full) in
  fst run = main.Exit 1
  /\ main.p_stdout (snd run) = ""
  /\ fs_node (main.p_world (snd run)) "/home/u/proj/sub/out.md" = Some (NFile "" 420)
  /\ w_fs (main.p_world (snd run)) !! "/home/u/proj/sub/scan.PDF"
     = Some (NFile "%PDF-1.7" 420).
Proof.
  intros f run.
  assert (Hexit : fst run = main.Exit 1) by (vm_compute; reflexivity).
  destruct (@runOCR_failure_writes_nothing sample.yaml sample.lib sample.cli f
              "/home/u/proj/sub/scan.PDF" (main.start sample.world_full)
              (snd run) (fst run) (surjective_pairing run))
    as (Hout & _ & _ & Hkeep).
  - rewrite Hexit. discriminate.
  - split; [exact Hexit |]. split; [exact Hout |].
    split; [vm_compute; reflexivity |].
    rewrite (Hkeep "/home/u/proj/sub/scan.PDF"); [vm_compute; reflexivity |].
    vm_compute. discriminate.
Defined.

Lemma runOCR_success_witness :
  let run := @main.runOCR sample.yaml sample.lib sample.cli main.defaultFlags
               "/home/u/proj/sub/scan.PDF" (main.start (sample.world sample.server)) in
  main.p_stdout (snd run) = ocr.FullMarkdown sample.hi_result +:+ LF
  /\ main.p_world (snd run) = sample.world sample.server.
Proof.
  intros run.
  destruct (@runOCR_success sample.yaml sample.lib sample.cli main.defaultFlags
              "/home/u/proj/sub/scan.PDF" (main.start (sample.world sample.server))
              (snd run))
    as (cfg & result & output & Hload & _ & Hocr & _ & Hfull & Hout & _).
  - vm_compute. reflexivity.
  - assert (Hcfg : Ok sample.settings = Ok cfg).
    { rewrite <- Hload. vm_compute. reflexivity. }
    injection Hcfg as <-.
    assert (Hresult : ocr.Returns sample.hi_result = ocr.Returns result).
    { rewrite <- Hocr. vm_compute. reflexivity. }
    injection Hresult as <-.
    rewrite <- (Hfull eq_refl ltac:(reflexivity) eq_refl).
    exact (Hout eq_refl).
Defined.

Lemma markdownOutput_page_witness :
  let f := main.mkFlags "" false 0 true 120 false false false false ""
             "" "" false false false "user" in
  main.markdownOutput f sample.hi_result (main.start (sample.world sample.offline))
  = (main.Done "hi", main.start (sample.world sample.offline)).
Proof.
  intros f.
  apply (proj1 (markdownOutput_page f sample.hi_result
                  (main.start (sample.world sample.offline)) ltac:(simpl; lia))
           (ocr.mkOCRResult 0 "hi" (Some ∅))).
  reflexivity.
Defined.

(** A timeout of thirty seconds on the command line. *)
Lemma runOCR_timeout_witness :
  let f := main.mkFlags "" false (-1) false 30 false false false false ""
             "" "" false false false "user" in
  let run := @main.runOCR sample.yaml sample.lib sample.cli f
               "/home/u/proj/sub/scan.PDF" (main.start (sample.world sample.server)) in
  forallb (fun e => match e with
                    | ocr.EvDo client _ => http_Timeout client =? 30000000000
                    | _ => true
                    end) (main.p_calls (snd run)) = true.
Proof.
  intros f run. apply forallb_forall. intros e He.
  destruct e as [name | name | client req]; [reflexivity | reflexivity |].
  apply Z.eqb_eq.
  apply (proj1 (proj2 (@runOCR_timeout sample.yaml sample.lib sample.cli f
                  "/home/u/proj/sub/scan.PDF" (sample.world sample.server)
                  (fst run) (snd run) client req (surjective_pairing run) He))).
  simpl. lia.
Defined.

Lemma runConfigure_looks_only_witness :
  let f := main.mkFlags "" false (-1) false 120 false false false false ""
             "" "" false false true "user" in
  let run := @main.runConfigure sample.yaml sample.lib sample.health f
               (main.start (sample.world sample.offline)) in
  fst run = main.Done tt
  /\ main.p_world (snd run) = sample.world sample.offline
  /\ main.p_calls (snd run) = []
  /\ main.p_stderr (snd run) = "".
Proof.
  intros f run.
  exact (proj1 (@runConfigure_looks_only sample.yaml sample.lib sample.health f
                  (main.start (sample.world sample.offline)) (snd run) (fst run)
                  (surjective_pairing run)) eq_refl).
Defined.

Lemma runConfigure_nothing_to_set_witness :
  let run := @main.runConfigure sample.yaml sample.lib sample.health main.defaultFlags
               (main.start (sample.world sample.offline)) in
  fst run = main.Exit 1
  /\ main.p_world (snd run) = sample.world sample.offline
  /\ main.p_stdout (snd run) = ""
  /\ main.p_calls (snd run) = [].
Proof.
  intros run.
  exact (@runConfigure_nothing_to_set sample.yaml sample.lib sample.health
           main.defaultFlags (main.start (sample.world sample.offline))
           eq_refl eq_refl eq_refl eq_refl eq_refl).
Defined.

(** A new token for the current directory: the server URL is kept. *)
Lemma runConfigure_saves_update_witness :
  let f := main.mkFlags "" false (-1) false 120 false false false false ""
             "new-token-123" "" false false false "local" in
  let run := @main.runConfigure sample.yaml sample.lib sample.health f
               (main.start (sample.world sample.offline)) in
  @config.Load sample.yaml "/home/u/proj/sub/.paddleocr_cli.yaml" (main.p_world (snd run))
  = Ok (config.mkConfig
          (config.mkPaddleOCRConfig "https://ocr.example.com/" "new-token-123")).
Proof.
  intros f run.
  destruct (@runConfigure_saves_update sample.yaml sample.lib sample.health f
              (main.start (sample.world sample.offline)) (snd run)
              eq_refl eq_refl eq_refl)
    as (cfg & savePath & Hload & Hpath & _ & _ & _ & Hback).
  - vm_compute. reflexivity.
  - assert (Hcfg : Ok sample.settings = Ok cfg).
    { rewrite <- Hload. vm_compute. reflexivity. }
    assert (Hsave : Ok "/home/u/proj/sub/.paddleocr_cli.yaml" = Ok savePath).
    { rewrite <- Hpath. vm_compute. reflexivity. }
    injection Hcfg as <-. injection Hsave as <-.
    apply Hback. intros data Hdata. vm_compute in Hdata. injection Hdata as <-.
    vm_compute. reflexivity.
Defined.

Lemma runOCR_sends_loaded_token_witness :
  let run := @main.runOCR sample.yaml sample.lib sample.cli main.defaultFlags
               "/home/u/proj/sub/scan.PDF" (main.start (sample.world sample.server)) in
  req_Header sample.scan_request = ocr_headers "secret-token"
  /\ main.p_calls (snd run)
     = [ocr.EvStat "/home/u/proj/sub/scan.PDF"; ocr.EvStat "/home/u/proj/sub/scan.PDF";
        ocr.EvReadFile "/home/u/proj/sub/scan.PDF";
        ocr.EvDo (mkClient (120 * time_Second)) sample.scan_request].
Proof.
  intros run.
  destruct (@runOCR_sends_loaded_token sample.yaml sample.lib sample.cli main.defaultFlags
              "/home/u/proj/sub/scan.PDF" (sample.world sample.server)
              (fst run) (snd run) (mkClient (120 * time_Second)) sample.scan_request
              (surjective_pairing run))
    as (cfg & Hload & _ & Hheader & Hcalls).
  - vm_compute. right. right. right. left. reflexivity.
  - assert (Hcfg : Ok sample.settings = Ok cfg).
    { rewrite <- Hload. vm_compute. reflexivity. }
    injection Hcfg as <-. split; [exact Hheader | exact Hcalls].
Defined.

Lemma runOCR_quiet_witness :
  let f := main.mkFlags "" false (-1) false 120 false false false true ""
             "" "" false false false "user" in
  let run := @main.runOCR sample.yaml sample.lib sample.cli f
               "/home/u/proj/sub/scan.PDF" (main.start (sample.world sample.server)) in
  main.p_stdout (snd run) = "hi" +:+ LF /\ main.p_stderr (snd run) = "".
Proof.
  intros f run. split; [vm_compute; reflexivity |].
  apply (@runOCR_quiet sample.yaml sample.lib sample.cli f "/home/u/proj/sub/scan.PDF"
           (main.start (sample.world sample.server)) (snd run) eq_refl).
  vm_compute. reflexivity.
Defined.

Lemma runConfigure_test_witness :
  let f := main.mkFlags "" false (-1) false 120 false false false false ""
             "" "" false true false "user" in
  let run := @main.runConfigure sample.yaml sample.lib sample.health f
               (main.start (sample.world sample.server)) in
  fst run = main.Done tt /\ main.p_world (snd run) = sample.world sample.server.
Proof.
  intros f run.
  destruct (@runConfigure_test sample.yaml sample.lib sample.health f
              (main.start (sample.world sample.server)) (snd run) (fst run)
              eq_refl eq_refl eq_refl (surjective_pairing run))
    as (Hworld & Hdone & _).
  split; [| exact Hworld].
  apply Hdone. exists sample.settings, "Connection successful".
  split; [vm_compute; reflexivity |]. split; vm_compute; reflexivity.
Defined.
